(** * Allele-Frq-Calculator: get_vcf_frqs.py

    A shallow embedding of the script [get_vcf_frqs.py] and proofs about its
    grouping-table loader ([get_groupings]), sample resolver and group index
    builder (the [#CHROM] branch of [main]), frequency aggregator
    ([get_frequencies]) and output writer (the data-line branch of [main]).

    Conventions of the embedding.
    - A Python [str] is a [string]; a character is a code point in 0..255.
    - A Python [int] that is a list index or comes from [range(len(..))] is a
      [nat]; the counters of [get_frequencies] are [Z].
    - [sums[g]/counts[g]] is Python's true division.  The embedding keeps the
      exact quotient as a reduced rational; Python stores the double nearest
      to it.
    - A [dict] is an association list in insertion order (Python dictionaries
      iterate in insertion order); a [defaultdict] is a [dict] whose
      subscript inserts the default for an absent key.
    - A [set] is an abstract type with [add] and [in] only ([PySet]); the
      script never iterates over a set.
    - Exceptions are values of [exn]; code that can raise returns [result].
    - The output file is the list of its finished lines, each the list of its
      tab-separated cells, together with the cells of the line being
      written. *)

From Stdlib Require Import List String Ascii Bool Arith ZArith QArith Lia.
Import ListNotations.

Local Open Scope nat_scope.
Local Open Scope list_scope.

(* ================================================================== *)
(** ** Exceptions and the error monad *)

Inductive exn : Type :=
| KeyError_int (k : nat)
| KeyError_str (k : string)
| IndexError
| ZeroDivisionError
| UnboundLocalError.

Inductive result (A : Type) : Type :=
| Ok (a : A)
| Err (e : exn).

Arguments Ok {A} a.
Arguments Err {A} e.

Definition bind {A B} (c : result A) (k : A -> result B) : result B :=
  match c with
  | Ok a => k a
  | Err e => Err e
  end.

Notation "x <- c ;; k" := (bind c (fun x => k))
  (at level 61, c at next level, right associativity).
Notation "' p <- c ;; k" := (bind c (fun x => let p := x in k))
  (at level 61, p pattern, c at next level, right associativity).

(** [for b in l: a = f(a, b)], stopping at the first exception. *)
Fixpoint foldM {A B} (f : A -> B -> result A) (l : list B) (a : A) : result A :=
  match l with
  | [] => Ok a
  | b :: l' => a' <- f a b ;; foldM f l' a'
  end.

(** A list comprehension whose element expression can raise. *)
Fixpoint mapM {A B} (f : A -> result B) (l : list A) : result (list B) :=
  match l with
  | [] => Ok []
  | a :: l' => b <- f a ;; bs <- mapM f l' ;; Ok (b :: bs)
  end.

(* ================================================================== *)
(** ** Python strings *)

Definition tab : ascii := ascii_of_nat 9.
Definition underscore : ascii := "_"%char.
Definition hash_mark : string := "#"%string.
Definition chrom_mark : string := "#CHROM"%string.

(** [str.isspace] on the code points 0..255. *)
Definition isspace (c : ascii) : bool :=
  let n := nat_of_ascii c in
  ((9 <=? n) && (n <=? 13)) || ((28 <=? n) && (n <=? 32))
  || (n =? 133) || (n =? 160).

(** [str.isdigit] on the code points 0..255: the decimal digits and the
    superscript digits U+00B2, U+00B3, U+00B9. *)
Definition isdigit (c : ascii) : bool :=
  let n := nat_of_ascii c in
  ((48 <=? n) && (n <=? 57)) || (n =? 178) || (n =? 179) || (n =? 185).

(** [str.isdecimal] on the code points 0..255: the characters 0-9. *)
Definition isdecimal (c : ascii) : bool :=
  let n := nat_of_ascii c in (48 <=? n) && (n <=? 57).

(** [s.rstrip()]. *)
Fixpoint rstrip (s : string) : string :=
  match s with
  | EmptyString => EmptyString
  | String c s' =>
      match rstrip s' with
      | EmptyString => if isspace c then EmptyString else String c EmptyString
      | r => String c r
      end
  end.

(** Splitting at every character that satisfies [p]; [k] separators give
    [k + 1] fields, empty ones included. *)
Fixpoint split_on (p : ascii -> bool) (s : string) : list string :=
  match s with
  | EmptyString => [EmptyString]
  | String c s' =>
      if p c then EmptyString :: split_on p s'
      else match split_on p s' with
           | [] => [String c EmptyString]
           | t :: ts => String c t :: ts
           end
  end.

(** [s.split(sep)] for a one-character separator. *)
Definition split_char (sep : ascii) (s : string) : list string :=
  split_on (Ascii.eqb sep) s.

Definition nonempty (s : string) : bool :=
  match s with EmptyString => false | _ => true end.

(** [s.split()]: the maximal runs of non-whitespace characters. *)
Definition split_ws (s : string) : list string :=
  filter nonempty (split_on isspace s).

(** [s.startswith(p)]. *)
Definition startswith (s p : string) : bool := String.prefix p s.

(** [s.count(c)] for a one-character [c]. *)
Fixpoint count_char (c : ascii) (s : string) : Z :=
  match s with
  | EmptyString => 0
  | String a s' => ((if Ascii.eqb a c then 1 else 0) + count_char c s')%Z
  end.

(** [sum(character.isdigit() for character in s)]. *)
Fixpoint count_isdigit (s : string) : Z :=
  match s with
  | EmptyString => 0
  | String a s' => ((if isdigit a then 1 else 0) + count_isdigit s')%Z
  end.

(** The number of decimal-digit characters of [s]. *)
Fixpoint count_decimal (s : string) : Z :=
  match s with
  | EmptyString => 0
  | String a s' => ((if isdecimal a then 1 else 0) + count_decimal s')%Z
  end.

(** [sep.join(l)]. *)
Fixpoint join (sep : ascii) (l : list string) : string :=
  match l with
  | [] => EmptyString
  | [t] => t
  | t :: l' => (t ++ String sep (join sep l'))%string
  end.

(** [c not in s]. *)
Fixpoint lacks (c : ascii) (s : string) : bool :=
  match s with
  | EmptyString => true
  | String a s' => negb (Ascii.eqb c a) && lacks c s'
  end.

(* ================================================================== *)
(** ** Python lists *)

(** [l[i]] with a possibly negative index. *)
Definition py_getitem {A} (l : list A) (i : Z) : result A :=
  let n := Z.of_nat (List.length l) in
  let j := if (i <? 0)%Z then (i + n)%Z else i in
  if (0 <=? j)%Z && (j <? n)%Z then
    match nth_error l (Z.to_nat j) with
    | Some a => Ok a
    | None => Err IndexError
    end
  else Err IndexError.

(* ================================================================== *)
(** ** Dictionaries *)

Class EqKey (K : Type) : Type := {
  keqb : K -> K -> bool;
  keqb_eq : forall a b, keqb a b = true <-> a = b;
  key_error : K -> exn
}.

#[export] Instance EqKey_nat : EqKey nat :=
  {| keqb := Nat.eqb; keqb_eq := Nat.eqb_eq; key_error := KeyError_int |}.

#[export] Instance EqKey_string : EqKey string :=
  {| keqb := String.eqb; keqb_eq := String.eqb_eq; key_error := KeyError_str |}.

Abbreviation dict K V := (list (K * V)) (only parsing).

Section Dict.
Context {K V : Type} `{EqKey K}.

(** [d.get(k)]. *)
Fixpoint dict_get (d : dict K V) (k : K) : option V :=
  match d with
  | [] => None
  | (k', v) :: d' => if keqb k' k then Some v else dict_get d' k
  end.

(** [d[k]]. *)
Definition dict_getitem (d : dict K V) (k : K) : result V :=
  match dict_get d k with
  | Some v => Ok v
  | None => Err (key_error k)
  end.

(** [d[k] = v]: an existing key keeps its place, a new key goes last. *)
Fixpoint dict_set (d : dict K V) (k : K) (v : V) : dict K V :=
  match d with
  | [] => [(k, v)]
  | (k', v') :: d' =>
      if keqb k' k then (k', v) :: d' else (k', v') :: dict_set d' k v
  end.

(** [d[k]] on a [defaultdict] whose factory returns [dflt]: the value and
    the dictionary afterwards. *)
Definition dd_getitem (dflt : V) (d : dict K V) (k : K) : V * dict K V :=
  match dict_get d k with
  | Some v => (v, d)
  | None => (dflt, d ++ [(k, dflt)])
  end.

Definition dict_keys (d : dict K V) : list K := map fst d.
Definition dict_values (d : dict K V) : list V := map snd d.

Fixpoint key_in (k : K) (l : list K) : bool :=
  match l with
  | [] => false
  | k' :: l' => keqb k' k || key_in k l'
  end.

Fixpoint keys_distinct (l : list K) : bool :=
  match l with
  | [] => true
  | k :: l' => negb (key_in k l') && keys_distinct l'
  end.

(** No key occurs twice: the association list is a dictionary. *)
Definition dict_wf (d : dict K V) : bool := keys_distinct (dict_keys d).
End Dict.

(* ================================================================== *)
(** ** Sets *)

Class PySet (A : Type) : Type := {
  pyset : Type;
  set_empty : pyset;
  set_add : A -> pyset -> pyset;
  set_mem : A -> pyset -> bool;
  set_mem_empty : forall x, set_mem x set_empty = false;
  set_mem_add : forall x y s,
      set_mem x (set_add y s) = true <-> x = y \/ set_mem x s = true
}.

(* ================================================================== *)
(** ** The output file *)

Inductive cell : Type :=
| Str (s : string)
| Float (q : Q)
| Int (z : Z).

Record ofh : Type := { done : list (list cell); pending : list cell }.

Definition ofh_open : ofh := {| done := []; pending := [] |}.

(** A computation that writes to the output file and can raise; what was
    written before an exception stays written. *)
Definition W (A : Type) : Type := ofh -> result A * ofh.

Definition retW {A} (a : A) : W A := fun o => (Ok a, o).

Definition bindW {A B} (c : W A) (k : A -> W B) : W B :=
  fun o => match c o with
           | (Ok a, o') => k a o'
           | (Err e, o') => (Err e, o')
           end.

Definition liftW {A} (r : result A) : W A := fun o => (r, o).

Notation "x <~ c ;; k" := (bindW c (fun x => k))
  (at level 61, c at next level, right associativity).
Notation "c ;;; k" := (bindW c (fun _ => k))
  (at level 61, right associativity).

(** [ofh.write(text)] where [text] is [cs] joined by tabs, or a tab followed
    by that. *)
Definition write_cells (cs : list cell) : W unit :=
  fun o => (Ok tt, {| done := done o; pending := pending o ++ cs |}).

(** [ofh.write('\n')]. *)
Definition write_nl : W unit :=
  fun o => (Ok tt, {| done := done o ++ [pending o]; pending := [] |}).

Fixpoint forW {B} (l : list B) (body : B -> W unit) : W unit :=
  match l with
  | [] => retW tt
  | b :: l' => body b ;;; forW l' body
  end.

(* ================================================================== *)
(** ** The script *)

(** [a / b] on integers. *)
Definition true_div (a b : Z) : result Q :=
  if (b =? 0)%Z then Err ZeroDivisionError
  else Ok (Qred (inject_Z a / inject_Z b)).

(** The sets of the script: column positions, and labels. *)
Abbreviation int_set := (@pyset nat _) (only parsing).
Abbreviation str_set := (@pyset string _) (only parsing).
(** [grouping_dict]: individual -> (grouping system -> label). *)
Abbreviation grouping_table := (list (string * list (string * string)))
  (only parsing).
(** [grouping_headers]: grouping system -> set of labels. *)
Abbreviation grouping_systems := (list (string * str_set)) (only parsing).
(** [group_sets]: label -> set of sample column positions. *)
Abbreviation group_index := (list (string * int_set)) (only parsing).

Section Script.
Context {SI : PySet nat} {SS : PySet string}.

(** *** get_groupings *)

(** Lines 61-65: [header_names]. *)
Definition read_header_names (header : string) : dict nat string :=
  let header_fields := split_ws (rstrip header) in
  fold_left
    (fun header_names group_index =>
       dict_set header_names group_index
                (nth (group_index + 1) header_fields EmptyString))
    (seq 0 (List.length (skipn 1 header_fields))) [].

(** Lines 71-72: the body of the inner loop. *)
Definition add_label (header_names : dict nat string) (fields : list string)
    (acc : grouping_table * grouping_systems) (group_index : nat)
  : result (grouping_table * grouping_systems) :=
  let '(grouping_dict, grouping_headers) := acc in
  individual <- py_getitem fields 0 ;;
  let '(labels, grouping_dict) :=
    dd_getitem [] grouping_dict individual in
  system <- dict_getitem header_names group_index ;;
  label <- py_getitem fields (Z.of_nat (group_index + 1)) ;;
  let grouping_dict :=
    dict_set grouping_dict individual (dict_set labels system label) in
  system <- dict_getitem header_names group_index ;;
  let '(seen, grouping_headers) :=
    dd_getitem set_empty grouping_headers system in
  label <- py_getitem fields (Z.of_nat (group_index + 1)) ;;
  Ok (grouping_dict, dict_set grouping_headers system (set_add label seen)).

(** Lines 69-72: one data row of the grouping file. *)
Definition add_row (header_names : dict nat string)
    (acc : grouping_table * grouping_systems) (line : string)
  : result (grouping_table * grouping_systems) :=
  let fields := split_ws (rstrip line) in
  foldM (add_label header_names fields)
        (seq 0 (List.length (skipn 1 fields))) acc.

(** [get_groupings], on the lines of the grouping file. *)
Definition get_groupings (fh : list string)
  : result (grouping_table * grouping_systems) :=
  let header := match fh with [] => EmptyString | l :: _ => l end in
  let header_names := read_header_names header in
  foldM (add_row header_names) (skipn 1 fh) ([], []).

(** *** get_frequencies *)

(** Lines 96-98: the body of the first loop. *)
Definition init_group (acc : dict string Z * dict string Z * dict string Q)
    (group_name : string) : dict string Z * dict string Z * dict string Q :=
  let '(sums, counts, frqs) := acc in
  (dict_set sums group_name 0%Z, dict_set counts group_name 0%Z,
   dict_set frqs group_name 0%Q).

(** Lines 90-98. *)
Definition init_tables (group_names : list string)
  : dict string Z * dict string Z * dict string Q :=
  fold_left init_group group_names ([], [], []).

(** Lines 102-104: the body of the inner loop. *)
Definition tally (genotype_list : list string) (group_index_list : group_index)
    (individual_index : nat) (acc : dict string Z * dict string Z)
    (group_name : string) : result (dict string Z * dict string Z) :=
  let '(sums, counts) := acc in
  members <- dict_getitem group_index_list group_name ;;
  if set_mem individual_index members then
    let genotype := nth individual_index genotype_list EmptyString in
    s <- dict_getitem sums group_name ;;
    let sums := dict_set sums group_name (s + count_char "1" genotype)%Z in
    c <- dict_getitem counts group_name ;;
    let counts := dict_set counts group_name (c + count_isdigit genotype)%Z in
    Ok (sums, counts)
  else Ok (sums, counts).

(** Lines 101-104: the inner loop. *)
Definition tally_individual (genotype_list : list string)
    (group_index_list : group_index) (acc : dict string Z * dict string Z)
    (individual_index : nat) : result (dict string Z * dict string Z) :=
  foldM (tally genotype_list group_index_list individual_index)
        (dict_keys group_index_list) acc.

(** Line 107. *)
Definition divide (sums counts : dict string Z) (frqs : dict string Q)
    (group_name : string) : result (dict string Q) :=
  s <- dict_getitem sums group_name ;;
  c <- dict_getitem counts group_name ;;
  q <- true_div s c ;;
  Ok (dict_set frqs group_name q).

Definition get_frequencies (genotype_list : list string)
    (group_index_list : group_index)
  : result (dict string Q * dict string Z) :=
  let group_names := dict_keys group_index_list in
  let '(sums, counts, frqs) := init_tables group_names in
  '(sums, counts) <-
    foldM (tally_individual genotype_list group_index_list)
          (seq 0 (List.length genotype_list)) (sums, counts) ;;
  frqs <- foldM (divide sums counts) group_names frqs ;;
  Ok (frqs, counts).

(** *** main *)

(** Lines 137-140. *)
Definition use_iid (use_fid : bool) : Z := if use_fid then 2%Z else 1%Z.

(** [sample_name.split("_")[-use_iid]]. *)
Definition resolve (use_fid : bool) (sample_name : string) : result string :=
  py_getitem (split_char underscore sample_name) (- use_iid use_fid)%Z.

(** Line 169. *)
Definition read_sample_names (use_fid : bool) (line : string)
  : result (list string) :=
  mapM (resolve use_fid) (skipn 9 (split_char tab (rstrip line))).

(** Line 176: [group_sets[group_type].add(individual_index)]. *)
Definition add_member (individual_index : nat) (group_sets : group_index)
    (group_type : string) : group_index :=
  let '(members, group_sets) := dd_getitem set_empty group_sets group_type in
  dict_set group_sets group_type (set_add individual_index members).

(** Lines 175-176. *)
Definition add_individual (sample_names : list string)
    (acc : grouping_table * group_index) (individual_index : nat)
  : grouping_table * group_index :=
  let '(grouping_info, group_sets) := acc in
  let '(labels, grouping_info) :=
    dd_getitem [] grouping_info
               (nth individual_index sample_names EmptyString) in
  (grouping_info,
   fold_left (add_member individual_index) (dict_values labels) group_sets).

(** Lines 172-176. *)
Definition build_group_sets (grouping_info : grouping_table)
    (sample_names : list string) : grouping_table * group_index :=
  fold_left (add_individual sample_names)
            (seq 0 (List.length sample_names)) (grouping_info, []).

Definition fixed_columns : list cell :=
  [Str "Chr"; Str "Position"; Str "rsID"; Str "Ref"; Str "Alt"].

Definition header_cells (group_name : string) : list cell :=
  [Str (group_name ++ "_freq"); Str (group_name ++ "_count")].

(** Lines 169-182: the [#CHROM] branch. *)
Definition header_line (use_fid : bool) (grouping_info : grouping_table)
    (line : string) : W (grouping_table * group_index) :=
  sample_names <~ liftW (read_sample_names use_fid line) ;;
  let '(grouping_info, group_sets) :=
    build_group_sets grouping_info sample_names in
  write_cells fixed_columns ;;;
  forW (dict_keys group_sets)
       (fun group_name => write_cells (header_cells group_name)) ;;;
  write_nl ;;;
  retW (grouping_info, group_sets).

(** Lines 159-165: the data-line branch. *)
Definition data_line (group_sets : option group_index) (line : string)
  : W unit :=
  let fields := split_char tab (rstrip line) in
  write_cells (map Str (firstn 5 fields)) ;;;
  r <~ liftW (match group_sets with
              | None => Err UnboundLocalError
              | Some group_sets => get_frequencies (skipn 9 fields) group_sets
              end) ;;
  let '(freqs, count) := r in
  forW (dict_keys freqs)
       (fun group_name =>
          f <~ liftW (dict_getitem freqs group_name) ;;
          c <~ liftW (dict_getitem count group_name) ;;
          write_cells [Float f; Int c]) ;;;
  write_nl.

(** The local variables of [main] that live across lines. *)
Definition locals : Type := grouping_table * option group_index.

(** Lines 157-182: the body of the loop over the variant file. *)
Definition process_line (use_fid : bool) (st : locals) (line : string)
  : W locals :=
  let '(grouping_info, group_sets) := st in
  if negb (startswith line hash_mark) then
    data_line group_sets line ;;; retW (grouping_info, group_sets)
  else if startswith line chrom_mark then
    r <~ header_line use_fid grouping_info line ;;
    retW (fst r, Some (snd r))
  else retW (grouping_info, group_sets).

Fixpoint process_lines (use_fid : bool) (lines : list string) (st : locals)
  : W unit :=
  match lines with
  | [] => retW tt
  | line :: rest =>
      st' <~ process_line use_fid st line ;;
      process_lines use_fid rest st'
  end.

(** [main], on the [--use-fid] flag and the lines of the two input files.
    The output file is opened only after the grouping file is loaded. *)
Definition main (use_fid : bool) (grouping_file input_file : list string)
  : option ofh * result unit :=
  match get_groupings grouping_file with
  | Err e => (None, Err e)
  | Ok (grouping_info, _) =>
      let '(r, o) :=
        process_lines use_fid input_file (grouping_info, None) ofh_open in
      (Some o, r)
  end.

End Script.

(** Sets as duplicate-free lists, newest element last. *)
Section ListSet.
Context {A : Type} `{EqKey A}.

Definition ls_add (x : A) (s : list A) : list A :=
  if key_in x s then s else s ++ [x].

Lemma key_in_In (x : A) (s : list A) : key_in x s = true <-> In x s.
Proof.
  induction s as [|y s IH]; simpl.
  - split; [discriminate | tauto].
  - rewrite orb_true_iff, keqb_eq, IH. tauto.
Qed.

Lemma ls_mem_add (x y : A) (s : list A) :
  key_in x (ls_add y s) = true <-> x = y \/ key_in x s = true.
Proof.
  unfold ls_add. destruct (key_in y s) eqn:E.
  - split; [tauto|]. intros [->|]; assumption.
  - rewrite !key_in_In, in_app_iff. simpl. intuition.
Qed.

Definition ListSet : PySet A :=
  {| pyset := list A; set_empty := []; set_add := ls_add; set_mem := key_in;
     set_mem_empty := fun _ => eq_refl; set_mem_add := ls_mem_add |}.
End ListSet.

#[export] Instance ListSet_nat : PySet nat := ListSet.
#[export] Instance ListSet_string : PySet string := ListSet.




(* ================================================================== *)
(** ** Quantities the properties are stated with *)

Fixpoint zsum (l : list Z) : Z :=
  match l with
  | [] => 0
  | z :: l' => (z + zsum l')%Z
  end.

(** The dictionary with the keys of [d], in the same order, and [f] applied
    to each value. *)
Definition tabulate {V U : Type} (f : V -> U) (d : dict string V)
  : dict string U :=
  map (fun kv => (fst kv, f (snd kv))) d.

(** The labels recorded for an individual, none when it is not in the table. *)
Definition labels_of (grouping_info : list (string * list (string * string)))
    (individual : string) : list (string * string) :=
  match dict_get grouping_info individual with
  | Some labels => labels
  | None => []
  end.

(** The pairs (column position, label) in the order the index builder meets
    them: samples in header order, each with its labels in the order of the
    grouping systems. *)
Definition assignments (grouping_info : list (string * list (string * string)))
    (sample_names : list string) : list (nat * string) :=
  flat_map (fun i => map (fun label => (i, label))
                         (dict_values
                            (labels_of grouping_info
                                       (nth i sample_names EmptyString))))
           (seq 0 (List.length sample_names)).

(** The distinct elements of a list in the order of their first
    occurrence. *)
Fixpoint first_seen (l : list string) : list string :=
  match l with
  | [] => []
  | x :: l' => x :: filter (fun y => negb (String.eqb x y)) (first_seen l')
  end.

(** The number of grouping systems named by the header line of the grouping
    file, and the number of labels on a data row. *)
Definition n_systems (header : string) : nat :=
  List.length (skipn 1 (split_ws (rstrip header))).

Definition n_labels (line : string) : nat :=
  List.length (skipn 1 (split_ws (rstrip line))).

(** Two results agree: the same exception, or values related by [R]. *)
Definition result_rel {A B} (R : A -> B -> Prop)
    (r1 : result A) (r2 : result B) : Prop :=
  match r1, r2 with
  | Ok a, Ok b => R a b
  | Err e1, Err e2 => e1 = e2
  | _, _ => False
  end.

(** The tab-separated fields of a line of the variant file, and its genotype
    fields. *)
Definition fields_of (line : string) : list string :=
  split_char tab (rstrip line).

Definition genotypes (line : string) : list string := skipn 9 (fields_of line).

(** A data row: a line that does not start with the comment mark. *)
Definition is_data (line : string) : bool := negb (startswith line hash_mark).

(** The header line of the output for the labels in the given order. *)
Definition header_row (labels : list string) : list cell :=
  fixed_columns ++ flat_map header_cells labels.

Section Quantities.
Context {SI : PySet nat}.

(** The genotype fields of a data row at the column positions of a group. *)
Definition group_fields (genotype_list : list string) (members : int_set)
  : list string :=
  map (fun i => nth i genotype_list EmptyString)
      (filter (fun i => set_mem i members)
              (seq 0 (List.length genotype_list))).

(** Occurrences of the character 1 over the fields of the group. *)
Definition allele_hits (genotype_list : list string) (members : int_set) : Z :=
  zsum (map (count_char "1") (group_fields genotype_list members)).

(** Characters with [isdigit] over the fields of the group. *)
Definition call_total (genotype_list : list string) (members : int_set) : Z :=
  zsum (map count_isdigit (group_fields genotype_list members)).

(** Decimal-digit characters over the fields of the group. *)
Definition decimal_total (genotype_list : list string) (members : int_set)
  : Z :=
  zsum (map count_decimal (group_fields genotype_list members)).

(** The frequency of a group on a data row, as an exact quotient. *)
Definition frequency (genotype_list : list string) (members : int_set) : Q :=
  Qred (inject_Z (allele_hits genotype_list members)
        / inject_Z (call_total genotype_list members)).

(** Every group has a digit among its fields. *)
Definition all_called (genotype_list : list string) (gs : group_index) : bool :=
  forallb (fun kv => negb (call_total genotype_list (snd kv) =? 0)%Z) gs.

(** [i in group_sets[label]], false when the label has no entry. *)
Definition in_group (gs : group_index) (label : string) (i : nat) : bool :=
  match dict_get gs label with
  | Some members => set_mem i members
  | None => false
  end.

(** The effect of one individual on the counter of one group. *)
Definition bump (w : string -> Z) (gl : list string) (i : nat)
    (f : int_set -> Z) : int_set -> Z :=
  fun s => if set_mem i s then (f s + w (nth i gl EmptyString))%Z else f s.

Fixpoint bumps (w : string -> Z) (gl : list string) (l : list nat)
    (f : int_set -> Z) : int_set -> Z :=
  match l with
  | [] => f
  | i :: l' => bumps w gl l' (bump w gl i f)
  end.

(** The frequency and count cells of a data row, one pair per group in the
    order of the index. *)
Definition group_cells (genotype_list : list string) (gs : group_index)
  : list cell :=
  flat_map (fun kv => [Float (frequency genotype_list (snd kv));
                       Int (call_total genotype_list (snd kv))]) gs.

(** The output line of a data row. *)
Definition data_row (gs : group_index) (line : string) : list cell :=
  map Str (firstn 5 (fields_of line)) ++ group_cells (genotypes line) gs.

(** The index after a list of (position, label) additions. *)
Definition add_all (ev : list (nat * string)) (gs : group_index) : group_index :=
  fold_left (fun gs e => add_member (fst e) gs (snd e)) ev gs.

End Quantities.

(** *** Two runs over two implementations of sets *)

Section TwoRuns.
Context (S1 S2 : PySet nat).

(** Two group indexes over two implementations of sets hold the same labels
    in the same order, with the same members. *)
Definition gs_rel (gs1 : list (string * @pyset nat S1))
    (gs2 : list (string * @pyset nat S2)) : Prop :=
  Forall2 (fun kv1 kv2 =>
             fst kv1 = fst kv2 /\
             forall i, set_mem i (snd kv1) = set_mem i (snd kv2))
          gs1 gs2.

(** The locals of two runs agree. *)
Definition st_rel (st1 : @locals S1) (st2 : @locals S2) : Prop :=
  fst st1 = fst st2 /\
  match snd st1, snd st2 with
  | None, None => True
  | Some gs1, Some gs2 => dict_wf gs1 = true /\ gs_rel gs1 gs2
  | _, _ => False
  end.

End TwoRuns.

(* ================================================================== *)
(** ** Sample inputs *)

Definition newline : string := String (ascii_of_nat 10) EmptyString.

(** A line of a text file with its line end. *)
Definition text_line (s : string) : string := (s ++ newline)%string.

(** A line of tab-separated fields. *)
Definition tsv (l : list string) : string := text_line (join tab l).

Definition superscript_two : ascii := ascii_of_nat 178.

Definition vcf_columns (samples : list string) : string :=
  tsv (["#CHROM"; "POS"; "ID"; "REF"; "ALT"; "QUAL"; "FILTER"; "INFO";
        "FORMAT"]%string ++ samples).

Definition vcf_row (pos id : string) (calls : list string) : string :=
  tsv (["1"; pos; id; "A"; "G"; "."; "."; "PASS"; "GT"]%string ++ calls).

(** The grouping file of the worked example: three individuals, one system. *)
Definition ex_groups : list string :=
  map text_line ["ID SYS1"; "A x"; "B y"; "C x"]%string.

Definition ex_table : grouping_table :=
  [("A", [("SYS1", "x")]); ("B", [("SYS1", "y")]); ("C", [("SYS1", "x")])]%string.

Definition ex_systems : list (string * list string) :=
  [("SYS1", ["x"; "y"])]%string.

Definition ex_meta : list string := [text_line "##fileformat=VCFv4.2"].
Definition ex_header : string := vcf_columns ["S_A"; "S_B"; "S_C"]%string.
Definition ex_names : list string := ["A"; "B"; "C"]%string.
Definition ex_row : string := vcf_row "100" "rs1" ["0/1"; "1/1"; "0/0"]%string.
Definition ex_missing_row : string :=
  vcf_row "200" "rs2" ["./."; "1/1"; "./."]%string.

(* ================================================================== *)
(** ** Quantities of the further properties *)

(** A line of the variant file for which [main] writes an output line: a
    data row or a sample header. *)
Definition emits (line : string) : bool :=
  is_data line || startswith line chrom_mark.

(** Every character of [s] satisfies [p]. *)
Fixpoint string_all (p : ascii -> bool) (s : string) : bool :=
  match s with
  | EmptyString => true
  | String a s' => p a && string_all p s'
  end.

(** A non-empty string without whitespace. *)
Definition is_token (s : string) : bool :=
  nonempty s && string_all (fun a => negb (isspace a)) s.

(** The text cells of an output line hold no tab. *)
Definition cell_ok (c : cell) : bool :=
  match c with
  | Str s => lacks tab s
  | _ => true
  end.

(** The name of the grouping system of label column [k] (header field
    [k + 1]) and the label in column [k] of a data row. *)
Definition system_name (header : string) (k : nat) : string :=
  nth (k + 1) (split_ws (rstrip header)) EmptyString.

Definition row_label (line : string) (k : nat) : string :=
  nth (k + 1) (split_ws (rstrip line)) EmptyString.

Definition row_id (line : string) : string :=
  nth 0 (split_ws (rstrip line)) EmptyString.

(** Line 71 on the table: the entry of [individual], made if absent, gets
    [label] under [system]. *)
Definition set_label (gd : grouping_table) (individual system label : string)
  : grouping_table :=
  dict_set (snd (dd_getitem [] gd individual)) individual
           (dict_set (fst (dd_getitem [] gd individual)) system label).

(** An entry of the loaded table: the identifier is a token, the individual
    has at least one label, no grouping system twice, every system is named
    by the header and every label is a token. *)
Definition entry_ok (header : string) (kv : string * list (string * string))
  : Prop :=
  is_token (fst kv) = true /\ snd kv <> [] /\ dict_wf (snd kv) = true
  /\ Forall (fun sl => In (fst sl) (skipn 1 (split_ws (rstrip header)))
                       /\ is_token (snd sl) = true)
            (snd kv).

(** The loaded table: no individual twice, every entry as above. *)
Definition table_ok (header : string) (gd : grouping_table) : Prop :=
  dict_wf gd = true /\ Forall (entry_ok header) gd.

(** No label of the table holds a tab. *)
Definition labels_tabfree (gi : grouping_table) : Prop :=
  Forall (fun kv => Forall (fun sl => lacks tab (snd sl) = true) (snd kv)) gi.

(** Every text cell written so far is free of tabs. *)
Definition out_ok (o : ofh) : Prop :=
  Forall (Forall (fun c => cell_ok c = true)) (done o)
  /\ Forall (fun c => cell_ok c = true) (pending o).

Section FurtherQuantities.
Context {SI : PySet nat} {SS : PySet string}.

(** The index, once bound, is a dictionary. *)
Definition st_ok (st : locals) : Prop :=
  match snd st with
  | Some gs => dict_wf gs = true
  | None => True
  end.

(** The state of the loop: tab-free labels, and an index that is a
    dictionary once bound. *)
Definition st_tabfree (st : locals) : Prop :=
  labels_tabfree (fst st) /\ st_ok st.

(** Line 72 on [grouping_headers]: the set of [system], made if absent,
    gets [label]. *)
Definition note_label (gh : grouping_systems) (system label : string)
  : grouping_systems :=
  dict_set (snd (dd_getitem set_empty gh system)) system
           (set_add label (fst (dd_getitem set_empty gh system))).

(** [label in grouping_headers[system]], false when the system has no
    entry. *)
Definition has_label (gh : grouping_systems) (system label : string) : bool :=
  match dict_get gh system with
  | Some seen => set_mem label seen
  | None => false
  end.

End FurtherQuantities.

(* ================================================================== *)
(** * Proofs *)

(** ** Dictionaries *)

Section DictFacts.
Context {K V : Type} `{EqKey K}.

Lemma keqb_refl (k : K) : keqb k k = true.
Proof. apply keqb_eq. reflexivity. Qed.

Lemma keqb_neq (a b : K) : keqb a b = false <-> a <> b.
Proof.
  destruct (keqb a b) eqn:E.
  - apply keqb_eq in E. split; [discriminate | congruence].
  - split; [|reflexivity]. intros _ Hab. apply keqb_eq in Hab. congruence.
Qed.

Lemma key_in_iff (k : K) (l : list K) : key_in k l = true <-> In k l.
Proof.
  induction l as [|y l IH]; simpl.
  - split; [discriminate | tauto].
  - rewrite orb_true_iff, keqb_eq, IH. tauto.
Qed.

Lemma key_in_false (k : K) (l : list K) : key_in k l = false <-> ~ In k l.
Proof.
  rewrite <- key_in_iff. destruct (key_in k l); split; congruence.
Qed.

Lemma key_in_app (k : K) (l1 l2 : list K) :
  key_in k (l1 ++ l2) = key_in k l1 || key_in k l2.
Proof.
  induction l1 as [|y l1 IH]; simpl; [reflexivity|].
  rewrite IH, orb_assoc. reflexivity.
Qed.

Lemma keys_distinct_NoDup (l : list K) : keys_distinct l = true <-> NoDup l.
Proof.
  induction l as [|k l IH]; simpl.
  - split; [constructor | reflexivity].
  - rewrite andb_true_iff, negb_true_iff, key_in_false, IH.
    split.
    + intros [? ?]. constructor; assumption.
    + intros Hnd. inversion Hnd; subst. tauto.
Qed.

Lemma dict_get_none (d : dict K V) (k : K) :
  dict_get d k = None <-> key_in k (dict_keys d) = false.
Proof.
  induction d as [|[k' v] d IH]; simpl; [tauto|].
  destruct (keqb k' k); simpl; [split; discriminate | exact IH].
Qed.

Lemma dict_get_app (d1 d2 : dict K V) (k : K) :
  dict_get (d1 ++ d2) k =
  match dict_get d1 k with Some v => Some v | None => dict_get d2 k end.
Proof.
  induction d1 as [|[k' v] d1 IH]; simpl; [reflexivity|].
  destruct (keqb k' k); [reflexivity | exact IH].
Qed.

Lemma dict_get_mid (d1 d2 : dict K V) (k : K) (v : V) :
  key_in k (dict_keys d1) = false ->
  dict_get (d1 ++ (k, v) :: d2) k = Some v.
Proof.
  intros Hk. rewrite dict_get_app.
  apply dict_get_none in Hk. rewrite Hk. simpl. rewrite keqb_refl. reflexivity.
Qed.

Lemma dict_set_mid (d1 d2 : dict K V) (k : K) (v v' : V) :
  key_in k (dict_keys d1) = false ->
  dict_set (d1 ++ (k, v) :: d2) k v' = d1 ++ (k, v') :: d2.
Proof.
  induction d1 as [|[k1 v1] d1 IH]; simpl; intros Hk.
  - rewrite keqb_refl. reflexivity.
  - apply orb_false_iff in Hk. destruct Hk as [Hk1 Hk].
    rewrite Hk1, IH by assumption. reflexivity.
Qed.

Lemma dict_set_new (d : dict K V) (k : K) (v : V) :
  key_in k (dict_keys d) = false -> dict_set d k v = d ++ [(k, v)].
Proof.
  induction d as [|[k1 v1] d IH]; simpl; intros Hk; [reflexivity|].
  apply orb_false_iff in Hk. destruct Hk as [Hk1 Hk].
  rewrite Hk1, IH by assumption. reflexivity.
Qed.

Lemma dict_get_set (d : dict K V) (k k' : K) (v : V) :
  dict_get (dict_set d k v) k' =
  if keqb k k' then Some v else dict_get d k'.
Proof.
  induction d as [|[k1 v1] d IH]; simpl.
  - destruct (keqb k k'); reflexivity.
  - destruct (keqb k1 k) eqn:E1; simpl.
    + apply keqb_eq in E1. subst k1.
      destruct (keqb k k'); reflexivity.
    + rewrite IH. destruct (keqb k1 k') eqn:E2; [|reflexivity].
      apply keqb_eq in E2. subst k1.
      destruct (keqb k k') eqn:E3; [|reflexivity].
      apply keqb_eq in E3. subst k'. rewrite keqb_refl in E1. discriminate.
Qed.

Lemma dict_keys_set (d : dict K V) (k : K) (v : V) :
  dict_keys (dict_set d k v) =
  if key_in k (dict_keys d) then dict_keys d else dict_keys d ++ [k].
Proof.
  induction d as [|[k1 v1] d IH]; simpl; [reflexivity|].
  destruct (keqb k1 k) eqn:E; simpl; [reflexivity|].
  fold (dict_keys (dict_set d k v)). rewrite IH.
  destruct (key_in k (dict_keys d)); reflexivity.
Qed.

Lemma keys_distinct_snoc (l : list K) (k : K) :
  keys_distinct l = true -> key_in k l = false ->
  keys_distinct (l ++ [k]) = true.
Proof.
  rewrite !keys_distinct_NoDup, key_in_false. intros Hnd Hk.
  apply NoDup_rev in Hnd. rewrite <- (rev_involutive (l ++ [k])).
  apply NoDup_rev. rewrite rev_app_distr. simpl.
  constructor; [rewrite <- in_rev; exact Hk | exact Hnd].
Qed.

Lemma dict_wf_set (d : dict K V) (k : K) (v : V) :
  dict_wf d = true -> dict_wf (dict_set d k v) = true.
Proof.
  unfold dict_wf. intros Hwf. rewrite dict_keys_set.
  destruct (key_in k (dict_keys d)) eqn:E; [exact Hwf|].
  apply keys_distinct_snoc; assumption.
Qed.

Lemma dict_get_In (d : dict K V) (k : K) (v : V) :
  dict_get d k = Some v -> In (k, v) d.
Proof.
  induction d as [|[k1 v1] d IH]; simpl; [discriminate|].
  destruct (keqb k1 k) eqn:E.
  - apply keqb_eq in E. intros [= ->]. left. congruence.
  - intros Hg. right. apply IH, Hg.
Qed.

Lemma In_dict_get (d : dict K V) (k : K) (v : V) :
  dict_wf d = true -> In (k, v) d -> dict_get d k = Some v.
Proof.
  unfold dict_wf. induction d as [|[k1 v1] d IH]; simpl; [tauto|].
  rewrite andb_true_iff, negb_true_iff. intros [Hk1 Hwf] [Heq | Hin].
  - inversion Heq; subst. rewrite keqb_refl. reflexivity.
  - destruct (keqb k1 k) eqn:E; [|apply IH; assumption].
    apply keqb_eq in E. subst k1. apply key_in_false in Hk1.
    exfalso. apply Hk1. change k with (fst (k, v)). apply in_map, Hin.
Qed.

End DictFacts.

(** ** Tabulated dictionaries *)

Section TabulateFacts.
Context {V U : Type}.

Lemma tabulate_keys (f : V -> U) (d : dict string V) :
  dict_keys (tabulate f d) = dict_keys d.
Proof.
  unfold dict_keys, tabulate. rewrite map_map. reflexivity.
Qed.

Lemma tabulate_app (f : V -> U) (d1 d2 : dict string V) :
  tabulate f (d1 ++ d2) = tabulate f d1 ++ tabulate f d2.
Proof. apply map_app. Qed.

Lemma tabulate_ext (f g : V -> U) (d : dict string V) :
  (forall k v, In (k, v) d -> f v = g v) -> tabulate f d = tabulate g d.
Proof.
  intros Hfg. apply map_ext_in. intros [k v] Hin. simpl.
  rewrite (Hfg k v Hin). reflexivity.
Qed.

Lemma dict_get_tabulate (f : V -> U) (d : dict string V) (k : string) :
  dict_get (tabulate f d) k = option_map f (dict_get d k).
Proof.
  induction d as [|[k1 v1] d IH]; simpl; [reflexivity|].
  destruct (String.eqb k1 k); [reflexivity | exact IH].
Qed.

Lemma dict_wf_tabulate (f : V -> U) (d : dict string V) :
  dict_wf (tabulate f d) = dict_wf d.
Proof. unfold dict_wf. rewrite tabulate_keys. reflexivity. Qed.

Lemma dict_wf_split (d1 d2 : dict string V) (k : string) (v : V) :
  dict_wf (d1 ++ (k, v) :: d2) = true ->
  key_in k (dict_keys d1) = false /\
  dict_wf ((d1 ++ [(k, v)]) ++ d2) = true.
Proof.
  intros Hwf. split.
  - unfold dict_wf in Hwf. apply keys_distinct_NoDup in Hwf.
    unfold dict_keys in Hwf. rewrite map_app in Hwf. simpl in Hwf.
    apply NoDup_remove_2 in Hwf. apply key_in_false.
    intros Hin. apply Hwf. apply in_or_app. left. exact Hin.
  - rewrite <- app_assoc. exact Hwf.
Qed.

End TabulateFacts.

(** ** get_frequencies as a function of the group index *)

Section FrequencyFacts.
Context {SI : PySet nat}.

Lemma init_tables_from (pre post : group_index) :
  dict_wf (pre ++ post) = true ->
  fold_left init_group (dict_keys post)
    (tabulate (fun _ => 0%Z) pre, tabulate (fun _ => 0%Z) pre,
     tabulate (fun _ => 0%Q) pre)
  = (tabulate (fun _ => 0%Z) (pre ++ post),
     tabulate (fun _ => 0%Z) (pre ++ post),
     tabulate (fun _ => 0%Q) (pre ++ post)).
Proof.
  revert pre. induction post as [|[g s] post IH]; intros pre Hwf.
  - rewrite app_nil_r. reflexivity.
  - apply dict_wf_split in Hwf. destruct Hwf as [Hg Hwf].
    cbn [dict_keys map fst fold_left init_group].
    rewrite !dict_set_new by (rewrite tabulate_keys; exact Hg).
    specialize (IH (pre ++ [(g, s)]) Hwf).
    rewrite !tabulate_app in IH. cbn [tabulate map fst snd] in IH.
    unfold dict_keys in IH. rewrite IH.
    rewrite !tabulate_app, <- !app_assoc. reflexivity.
Qed.

Lemma tally_from (gl : list string) (gil : group_index) (i : nat)
    (fs fc : int_set -> Z) (pre post : group_index) :
  gil = pre ++ post -> dict_wf gil = true ->
  foldM (tally gl gil i) (dict_keys post)
    (tabulate (bump (count_char "1") gl i fs) pre ++ tabulate fs post,
     tabulate (bump count_isdigit gl i fc) pre ++ tabulate fc post)
  = Ok (tabulate (bump (count_char "1") gl i fs) gil,
        tabulate (bump count_isdigit gl i fc) gil).
Proof.
  revert pre. induction post as [|[g s] post IH]; intros pre Hgil Hwf.
  - rewrite app_nil_r in Hgil. subst gil. cbn [dict_keys map foldM tabulate].
    rewrite !app_nil_r. reflexivity.
  - assert (Hsplit := Hwf). rewrite Hgil in Hsplit.
    apply dict_wf_split in Hsplit. destruct Hsplit as [Hg _].
    cbn [dict_keys map fst foldM].
    assert (Hget : dict_get gil g = Some s).
    { rewrite Hgil. apply dict_get_mid, Hg. }
    unfold tally at 1. unfold dict_getitem. rewrite Hget. cbn [bind].
    assert (Hnext :
      foldM (tally gl gil i) (dict_keys post)
        (tabulate (bump (count_char "1") gl i fs) (pre ++ [(g, s)])
           ++ tabulate fs post,
         tabulate (bump count_isdigit gl i fc) (pre ++ [(g, s)])
           ++ tabulate fc post)
      = Ok (tabulate (bump (count_char "1") gl i fs) gil,
            tabulate (bump count_isdigit gl i fc) gil)).
    { apply IH; [rewrite <- app_assoc; exact Hgil | exact Hwf]. }
    rewrite !tabulate_app in Hnext. cbn [tabulate map fst snd] in Hnext.
    rewrite <- !app_assoc in Hnext. cbn [app] in Hnext.
    cbn [tabulate map fst snd].
    destruct (set_mem i s) eqn:Hmem.
    + rewrite !dict_get_mid by (rewrite tabulate_keys; exact Hg).
      cbn [bind].
      rewrite !dict_set_mid by (rewrite tabulate_keys; exact Hg).
      unfold bump at 2 4 in Hnext. rewrite Hmem in Hnext.
      unfold dict_keys in Hnext. exact Hnext.
    + unfold bump at 2 4 in Hnext. rewrite Hmem in Hnext.
      unfold dict_keys in Hnext. exact Hnext.
Qed.

Lemma tally_individual_eq (gl : list string) (gil : group_index) (i : nat)
    (fs fc : int_set -> Z) :
  dict_wf gil = true ->
  tally_individual gl gil (tabulate fs gil, tabulate fc gil) i
  = Ok (tabulate (bump (count_char "1") gl i fs) gil,
        tabulate (bump count_isdigit gl i fc) gil).
Proof.
  intros Hwf. unfold tally_individual.
  exact (tally_from gl gil i fs fc [] gil eq_refl Hwf).
Qed.

Lemma tally_all (gl : list string) (gil : group_index) (l : list nat)
    (fs fc : int_set -> Z) :
  dict_wf gil = true ->
  foldM (tally_individual gl gil) l (tabulate fs gil, tabulate fc gil)
  = Ok (tabulate (bumps (count_char "1") gl l fs) gil,
        tabulate (bumps count_isdigit gl l fc) gil).
Proof.
  intros Hwf. revert fs fc.
  induction l as [|i l IH]; intros fs fc; cbn [foldM bumps]; [reflexivity|].
  rewrite tally_individual_eq by exact Hwf. cbn [bind]. apply IH.
Qed.

Lemma bumps_sum (w : string -> Z) (gl : list string) (l : list nat)
    (f : int_set -> Z) (s : int_set) :
  bumps w gl l f s =
  (f s + zsum (map w (map (fun i => nth i gl EmptyString)
                          (filter (fun i => set_mem i s) l))))%Z.
Proof.
  revert f. induction l as [|i l IH]; intros f; cbn [bumps filter].
  - simpl. lia.
  - rewrite IH. unfold bump.
    destruct (set_mem i s); cbn [map zsum]; lia.
Qed.

Lemma divide_from (hs ct : int_set -> Z) (gil pre post : group_index) :
  gil = pre ++ post -> dict_wf gil = true ->
  foldM (divide (tabulate hs gil) (tabulate ct gil)) (dict_keys post)
    (tabulate (fun s => Qred (inject_Z (hs s) / inject_Z (ct s))) pre
       ++ tabulate (fun _ => 0%Q) post)
  = if forallb (fun kv => negb (ct (snd kv) =? 0)%Z) post
    then Ok (tabulate (fun s => Qred (inject_Z (hs s) / inject_Z (ct s))) gil)
    else Err ZeroDivisionError.
Proof.
  revert pre. induction post as [|[g s] post IH]; intros pre Hgil Hwf.
  - rewrite app_nil_r in Hgil. subst gil. cbn [dict_keys map foldM tabulate].
    rewrite app_nil_r. reflexivity.
  - assert (Hsplit := Hwf). rewrite Hgil in Hsplit.
    apply dict_wf_split in Hsplit. destruct Hsplit as [Hg _].
    cbn [dict_keys map fst snd foldM forallb].
    unfold divide at 1. unfold dict_getitem.
    assert (Hget : dict_get gil g = Some s).
    { rewrite Hgil. apply dict_get_mid, Hg. }
    rewrite !dict_get_tabulate, Hget. cbn [option_map bind].
    unfold true_div. destruct (ct s =? 0)%Z eqn:Hz; cbn [negb andb bind].
    + reflexivity.
    + cbn [tabulate map fst snd].
      rewrite dict_set_mid by (rewrite tabulate_keys; exact Hg).
      assert (Hgil' : gil = (pre ++ [(g, s)]) ++ post)
        by (rewrite <- app_assoc; exact Hgil).
      specialize (IH (pre ++ [(g, s)]) Hgil' Hwf).
      rewrite tabulate_app, <- app_assoc in IH. exact IH.
Qed.

Lemma init_tables_eq (gil : group_index) :
  dict_wf gil = true ->
  init_tables (dict_keys gil)
  = (tabulate (fun _ => 0%Z) gil, tabulate (fun _ => 0%Z) gil,
     tabulate (fun _ => 0%Q) gil).
Proof. intros Hwf. exact (init_tables_from [] gil Hwf). Qed.

Lemma divide_all (hs ct : int_set -> Z) (gil : group_index) :
  dict_wf gil = true ->
  foldM (divide (tabulate hs gil) (tabulate ct gil)) (dict_keys gil)
    (tabulate (fun _ => 0%Q) gil)
  = if forallb (fun kv => negb (ct (snd kv) =? 0)%Z) gil
    then Ok (tabulate (fun s => Qred (inject_Z (hs s) / inject_Z (ct s))) gil)
    else Err ZeroDivisionError.
Proof. intros Hwf. exact (divide_from hs ct gil [] gil eq_refl Hwf). Qed.

(** [get_frequencies] computes, for every group, the quotient of the two
    character counts over the group's fields, and raises when a group has
    no digit at all. *)
Lemma get_frequencies_eq (gl : list string) (gil : group_index) :
  dict_wf gil = true ->
  get_frequencies gl gil =
  if all_called gl gil
  then Ok (tabulate (frequency gl) gil, tabulate (call_total gl) gil)
  else Err ZeroDivisionError.
Proof.
  intros Hwf. unfold get_frequencies. cbv zeta.
  rewrite init_tables_eq by exact Hwf.
  rewrite tally_all by exact Hwf. cbn [bind].
  assert (Hs : tabulate (bumps (count_char "1") gl
                          (seq 0 (List.length gl)) (fun _ => 0%Z)) gil
               = tabulate (allele_hits gl) gil).
  { apply tabulate_ext. intros k v _. rewrite bumps_sum. reflexivity. }
  assert (Hc : tabulate (bumps count_isdigit gl
                          (seq 0 (List.length gl)) (fun _ => 0%Z)) gil
               = tabulate (call_total gl) gil).
  { apply tabulate_ext. intros k v _. rewrite bumps_sum. reflexivity. }
  rewrite Hs, Hc, divide_all by exact Hwf.
  unfold all_called. destruct (forallb _ gil); reflexivity.
Qed.

End FrequencyFacts.

(** ** The group index builder *)

Section IndexFacts.
Context {SI : PySet nat}.

Lemma labels_of_dd_getitem (gi : grouping_table) (key : string) :
  fst (dd_getitem [] gi key) = labels_of gi key.
Proof.
  unfold dd_getitem, labels_of. destruct (dict_get gi key); reflexivity.
Qed.

Lemma labels_of_after (gi : grouping_table) (key key' : string) :
  labels_of (snd (dd_getitem [] gi key)) key' = labels_of gi key'.
Proof.
  unfold dd_getitem, labels_of. destruct (dict_get gi key) eqn:E; [reflexivity|].
  cbn [snd]. rewrite dict_get_app.
  destruct (dict_get gi key') eqn:E'; [reflexivity|].
  cbn [dict_get]. destruct (keqb key key'); reflexivity.
Qed.

Lemma add_all_app (ev1 ev2 : list (nat * string)) (gs : group_index) :
  add_all (ev1 ++ ev2) gs = add_all ev2 (add_all ev1 gs).
Proof. apply fold_left_app. Qed.

Lemma add_labels_eq (i : nat) (labels : list string) (gs : group_index) :
  fold_left (add_member i) labels gs
  = add_all (map (fun label => (i, label)) labels) gs.
Proof.
  revert gs. induction labels as [|l labels IH]; intros gs; [reflexivity|].
  cbn [fold_left map]. rewrite IH. reflexivity.
Qed.

Lemma build_from (names : list string) (gi0 : grouping_table) (l : list nat)
    (gi : grouping_table) (gs : group_index) :
  (forall key, labels_of gi key = labels_of gi0 key) ->
  snd (fold_left (add_individual names) l (gi, gs))
  = add_all (flat_map (fun i => map (fun label => (i, label))
                         (dict_values (labels_of gi0 (nth i names EmptyString))))
                      l) gs.
Proof.
  revert gi gs. induction l as [|i l IH]; intros gi gs Hgi; [reflexivity|].
  cbn [fold_left flat_map]. unfold add_individual at 2.
  destruct (dd_getitem [] gi (nth i names EmptyString)) as [labels gi'] eqn:E.
  assert (Hl : labels = labels_of gi0 (nth i names EmptyString)).
  { rewrite <- Hgi, <- labels_of_dd_getitem, E. reflexivity. }
  assert (Hgi' : forall key, labels_of gi' key = labels_of gi0 key).
  { intros key. rewrite <- Hgi.
    replace gi' with (snd (dd_getitem [] gi (nth i names EmptyString)))
      by (rewrite E; reflexivity).
    apply labels_of_after. }
  rewrite IH by exact Hgi'. rewrite add_all_app, add_labels_eq, Hl.
  reflexivity.
Qed.

Lemma build_group_sets_eq (gi : grouping_table) (names : list string) :
  snd (build_group_sets gi names) = add_all (assignments gi names) [].
Proof.
  unfold build_group_sets, assignments. apply build_from. reflexivity.
Qed.

Lemma add_member_keys (i : nat) (gs : group_index) (l : string) :
  dict_keys (add_member i gs l)
  = if key_in l (dict_keys gs) then dict_keys gs else dict_keys gs ++ [l].
Proof.
  unfold add_member, dd_getitem.
  destruct (dict_get gs l) eqn:E; cbv beta iota.
  - rewrite dict_keys_set.
    destruct (key_in l (dict_keys gs)) eqn:Ek; [reflexivity|].
    apply dict_get_none in Ek. congruence.
  - rewrite dict_keys_set. apply dict_get_none in E.
    unfold dict_keys at 1 2 3. rewrite map_app. cbn [map fst].
    fold (dict_keys gs). rewrite key_in_app, E. cbn [key_in].
    rewrite keqb_refl. reflexivity.
Qed.

Lemma add_member_wf (i : nat) (gs : group_index) (l : string) :
  dict_wf gs = true -> dict_wf (add_member i gs l) = true.
Proof.
  unfold dict_wf. rewrite add_member_keys. intros Hwf.
  destruct (key_in l (dict_keys gs)) eqn:E; [exact Hwf|].
  apply keys_distinct_snoc; assumption.
Qed.

Lemma add_member_in_group (j : nat) (gs : group_index) (l label : string)
    (i : nat) :
  in_group (add_member j gs l) label i = true
  <-> in_group gs label i = true \/ (l = label /\ i = j).
Proof.
  unfold in_group, add_member, dd_getitem.
  destruct (dict_get gs l) as [members|] eqn:E; cbv beta iota.
  - rewrite dict_get_set. destruct (keqb l label) eqn:El.
    + apply keqb_eq in El. subst label. rewrite E, set_mem_add. tauto.
    + apply keqb_neq in El. tauto.
  - rewrite dict_get_set. destruct (keqb l label) eqn:El.
    + apply keqb_eq in El. subst label. rewrite E, set_mem_add, set_mem_empty.
      intuition discriminate.
    + rewrite dict_get_app. cbn [dict_get]. rewrite El. apply keqb_neq in El.
      destruct (dict_get gs label); tauto.
Qed.

Lemma add_all_wf (ev : list (nat * string)) (gs : group_index) :
  dict_wf gs = true -> dict_wf (add_all ev gs) = true.
Proof.
  revert gs. induction ev as [|[j l] ev IH]; intros gs Hwf; [exact Hwf|].
  apply IH, add_member_wf, Hwf.
Qed.

Lemma add_all_in_group (ev : list (nat * string)) (gs : group_index)
    (label : string) (i : nat) :
  in_group (add_all ev gs) label i = true
  <-> in_group gs label i = true \/ In (i, label) ev.
Proof.
  revert gs. induction ev as [|[j l] ev IH]; intros gs.
  - cbn [add_all fold_left In]. tauto.
  - unfold add_all. cbn [fold_left fst snd]. fold (add_all ev (add_member j gs l)).
    rewrite IH, add_member_in_group. cbn [In].
    split.
    + intros [[Hg | [-> ->]] | Hin]; auto.
    + intros [Hg | [Heq | Hin]]; auto.
      inversion Heq; subst. auto.
Qed.

Lemma filter_twice (p q : string -> bool) (l : list string) :
  filter p (filter q l) = filter (fun x => q x && p x) l.
Proof.
  induction l as [|x l IH]; [reflexivity|]. cbn [filter].
  destruct (q x); cbn [filter andb]; [destruct (p x)|]; rewrite IH; reflexivity.
Qed.

Lemma add_all_keys (ev : list (nat * string)) (gs : group_index) :
  dict_keys (add_all ev gs)
  = dict_keys gs
    ++ filter (fun x => negb (key_in x (dict_keys gs)))
              (first_seen (map snd ev)).
Proof.
  revert gs. induction ev as [|[j l] ev IH]; intros gs.
  - cbn. rewrite app_nil_r. reflexivity.
  - unfold add_all. cbn [fold_left fst snd]. fold (add_all ev (add_member j gs l)).
    rewrite IH, add_member_keys. cbn [map snd first_seen filter].
    destruct (key_in l (dict_keys gs)) eqn:E; cbn [negb].
    + f_equal. rewrite filter_twice. apply filter_ext_in. intros x _.
      destruct (String.eqb l x) eqn:Ex; [|reflexivity].
      apply String.eqb_eq in Ex. subst x. cbn [negb andb].
      rewrite E. reflexivity.
    + rewrite <- app_assoc. cbn [app]. do 2 f_equal.
      rewrite filter_twice. apply filter_ext_in. intros x _.
      rewrite key_in_app. cbn [key_in]. rewrite orb_false_r.
      change (keqb l x) with (String.eqb l x).
      rewrite negb_orb, andb_comm. reflexivity.
Qed.

(** The index built from a header: its labels are those of the samples in
    first-seen order, and a position is in a label's set exactly when the
    builder met that pair. *)
Lemma build_keys (gi : grouping_table) (names : list string) :
  dict_keys (snd (build_group_sets gi names))
  = first_seen (map snd (assignments gi names)).
Proof.
  rewrite build_group_sets_eq, add_all_keys. cbn [dict_keys map app key_in negb].
  induction (first_seen (map snd (assignments gi names))) as [|x l IH];
    [reflexivity|].
  cbn [filter]. rewrite IH. reflexivity.
Qed.

Lemma build_in_group (gi : grouping_table) (names : list string)
    (label : string) (i : nat) :
  in_group (snd (build_group_sets gi names)) label i = true
  <-> In (i, label) (assignments gi names).
Proof.
  rewrite build_group_sets_eq, add_all_in_group.
  unfold in_group. cbn [dict_get]. intuition discriminate.
Qed.

Lemma build_wf (gi : grouping_table) (names : list string) :
  dict_wf (snd (build_group_sets gi names)) = true.
Proof.
  rewrite build_group_sets_eq. apply add_all_wf. reflexivity.
Qed.

End IndexFacts.

(** ** The grouping table loader *)

Lemma foldM_rel {A1 A2 B} (R : A1 -> A2 -> Prop)
    (f1 : A1 -> B -> result A1) (f2 : A2 -> B -> result A2) (l : list B) :
  (forall a1 a2 b, R a1 a2 -> result_rel R (f1 a1 b) (f2 a2 b)) ->
  forall a1 a2, R a1 a2 -> result_rel R (foldM f1 l a1) (foldM f2 l a2).
Proof.
  intros Hf. induction l as [|b l IH]; intros a1 a2 HR; cbn [foldM].
  - exact HR.
  - specialize (Hf a1 a2 b HR).
    destruct (f1 a1 b) as [a1'|e1], (f2 a2 b) as [a2'|e2]; cbn in Hf |- *;
      try contradiction; [apply IH; exact Hf | exact Hf].
Qed.

Lemma py_getitem_nat {A} (l : list A) (i : nat) (d : A) :
  i < List.length l -> py_getitem l (Z.of_nat i) = Ok (nth i l d).
Proof.
  intros Hi. unfold py_getitem.
  destruct (Z.of_nat i <? 0)%Z eqn:E; [apply Z.ltb_lt in E; lia|].
  replace ((0 <=? Z.of_nat i)%Z && (Z.of_nat i <? Z.of_nat (List.length l))%Z)
    with true
    by (symmetry; apply andb_true_iff; split;
        [apply Z.leb_le | apply Z.ltb_lt]; lia).
  rewrite Nat2Z.id, (nth_error_nth' l d Hi). reflexivity.
Qed.

Lemma header_names_from (f : nat -> string) (n a : nat) (d : list (nat * string)) :
  dict_keys d = seq 0 a ->
  fold_left (fun hn gi => dict_set hn gi (f gi)) (seq a n) d
  = d ++ map (fun i => (i, f i)) (seq a n).
Proof.
  revert a d. induction n as [|n IH]; intros a d Hd; cbn [seq fold_left map].
  - rewrite app_nil_r. reflexivity.
  - assert (Hnew : key_in a (dict_keys d) = false).
    { apply key_in_false. rewrite Hd, in_seq. lia. }
    rewrite dict_set_new by exact Hnew.
    rewrite IH.
    + rewrite <- app_assoc. reflexivity.
    + unfold dict_keys. rewrite map_app. fold (dict_keys d). rewrite Hd.
      cbn [map fst]. rewrite <- seq_S. reflexivity.
Qed.

Lemma dict_get_seq (f : nat -> string) (n a i : nat) :
  dict_get (map (fun i => (i, f i)) (seq a n)) i
  = if (a <=? i) && (i <? a + n) then Some (f i) else None.
Proof.
  revert a. induction n as [|n IH]; intros a; cbn [seq map dict_get].
  - destruct (a <=? i) eqn:E1; [|reflexivity].
    destruct (i <? a + 0) eqn:E2; [|reflexivity].
    apply Nat.leb_le in E1. apply Nat.ltb_lt in E2. lia.
  - change (keqb a i) with (Nat.eqb a i).
    destruct (Nat.eqb a i) eqn:E.
    + apply Nat.eqb_eq in E. subst i.
      rewrite Nat.leb_refl.
      replace (a <? a + S n) with true
        by (symmetry; apply Nat.ltb_lt; lia).
      reflexivity.
    + apply Nat.eqb_neq in E. rewrite IH.
      destruct (S a <=? i) eqn:E1, (a <=? i) eqn:E2,
               (i <? S a + n) eqn:E3, (i <? a + S n) eqn:E4;
        cbn [andb]; try reflexivity;
        repeat match goal with
               | H : (_ <=? _) = true |- _ => apply Nat.leb_le in H
               | H : (_ <=? _) = false |- _ => apply Nat.leb_gt in H
               | H : (_ <? _) = true |- _ => apply Nat.ltb_lt in H
               | H : (_ <? _) = false |- _ => apply Nat.ltb_ge in H
               end; lia.
Qed.

(** [header_names] has exactly the keys below the number of systems. *)
Lemma read_header_names_get (header : string) (i : nat) :
  dict_get (read_header_names header) i
  = if i <? n_systems header
    then Some (nth (i + 1) (split_ws (rstrip header)) EmptyString)
    else None.
Proof.
  unfold read_header_names, n_systems. cbv zeta.
  rewrite (header_names_from
             (fun gi => nth (gi + 1) (split_ws (rstrip header)) EmptyString)
             _ 0 []) by reflexivity.
  cbn [app]. rewrite dict_get_seq. reflexivity.
Qed.

Section LoaderFacts.
Context {SS : PySet string}.

Lemma add_label_result (header : string) (fields : list string)
    (acc : grouping_table * grouping_systems) (gi : nat) :
  gi < List.length (skipn 1 fields) ->
  if gi <? n_systems header
  then exists acc', add_label (read_header_names header) fields acc gi = Ok acc'
  else add_label (read_header_names header) fields acc gi
       = Err (KeyError_int gi).
Proof.
  intros Hgi. rewrite length_skipn in Hgi.
  unfold add_label. destruct acc as [gd gh].
  change 0%Z with (Z.of_nat 0).
  rewrite (py_getitem_nat fields 0 EmptyString) by lia. cbn [bind].
  destruct (dd_getitem [] gd (nth 0 fields EmptyString)) as [labels gd1].
  unfold dict_getitem. rewrite read_header_names_get.
  destruct (gi <? n_systems header); cbn [bind]; [|reflexivity].
  rewrite (py_getitem_nat fields (gi + 1) EmptyString) by lia. cbn [bind].
  destruct (dd_getitem set_empty gh _) as [seen gh1].
  eexists. reflexivity.
Qed.

Lemma add_labels_result (header : string) (fields : list string) (n a : nat)
    (acc : grouping_table * grouping_systems) :
  a + n <= List.length (skipn 1 fields) -> a <= n_systems header ->
  if a + n <=? n_systems header
  then exists acc',
      foldM (add_label (read_header_names header) fields) (seq a n) acc = Ok acc'
  else foldM (add_label (read_header_names header) fields) (seq a n) acc
       = Err (KeyError_int (n_systems header)).
Proof.
  revert a acc. induction n as [|n IH]; intros a acc Hlen Ha; cbn [seq foldM].
  - replace (a + 0 <=? n_systems header) with true
      by (symmetry; apply Nat.leb_le; lia).
    eexists. reflexivity.
  - assert (Hstep := add_label_result header fields acc a).
    destruct (a <? n_systems header) eqn:E.
    + apply Nat.ltb_lt in E.
      destruct Hstep as [acc' Hacc']; [lia|]. rewrite Hacc'. cbn [bind].
      specialize (IH (S a) acc').
      replace (S a + n) with (a + S n) in IH by lia.
      apply IH; lia.
    + apply Nat.ltb_ge in E. assert (a = n_systems header) by lia. subst a.
      rewrite Hstep by lia. cbn [bind].
      replace (n_systems header + S n <=? n_systems header) with false
        by (symmetry; apply Nat.leb_gt; lia).
      reflexivity.
Qed.

Lemma add_row_result (header line : string)
    (acc : grouping_table * grouping_systems) :
  if n_labels line <=? n_systems header
  then exists acc', add_row (read_header_names header) acc line = Ok acc'
  else add_row (read_header_names header) acc line
       = Err (KeyError_int (n_systems header)).
Proof.
  unfold add_row, n_labels. cbv zeta.
  apply (add_labels_result header (split_ws (rstrip line))
           (List.length (skipn 1 (split_ws (rstrip line)))) 0 acc);
    cbn [Nat.add]; lia.
Qed.

Lemma add_rows_result (header : string) (body : list string)
    (acc : grouping_table * grouping_systems) :
  if forallb (fun line => n_labels line <=? n_systems header) body
  then exists acc', foldM (add_row (read_header_names header)) body acc = Ok acc'
  else foldM (add_row (read_header_names header)) body acc
       = Err (KeyError_int (n_systems header)).
Proof.
  revert acc. induction body as [|line body IH]; intros acc; cbn [forallb foldM].
  - eexists. reflexivity.
  - assert (Hrow := add_row_result header line acc).
    destruct (n_labels line <=? n_systems header); cbn [andb].
    + destruct Hrow as [acc' ->]. cbn [bind]. apply IH.
    + rewrite Hrow. reflexivity.
Qed.

Lemma foldM_inv {A B} (P : A -> Prop) (f : A -> B -> result A) (l : list B) :
  (forall a b a', P a -> f a b = Ok a' -> P a') ->
  forall a a', P a -> foldM f l a = Ok a' -> P a'.
Proof.
  intros Hf. induction l as [|b l IH]; intros a a' Ha; cbn [foldM].
  - intros [= <-]. exact Ha.
  - destruct (f a b) as [a1|e] eqn:E; cbn [bind]; [|discriminate].
    apply IH. exact (Hf a b a1 Ha E).
Qed.

Lemma forallb_dict_set {V} (P : V -> bool) (d : list (string * V))
    (k : string) (v : V) :
  forallb (fun kv => P (snd kv)) d = true -> P v = true ->
  forallb (fun kv => P (snd kv)) (dict_set d k v) = true.
Proof.
  intros Hd Hv. induction d as [|[k1 v1] d IH]; cbn [dict_set forallb snd].
  - rewrite Hv. reflexivity.
  - cbn [forallb snd] in Hd. apply andb_true_iff in Hd. destruct Hd as [H1 Hd].
    destruct (keqb k1 k); cbn [forallb snd].
    + rewrite Hv, Hd. reflexivity.
    + rewrite H1, (IH Hd). reflexivity.
Qed.

(** Every individual of a loaded table maps grouping systems to labels
    without repeating a system. *)
Lemma get_groupings_wf (fh : list string) (gd : grouping_table)
    (gh : grouping_systems) :
  get_groupings fh = Ok (gd, gh) ->
  forallb (fun kv => dict_wf (snd kv)) gd = true.
Proof.
  unfold get_groupings. cbv zeta. intros Hload.
  pose (P := fun acc : grouping_table * grouping_systems =>
               forallb (fun kv => dict_wf (snd kv)) (fst acc) = true).
  change (P (gd, gh)).
  refine (foldM_inv P _ _ _ ([], []) (gd, gh) _ Hload); [|reflexivity].
  intros acc line acc' Hacc Hrow. unfold add_row in Hrow. cbv zeta in Hrow.
  refine (foldM_inv P _ _ _ acc acc' Hacc Hrow).
  intros a gi a' Ha Hlab. unfold P in Ha |- *. clear - Ha Hlab.
  destruct a as [gd0 gh0]. cbn [fst] in Ha.
  unfold add_label in Hlab.
  destruct (py_getitem _ 0%Z) as [individual|]; cbn [bind] in Hlab;
    [|discriminate].
  unfold dd_getitem at 1 in Hlab.
  destruct (dict_getitem _ gi) as [system|]; cbn [bind] in Hlab.
  2: { destruct (dict_get gd0 individual); cbn [bind] in Hlab; discriminate. }
  destruct (py_getitem _ (Z.of_nat (gi + 1))) as [label|]; cbn [bind] in Hlab.
  2: { destruct (dict_get gd0 individual); cbn [bind] in Hlab; discriminate. }
  destruct (dict_get gd0 individual) as [labels|] eqn:Hget;
    cbv beta iota in Hlab; cbn [bind] in Hlab;
    destruct (dd_getitem set_empty gh0 system) as [seen gh1];
    injection Hlab as <-; cbn [fst].
  - apply forallb_dict_set; [exact Ha|]. apply dict_wf_set.
    rewrite forallb_forall in Ha. exact (Ha _ (dict_get_In gd0 _ _ Hget)).
  - apply forallb_dict_set; [|reflexivity].
    rewrite forallb_app, Ha. reflexivity.
Qed.

End LoaderFacts.

(** ** Splitting and the sample resolver *)

Lemma split_on_cons (p : ascii -> bool) (s : string) :
  exists t ts, split_on p s = t :: ts.
Proof.
  induction s as [|c s IH]; cbn [split_on].
  - eauto.
  - destruct (p c); [eauto|].
    destruct IH as [t [ts ->]]. eauto.
Qed.

Lemma split_char_token (c : ascii) (t : string) :
  lacks c t = true -> split_char c t = [t].
Proof.
  unfold split_char. induction t as [|a t IH]; cbn [lacks split_on]; intros Ht.
  - reflexivity.
  - apply andb_true_iff in Ht. destruct Ht as [Ha Ht].
    apply negb_true_iff in Ha. rewrite Ha, (IH Ht). reflexivity.
Qed.

Lemma split_char_app (c : ascii) (t rest : string) :
  lacks c t = true ->
  split_char c (t ++ String c rest) = t :: split_char c rest.
Proof.
  unfold split_char.
  induction t as [|a t IH]; cbn [lacks split_on String.append]; intros Ht.
  - rewrite Ascii.eqb_refl. reflexivity.
  - apply andb_true_iff in Ht. destruct Ht as [Ha Ht].
    apply negb_true_iff in Ha. rewrite Ha, (IH Ht). reflexivity.
Qed.

(** Splitting a name made of separator-free tokens gives the tokens back. *)
Lemma split_char_join (c : ascii) (toks : list string) :
  toks <> [] -> Forall (fun t => lacks c t = true) toks ->
  split_char c (join c toks) = toks.
Proof.
  induction toks as [|t toks IH]; intros Hne Hall; [congruence|].
  inversion Hall as [|? ? Ht Htoks]; subst.
  destruct toks as [|t' toks].
  - cbn [join]. apply split_char_token, Ht.
  - change (join c (t :: t' :: toks))
      with (t ++ String c (join c (t' :: toks)))%string.
    rewrite split_char_app by exact Ht.
    rewrite IH; [reflexivity | discriminate | exact Htoks].
Qed.

(** Every string is the join of its fields, and no field holds the
    separator. *)
Lemma join_split_char (c : ascii) (s : string) :
  join c (split_char c s) = s /\
  Forall (fun t => lacks c t = true) (split_char c s).
Proof.
  unfold split_char. induction s as [|a s [IHj IHl]]; cbn [split_on].
  - split; [reflexivity | repeat constructor].
  - destruct (Ascii.eqb c a) eqn:E.
    + apply Ascii.eqb_eq in E. subst a. split.
      * destruct (split_on_cons (Ascii.eqb c) s) as [t [ts Hs]].
        rewrite Hs in IHj |- *.
        change (join c (EmptyString :: t :: ts))
          with (String c (join c (t :: ts))).
        rewrite IHj. reflexivity.
      * constructor; [reflexivity | exact IHl].
    + destruct (split_on (Ascii.eqb c) s) as [|t ts] eqn:Hs.
      * destruct (split_on_cons (Ascii.eqb c) s) as [t [ts Hs']]. congruence.
      * split.
        -- destruct ts as [|t' ts]; cbn [join String.append] in IHj |- *;
             rewrite IHj; reflexivity.
        -- inversion IHl; subst. constructor; [|assumption].
           cbn [lacks]. rewrite E. cbn [negb andb]. assumption.
Qed.

Lemma split_char_single (c : ascii) (s : string) :
  List.length (split_char c s) = 1 <-> lacks c s = true.
Proof.
  unfold split_char. induction s as [|a s IH]; cbn [split_on lacks].
  - cbn. tauto.
  - destruct (split_on_cons (Ascii.eqb c) s) as [t [ts Hs]].
    rewrite Hs in IH |- *. destruct (Ascii.eqb c a); cbn [negb andb List.length] in *.
    + split; [lia | discriminate].
    + exact IH.
Qed.

Lemma py_getitem_last {A} (l : list A) (d : A) :
  l <> [] -> py_getitem l (-1) = Ok (last l d).
Proof.
  intros Hne. destruct (exists_last Hne) as [l' [a ->]].
  unfold py_getitem. rewrite last_last, length_app. cbn [List.length].
  cbn [Z.ltb Z.compare].
  replace ((0 <=? -1 + Z.of_nat (List.length l' + 1))%Z
           && (-1 + Z.of_nat (List.length l' + 1)
               <? Z.of_nat (List.length l' + 1))%Z)
    with true
    by (symmetry; apply andb_true_iff; split;
        [apply Z.leb_le | apply Z.ltb_lt]; lia).
  replace (Z.to_nat (-1 + Z.of_nat (List.length l' + 1)))
    with (List.length l') by lia.
  rewrite nth_error_app2, Nat.sub_diag by lia. reflexivity.
Qed.

Lemma py_getitem_second_last {A} (l : list A) (d : A) :
  py_getitem l (-2)
  = if 2 <=? List.length l then Ok (nth (List.length l - 2) l d)
    else Err IndexError.
Proof.
  unfold py_getitem. cbn [Z.ltb Z.compare].
  destruct (2 <=? List.length l) eqn:E.
  - apply Nat.leb_le in E.
    replace ((0 <=? -2 + Z.of_nat (List.length l))%Z
             && (-2 + Z.of_nat (List.length l) <? Z.of_nat (List.length l))%Z)
      with true
      by (symmetry; apply andb_true_iff; split;
          [apply Z.leb_le | apply Z.ltb_lt]; lia).
    replace (Z.to_nat (-2 + Z.of_nat (List.length l)))
      with (List.length l - 2) by lia.
    rewrite (nth_error_nth' l d) by lia. reflexivity.
  - apply Nat.leb_gt in E.
    replace (0 <=? -2 + Z.of_nat (List.length l))%Z with false
      by (symmetry; apply Z.leb_gt; lia).
    reflexivity.
Qed.

Lemma resolve_individual (name : string) :
  resolve false name = Ok (last (split_char underscore name) EmptyString).
Proof.
  unfold resolve. cbn [use_iid Z.opp]. apply py_getitem_last.
  unfold split_char.
  destruct (split_on_cons (Ascii.eqb underscore) name) as [t [ts ->]].
  discriminate.
Qed.

Lemma resolve_family (name : string) :
  resolve true name
  = if lacks underscore name then Err IndexError
    else Ok (nth (List.length (split_char underscore name) - 2)
                 (split_char underscore name) EmptyString).
Proof.
  unfold resolve. cbn [use_iid Z.opp].
  rewrite (py_getitem_second_last _ EmptyString).
  assert (Hone := split_char_single underscore name).
  assert (Hpos : 1 <= List.length (split_char underscore name)).
  { unfold split_char.
    destruct (split_on_cons (Ascii.eqb underscore) name) as [t [ts ->]].
    cbn. lia. }
  destruct (lacks underscore name) eqn:El.
  - replace (2 <=? List.length (split_char underscore name)) with false;
      [reflexivity|].
    symmetry. apply Nat.leb_gt. assert (Heq := proj2 Hone eq_refl). lia.
  - replace (2 <=? List.length (split_char underscore name)) with true;
      [reflexivity|].
    symmetry. apply Nat.leb_le.
    destruct (Nat.eq_dec (List.length (split_char underscore name)) 1) as [E|E];
      [apply Hone in E; discriminate | lia].
Qed.

Lemma read_sample_names_individual (line : string) :
  read_sample_names false line
  = Ok (map (fun name => last (split_char underscore name) EmptyString)
            (skipn 9 (split_char tab (rstrip line)))).
Proof.
  unfold read_sample_names.
  induction (skipn 9 (split_char tab (rstrip line))) as [|n l IH];
    cbn [mapM map]; [reflexivity|].
  rewrite resolve_individual, IH. reflexivity.
Qed.

Lemma mapM_resolve_family (l : list string) :
  if existsb (lacks underscore) l
  then mapM (resolve true) l = Err IndexError
  else exists names, mapM (resolve true) l = Ok names.
Proof.
  induction l as [|n l IH]; cbn [existsb mapM].
  - eexists. reflexivity.
  - rewrite resolve_family.
    destruct (lacks underscore n); cbn [orb bind]; [reflexivity|].
    destruct (existsb (lacks underscore) l).
    + rewrite IH. reflexivity.
    + destruct IH as [names ->]. cbn [bind]. eexists. reflexivity.
Qed.


(** ** Writing the output *)

Lemma forW_header (labels : list string) (o : ofh) :
  forW labels (fun group_name => write_cells (header_cells group_name)) o
  = (Ok tt, {| done := done o;
               pending := pending o ++ flat_map header_cells labels |}).
Proof.
  revert o. induction labels as [|g labels IH]; intros o.
  - cbn [forW flat_map]. unfold retW. rewrite app_nil_r.
    destruct o; reflexivity.
  - cbn [forW flat_map]. unfold bindW at 1. unfold write_cells at 1.
    rewrite IH. cbn [done pending]. rewrite <- app_assoc. reflexivity.
Qed.

Lemma forW_cells {V : Type} (F : V -> Q) (C : V -> Z)
    (gs pre post : list (string * V)) (o : ofh) :
  gs = pre ++ post -> dict_wf gs = true ->
  forW (dict_keys post)
       (fun group_name =>
          f <~ liftW (dict_getitem (tabulate F gs) group_name) ;;
          c <~ liftW (dict_getitem (tabulate C gs) group_name) ;;
          write_cells [Float f; Int c]) o
  = (Ok tt,
     {| done := done o;
        pending := pending o
                   ++ flat_map (fun kv => [Float (F (snd kv)); Int (C (snd kv))])
                               post |}).
Proof.
  revert pre o. induction post as [|[g v] post IH]; intros pre o Hgs Hwf.
  - cbn [dict_keys map forW flat_map]. unfold retW. rewrite app_nil_r.
    destruct o; reflexivity.
  - assert (Hsplit := Hwf). rewrite Hgs in Hsplit.
    apply dict_wf_split in Hsplit. destruct Hsplit as [Hg _].
    assert (Hget : dict_get gs g = Some v).
    { rewrite Hgs. apply dict_get_mid, Hg. }
    cbn [dict_keys map fst forW flat_map snd].
    unfold bindW at 1. unfold bindW at 1. unfold liftW at 1.
    unfold dict_getitem at 1. rewrite dict_get_tabulate, Hget.
    cbn [option_map]. unfold bindW at 1. unfold liftW at 1.
    unfold dict_getitem at 1. rewrite dict_get_tabulate, Hget.
    cbn [option_map]. unfold write_cells at 1.
    fold (dict_keys post).
    rewrite (IH (pre ++ [(g, v)])); [|rewrite <- app_assoc; exact Hgs | exact Hwf].
    cbn [done pending]. rewrite <- app_assoc. reflexivity.
Qed.

Section WriterFacts.
Context {SI : PySet nat}.

(** A data row once the index exists: the whole line, or the leading fields
    and a [ZeroDivisionError]. *)
Lemma data_line_eq (gs : group_index) (line : string) (o : ofh) :
  dict_wf gs = true ->
  data_line (Some gs) line o
  = if all_called (genotypes line) gs
    then (Ok tt, {| done := done o ++ [pending o ++ data_row gs line];
                    pending := [] |})
    else (Err ZeroDivisionError,
          {| done := done o;
             pending := pending o ++ map Str (firstn 5 (fields_of line)) |}).
Proof.
  intros Hwf. unfold data_line. cbv zeta.
  fold (fields_of line). fold (genotypes line).
  unfold bindW at 1. unfold write_cells at 1.
  unfold bindW at 1. unfold liftW at 1.
  rewrite get_frequencies_eq by exact Hwf.
  destruct (all_called (genotypes line) gs); [|reflexivity].
  cbv beta iota. unfold bindW at 1. rewrite tabulate_keys.
  rewrite (forW_cells (frequency (genotypes line))
                      (call_total (genotypes line)) gs [] gs _ eq_refl Hwf).
  unfold write_nl. cbn [done pending]. unfold data_row, group_cells.
  rewrite <- app_assoc. reflexivity.
Qed.

Lemma data_line_unbound (line : string) (o : ofh) :
  data_line None line o
  = (Err UnboundLocalError,
     {| done := done o;
        pending := pending o ++ map Str (firstn 5 (fields_of line)) |}).
Proof. reflexivity. Qed.

Lemma header_line_eq (use_fid : bool) (gi : grouping_table) (line : string)
    (o : ofh) :
  header_line use_fid gi line o
  = match read_sample_names use_fid line with
    | Err e => (Err e, o)
    | Ok names =>
        (Ok (build_group_sets gi names),
         {| done := done o
                    ++ [pending o
                        ++ header_row
                             (dict_keys (snd (build_group_sets gi names)))];
            pending := [] |})
    end.
Proof.
  unfold header_line. unfold bindW at 1. unfold liftW at 1.
  destruct (read_sample_names use_fid line) as [names|e]; [|reflexivity].
  destruct (build_group_sets gi names) as [gi' gs]. cbn [snd].
  unfold bindW at 1. unfold write_cells at 1.
  unfold bindW at 1. rewrite forW_header.
  unfold bindW at 1. unfold write_nl at 1. unfold retW.
  cbn [done pending]. unfold header_row. rewrite <- app_assoc. reflexivity.
Qed.

End WriterFacts.

(** ** The loop over the variant file *)

Lemma chrom_is_comment (line : string) :
  startswith line chrom_mark = true -> startswith line hash_mark = true.
Proof.
  unfold startswith, chrom_mark, hash_mark.
  destruct line as [|c line]; cbn [String.prefix]; [discriminate|].
  destruct (ascii_dec "#" c); [|discriminate].
  intros _. destruct line; reflexivity.
Qed.

Section LoopFacts.
Context {SI : PySet nat}.

Lemma process_line_comment (use_fid : bool) (st : locals) (line : string)
    (o : ofh) :
  startswith line hash_mark = true -> startswith line chrom_mark = false ->
  process_line use_fid st line o = (Ok st, o).
Proof.
  intros Hh Hc. unfold process_line. destruct st as [gi gs].
  rewrite Hh, Hc. reflexivity.
Qed.

Lemma process_line_header (use_fid : bool) (gi : grouping_table)
    (gs : option group_index) (line : string) (o : ofh) :
  startswith line chrom_mark = true ->
  process_line use_fid (gi, gs) line o
  = match read_sample_names use_fid line with
    | Err e => (Err e, o)
    | Ok names =>
        (Ok (fst (build_group_sets gi names),
             Some (snd (build_group_sets gi names))),
         {| done := done o
                    ++ [pending o
                        ++ header_row
                             (dict_keys (snd (build_group_sets gi names)))];
            pending := [] |})
    end.
Proof.
  intros Hc. unfold process_line.
  rewrite (chrom_is_comment line Hc), Hc. cbn [negb].
  unfold bindW. rewrite header_line_eq.
  destruct (read_sample_names use_fid line); reflexivity.
Qed.

Lemma process_line_data (use_fid : bool) (gi : grouping_table)
    (gs : group_index) (line : string) (o : ofh) :
  dict_wf gs = true -> startswith line hash_mark = false ->
  process_line use_fid (gi, Some gs) line o
  = if all_called (genotypes line) gs
    then (Ok (gi, Some gs),
          {| done := done o ++ [pending o ++ data_row gs line];
             pending := [] |})
    else (Err ZeroDivisionError,
          {| done := done o;
             pending := pending o ++ map Str (firstn 5 (fields_of line)) |}).
Proof.
  intros Hwf Hh. unfold process_line. rewrite Hh. cbn [negb].
  unfold bindW. rewrite data_line_eq by exact Hwf.
  destruct (all_called (genotypes line) gs); reflexivity.
Qed.

(** Comment lines other than the sample header leave everything as it is. *)
Lemma process_lines_comments (use_fid : bool) (meta rest : list string)
    (st : locals) (o : ofh) :
  forallb (fun l => startswith l hash_mark && negb (startswith l chrom_mark))
          meta = true ->
  process_lines use_fid (meta ++ rest) st o = process_lines use_fid rest st o.
Proof.
  induction meta as [|l meta IH]; cbn [forallb app]; intros Hm; [reflexivity|].
  apply andb_true_iff in Hm. destruct Hm as [Hl Hm].
  apply andb_true_iff in Hl. destruct Hl as [Hh Hc].
  apply negb_true_iff in Hc.
  cbn [process_lines]. unfold bindW at 1.
  rewrite process_line_comment by assumption. apply IH, Hm.
Qed.

(** Data rows in which every group has a digit are written one by one, in
    order, and the loop goes on. *)
Lemma process_lines_rows (use_fid : bool) (gi : grouping_table)
    (gs : group_index) (body rest : list string) (d : list (list cell)) :
  dict_wf gs = true ->
  forallb (fun l => negb (startswith l chrom_mark)) body = true ->
  forallb (fun l => startswith l hash_mark || all_called (genotypes l) gs)
          body = true ->
  process_lines use_fid (body ++ rest) (gi, Some gs)
                {| done := d; pending := [] |}
  = process_lines use_fid rest (gi, Some gs)
      {| done := d ++ map (data_row gs) (filter is_data body);
         pending := [] |}.
Proof.
  intros Hwf. revert d.
  induction body as [|l body IH]; cbn [forallb app filter map]; intros d Hc Hok.
  - rewrite app_nil_r. reflexivity.
  - apply andb_true_iff in Hc. destruct Hc as [Hlc Hc].
    apply andb_true_iff in Hok. destruct Hok as [Hl Hok].
    apply negb_true_iff in Hlc.
    cbn [process_lines]. unfold bindW at 1. unfold is_data at 1.
    destruct (startswith l hash_mark) eqn:Hh; cbn [negb].
    + rewrite process_line_comment by assumption. apply IH; assumption.
    + rewrite process_line_data by assumption.
      cbn [orb] in Hl. rewrite Hl. cbn [done pending app map].
      rewrite IH by assumption. rewrite <- app_assoc. reflexivity.
Qed.

End LoopFacts.

Section MainFacts.
Context {SI : PySet nat} {SS : PySet string}.

(** A run up to the end of a stretch of good rows after the sample header. *)
Lemma main_run (use_fid : bool) (gfile : list string) (gi : grouping_table)
    (ghs : grouping_systems) (meta : list string) (hdr : string)
    (body rest : list string) (names : list string) :
  get_groupings gfile = Ok (gi, ghs) ->
  forallb (fun l => startswith l hash_mark && negb (startswith l chrom_mark))
          meta = true ->
  startswith hdr chrom_mark = true ->
  read_sample_names use_fid hdr = Ok names ->
  forallb (fun l => negb (startswith l chrom_mark)) body = true ->
  forallb (fun l => startswith l hash_mark
                    || all_called (genotypes l) (snd (build_group_sets gi names)))
          body = true ->
  main use_fid gfile (meta ++ hdr :: body ++ rest)
  = let '(r, o) :=
      process_lines use_fid rest
        (fst (build_group_sets gi names),
         Some (snd (build_group_sets gi names)))
        {| done := header_row (dict_keys (snd (build_group_sets gi names)))
                   :: map (data_row (snd (build_group_sets gi names)))
                          (filter is_data body);
           pending := [] |} in
    (Some o, r).
Proof.
  intros Hg Hmeta Hhdr Hnames Hbody Hok. unfold main. rewrite Hg.
  rewrite process_lines_comments by exact Hmeta.
  cbn [process_lines]. unfold bindW at 1.
  rewrite process_line_header by exact Hhdr. rewrite Hnames.
  unfold ofh_open. cbn [done pending app].
  rewrite process_lines_rows by (try apply build_wf; assumption).
  reflexivity.
Qed.

End MainFacts.

(** ** Independence of the representation of sets *)

Section SetIndependence.
Context (S1 S2 : PySet nat).

Lemma gs_rel_keys gs1 gs2 : gs_rel S1 S2 gs1 gs2 -> dict_keys gs1 = dict_keys gs2.
Proof.
  induction 1 as [|[k1 s1] [k2 s2] gs1 gs2 [Hk _] _ IH]; [reflexivity|].
  cbn in Hk |- *. unfold dict_keys in IH. rewrite Hk, IH. reflexivity.
Qed.

Lemma gs_rel_intro gs1 gs2 :
  dict_keys gs1 = dict_keys gs2 -> dict_wf gs1 = true ->
  (forall label i, in_group gs1 label i = in_group gs2 label i) ->
  gs_rel S1 S2 gs1 gs2.
Proof.
  revert gs2. induction gs1 as [|[k1 s1] gs1 IH]; intros [|[k2 s2] gs2] Hk Hwf Hin;
    try discriminate; [constructor|].
  cbn [dict_keys map fst] in Hk. injection Hk as Hk Hks. subst k2.
  unfold dict_wf in Hwf. cbn [dict_keys map fst keys_distinct] in Hwf.
  apply andb_true_iff in Hwf. destruct Hwf as [Hnew Hwf].
  apply negb_true_iff in Hnew.
  constructor.
  - split; [reflexivity|]. intros i. specialize (Hin k1 i).
    unfold in_group in Hin. cbn [dict_get] in Hin.
    rewrite keqb_refl in Hin. exact Hin.
  - apply IH; [exact Hks | exact Hwf |].
    intros label i. specialize (Hin label i).
    unfold in_group in Hin |- *. cbn [dict_get] in Hin.
    destruct (keqb k1 label) eqn:E; [|exact Hin].
    apply keqb_eq in E. subst label.
    assert (H1 : dict_get gs1 k1 = None) by (apply dict_get_none, Hnew).
    assert (H2 : dict_get gs2 k1 = None).
    { apply dict_get_none. fold (dict_keys gs1) in Hks.
      unfold dict_keys. rewrite <- Hks. exact Hnew. }
    rewrite H1, H2. reflexivity.
Qed.

Lemma group_fields_rel gl (s1 : @pyset nat S1) (s2 : @pyset nat S2) :
  (forall i, set_mem i s1 = set_mem i s2) ->
  group_fields gl s1 = group_fields gl s2.
Proof.
  intros Hs. unfold group_fields. f_equal. apply filter_ext. exact Hs.
Qed.

Lemma tabulate_rel {U} (f1 : @pyset nat S1 -> U) (f2 : @pyset nat S2 -> U)
    gs1 gs2 :
  (forall s1 s2, (forall i, set_mem i s1 = set_mem i s2) -> f1 s1 = f2 s2) ->
  gs_rel S1 S2 gs1 gs2 -> tabulate f1 gs1 = tabulate f2 gs2.
Proof.
  intros Hf. induction 1 as [|[k1 s1] [k2 s2] gs1 gs2 [Hk Hs] _ IH];
    [reflexivity|].
  cbn in Hk, Hs |- *. unfold tabulate in IH.
  rewrite Hk, (Hf s1 s2 Hs), IH. reflexivity.
Qed.

Lemma all_called_rel gl gs1 gs2 :
  gs_rel S1 S2 gs1 gs2 -> all_called gl gs1 = all_called gl gs2.
Proof.
  induction 1 as [|[k1 s1] [k2 s2] gs1 gs2 [Hk Hs] _ IH]; [reflexivity|].
  cbn in Hs. unfold all_called in IH |- *. cbn [forallb snd].
  unfold call_total at 1 3. rewrite (group_fields_rel gl s1 s2 Hs), IH.
  reflexivity.
Qed.

Lemma get_frequencies_rel gl gs1 gs2 :
  dict_wf gs1 = true -> gs_rel S1 S2 gs1 gs2 ->
  get_frequencies gl gs1 = get_frequencies gl gs2.
Proof.
  intros Hwf Hrel.
  assert (Hwf2 : dict_wf gs2 = true).
  { unfold dict_wf. rewrite <- (gs_rel_keys gs1 gs2 Hrel). exact Hwf. }
  rewrite !get_frequencies_eq by assumption.
  rewrite (all_called_rel gl gs1 gs2 Hrel).
  rewrite (tabulate_rel (frequency gl) (frequency gl) gs1 gs2),
          (tabulate_rel (call_total gl) (call_total gl) gs1 gs2);
    try exact Hrel; try reflexivity.
  - intros s1 s2 Hs. unfold call_total.
    rewrite (group_fields_rel gl s1 s2 Hs). reflexivity.
  - intros s1 s2 Hs. unfold frequency, allele_hits, call_total.
    rewrite (group_fields_rel gl s1 s2 Hs). reflexivity.
Qed.

Lemma build_fst_rel names l gi gs1 gs2 :
  fst (fold_left (@add_individual S1 names) l (gi, gs1))
  = fst (fold_left (@add_individual S2 names) l (gi, gs2)).
Proof.
  revert gi gs1 gs2. induction l as [|i l IH]; intros gi gs1 gs2; [reflexivity|].
  cbn [fold_left]. unfold add_individual at 2 4.
  destruct (dd_getitem [] gi (nth i names EmptyString)) as [labels gi'].
  apply IH.
Qed.

Lemma build_rel gi names :
  gs_rel S1 S2 (snd (@build_group_sets S1 gi names))
         (snd (@build_group_sets S2 gi names)).
Proof.
  apply gs_rel_intro.
  - rewrite !build_keys. reflexivity.
  - apply build_wf.
  - intros label i.
    assert (H1 := @build_in_group S1 gi names label i).
    assert (H2 := @build_in_group S2 gi names label i).
    destruct (in_group (snd (@build_group_sets S1 gi names)) label i),
             (in_group (snd (@build_group_sets S2 gi names)) label i);
      try reflexivity; exfalso.
    + assert (Hf : false = true) by (apply H2, H1; reflexivity). discriminate.
    + assert (Hf : false = true) by (apply H1, H2; reflexivity). discriminate.
Qed.

Lemma process_line_rel use_fid st1 st2 line o :
  st_rel S1 S2 st1 st2 ->
  snd (process_line use_fid st1 line o) = snd (process_line use_fid st2 line o)
  /\ result_rel (st_rel S1 S2) (fst (process_line use_fid st1 line o))
                       (fst (process_line use_fid st2 line o)).
Proof.
  destruct st1 as [gi1 g1], st2 as [gi2 g2]. intros [Hgi Hg].
  cbn [fst snd] in Hgi, Hg. subst gi2.
  destruct (startswith line hash_mark) eqn:Hh.
  - destruct (startswith line chrom_mark) eqn:Hc.
    + rewrite !process_line_header by exact Hc.
      destruct (read_sample_names use_fid line) as [names|e];
        [|split; reflexivity].
      cbn [fst snd result_rel].
      assert (Hrel := build_rel gi1 names).
      rewrite (gs_rel_keys _ _ Hrel). split; [reflexivity|].
      split; cbn [fst snd].
      * apply build_fst_rel.
      * split; [apply build_wf | exact Hrel].
    + rewrite !process_line_comment by assumption.
      cbn [fst snd result_rel]. split; [reflexivity|].
      split; [reflexivity | exact Hg].
  - unfold process_line. rewrite Hh. cbn [negb].
    assert (Hd : data_line g1 line o = data_line g2 line o).
    { destruct g1 as [gs1|], g2 as [gs2|]; try contradiction; [|reflexivity].
      destruct Hg as [Hwf Hrel]. unfold data_line. cbv zeta.
      rewrite (get_frequencies_rel _ gs1 gs2 Hwf Hrel). reflexivity. }
    unfold bindW. rewrite Hd.
    destruct (data_line g2 line o) as [[[]|e] o']; cbn [fst snd result_rel retW].
    + split; [reflexivity|]. split; [reflexivity | exact Hg].
    + split; reflexivity.
Qed.

Lemma process_lines_rel use_fid lines st1 st2 o :
  st_rel S1 S2 st1 st2 ->
  process_lines use_fid lines st1 o = process_lines use_fid lines st2 o.
Proof.
  revert st1 st2 o. induction lines as [|line lines IH]; intros st1 st2 o Hst;
    [reflexivity|].
  cbn [process_lines]. unfold bindW.
  destruct (process_line_rel use_fid st1 st2 line o Hst) as [Ho Hr].
  destruct (process_line use_fid st1 line o) as [[st1'|e1] o1],
           (process_line use_fid st2 line o) as [[st2'|e2] o2];
    cbn [fst snd result_rel] in Ho, Hr; subst; try contradiction.
  - apply IH, Hr.
  - reflexivity.
Qed.

End SetIndependence.

Section LoaderIndependence.
Context (T1 T2 : PySet string).

Lemma add_label_rel hn fields gd
    (gh1 : list (string * @pyset string T1))
    (gh2 : list (string * @pyset string T2)) gi :
  result_rel (fun a b => fst a = fst b)
             (add_label hn fields (gd, gh1) gi)
             (add_label hn fields (gd, gh2) gi).
Proof.
  unfold add_label.
  destruct (py_getitem fields 0) as [individual|e]; cbn [bind result_rel];
    [|reflexivity].
  destruct (dd_getitem [] gd individual) as [labels gd1].
  destruct (dict_getitem hn gi) as [system|e]; cbn [bind result_rel];
    [|reflexivity].
  destruct (py_getitem fields (Z.of_nat (gi + 1))) as [label|e];
    cbn [bind result_rel]; [|reflexivity].
  destruct (dd_getitem set_empty gh1 system) as [seen1 gh1'].
  destruct (dd_getitem set_empty gh2 system) as [seen2 gh2'].
  cbn [result_rel fst]. reflexivity.
Qed.

Lemma get_groupings_rel fh :
  result_rel (fun a b => fst a = fst b)
             (@get_groupings T1 fh) (@get_groupings T2 fh).
Proof.
  unfold get_groupings. cbv zeta.
  apply foldM_rel; [|reflexivity].
  intros [gd1 gh1] [gd2 gh2] line Hgd. cbn [fst] in Hgd. subst gd2.
  unfold add_row. cbv zeta. apply foldM_rel; [|reflexivity].
  intros [gd1' gh1'] [gd2' gh2'] gi Hgd. cbn [fst] in Hgd. subst gd2'.
  apply add_label_rel.
Qed.

End LoaderIndependence.

(** ** Counting and bounds *)

Lemma count_char_nonneg (c : ascii) (s : string) : (0 <= count_char c s)%Z.
Proof.
  induction s as [|a s IH]; cbn [count_char]; [lia|].
  destruct (Ascii.eqb a c); lia.
Qed.

Lemma count_isdigit_nonneg (s : string) : (0 <= count_isdigit s)%Z.
Proof.
  induction s as [|a s IH]; cbn [count_isdigit]; [lia|].
  destruct (isdigit a); lia.
Qed.

(** The character 1 is a digit, so it is counted in both totals. *)
Lemma count_one_le_digits (s : string) :
  (count_char "1" s <= count_isdigit s)%Z.
Proof.
  induction s as [|a s IH]; cbn [count_char count_isdigit]; [lia|].
  destruct (Ascii.eqb a "1") eqn:E.
  - apply Ascii.eqb_eq in E. subst a.
    replace (isdigit "1") with true by reflexivity. lia.
  - destruct (isdigit a); lia.
Qed.

Lemma zsum_map_nonneg {A} (f : A -> Z) (l : list A) :
  (forall a, 0 <= f a)%Z -> (0 <= zsum (map f l))%Z.
Proof.
  intros Hf. induction l as [|a l IH]; cbn [map zsum]; [lia|].
  specialize (Hf a). lia.
Qed.

Lemma zsum_map_le {A} (f g : A -> Z) (l : list A) :
  (forall a, f a <= g a)%Z -> (zsum (map f l) <= zsum (map g l))%Z.
Proof.
  intros Hfg. induction l as [|a l IH]; cbn [map zsum]; [lia|].
  specialize (Hfg a). lia.
Qed.

Lemma unit_fraction (h t : Z) :
  (0 <= h <= t)%Z -> (0 < t)%Z ->
  (0 <= inject_Z h / inject_Z t /\ inject_Z h / inject_Z t <= 1)%Q.
Proof.
  intros [Hh Hht] Ht.
  assert (Hpos : (0 < inject_Z t)%Q).
  { change 0%Q with (inject_Z 0). rewrite <- Zlt_Qlt. exact Ht. }
  split.
  - apply Qle_shift_div_l; [exact Hpos|].
    rewrite Qmult_0_l. change 0%Q with (inject_Z 0).
    rewrite <- Zle_Qle. exact Hh.
  - apply Qle_shift_div_r; [exact Hpos|].
    rewrite Qmult_1_l. rewrite <- Zle_Qle. exact Hht.
Qed.

Section BoundFacts.
Context {SI : PySet nat}.

Lemma allele_hits_bounds (gl : list string) (members : int_set) :
  (0 <= allele_hits gl members <= call_total gl members)%Z.
Proof.
  unfold allele_hits, call_total. split.
  - apply zsum_map_nonneg. intros s. apply count_char_nonneg.
  - apply zsum_map_le. apply count_one_le_digits.
Qed.

Lemma all_called_true (gl : list string) (gs : group_index) :
  all_called gl gs = true <->
  forall label members, In (label, members) gs -> call_total gl members <> 0%Z.
Proof.
  unfold all_called. rewrite forallb_forall. split.
  - intros Hall label members Hin. specialize (Hall _ Hin). cbn [snd] in Hall.
    apply negb_true_iff, Z.eqb_neq in Hall. exact Hall.
  - intros Hall [label members] Hin. cbn [snd].
    apply negb_true_iff, Z.eqb_neq. exact (Hall label members Hin).
Qed.

Lemma all_called_false (gl : list string) (gs : group_index)
    (label : string) (members : int_set) :
  dict_get gs label = Some members -> call_total gl members = 0%Z ->
  all_called gl gs = false.
Proof.
  intros Hget Hz. destruct (all_called gl gs) eqn:E; [|reflexivity].
  exfalso. apply (proj1 (all_called_true gl gs) E label members).
  - apply dict_get_In, Hget.
  - exact Hz.
Qed.

Lemma frequency_value (gl : list string) (members : int_set) :
  (frequency gl members
   == inject_Z (allele_hits gl members) / inject_Z (call_total gl members))%Q.
Proof. unfold frequency. apply Qred_correct. Qed.

End BoundFacts.

Lemma assignments_In (gi : grouping_table) (names : list string) (i : nat)
    (label : string) :
  In (i, label) (assignments gi names) <->
  i < List.length names /\
  In label (dict_values (labels_of gi (nth i names EmptyString))).
Proof.
  unfold assignments. rewrite in_flat_map. split.
  - intros [j [Hj Hin]]. apply in_seq in Hj. apply in_map_iff in Hin.
    destruct Hin as [l [Heq Hl]]. inversion Heq; subst. split; [lia | exact Hl].
  - intros [Hi Hl]. exists i. split; [apply in_seq; lia|].
    apply in_map. exact Hl.
Qed.

Lemma dict_values_In {K V} `{EqKey K} (d : list (K * V)) (v : V) :
  dict_wf d = true ->
  (In v (dict_values d) <-> exists k, dict_get d k = Some v).
Proof.
  intros Hwf. unfold dict_values. rewrite in_map_iff. split.
  - intros [[k v'] [Hv Hin]]. cbn in Hv. subst v'. exists k.
    apply In_dict_get; assumption.
  - intros [k Hget]. exists (k, v). split; [reflexivity|].
    apply dict_get_In, Hget.
Qed.

Lemma first_seen_In (l : list string) (x : string) :
  In x (first_seen l) <-> In x l.
Proof.
  induction l as [|y l IH]; cbn [first_seen In]; [tauto|].
  rewrite filter_In, IH, negb_true_iff. split.
  - tauto.
  - intros [Hy | Hx]; [left; exact Hy|].
    destruct (String.eqb y x) eqn:E.
    + left. apply String.eqb_eq, E.
    + right. tauto.
Qed.

Lemma first_seen_NoDup (l : list string) : NoDup (first_seen l).
Proof.
  induction l as [|y l IH]; cbn [first_seen]; constructor.
  - rewrite filter_In, String.eqb_refl. intros [_ Hf]. discriminate.
  - apply NoDup_filter, IH.
Qed.

(* ================================================================== *)
(** * The claims *)

(** ** C1: a group without any digit on a data row *)

(** C1, as stated, fails: on the worked example followed by a row in which
    both members of group x are uncalled, no sentinel is reported; the run
    ends with [ZeroDivisionError] after the leading fields of that row, and
    the row after it is never written. *)
Lemma undefined_frequency_counterexample :
  call_total (genotypes ex_missing_row) (set_add 2 (set_add 0 set_empty)) = 0%Z
  /\ main false ex_groups (ex_meta ++ [ex_header; ex_row; ex_missing_row; ex_row])
     = (Some {| done := [ [Str "Chr"; Str "Position"; Str "rsID"; Str "Ref";
                           Str "Alt"; Str "x_freq"; Str "x_count";
                           Str "y_freq"; Str "y_count"];
                          [Str "1"; Str "100"; Str "rs1"; Str "A"; Str "G";
                           Float (1 # 4); Int 4; Float 1; Int 2] ];
                pending := [Str "1"; Str "200"; Str "rs2"; Str "A"; Str "G"] |},
        Err ZeroDivisionError).
Proof. split; vm_compute; reflexivity. Qed.

(** C1, amended: when some group has no digit character among its genotype
    fields on a data row, [get_frequencies] raises [ZeroDivisionError] and
    returns no frequency for any group; [main] stops at that row, having
    written the rows before it and only the leading (at most five) fields of
    the row itself, without the line end; the lines after it are not
    processed. *)
Theorem zero_call_total_raises {SI : PySet nat} {SS : PySet string}
    (use_fid : bool) (gfile : list string) (gi : grouping_table)
    (ghs : grouping_systems) (meta : list string) (hdr : string)
    (body : list string) (bad : string) (rest : list string)
    (names : list string) (label : string) (members : int_set) :
  get_groupings gfile = Ok (gi, ghs) ->
  forallb (fun l => startswith l hash_mark && negb (startswith l chrom_mark))
          meta = true ->
  startswith hdr chrom_mark = true ->
  read_sample_names use_fid hdr = Ok names ->
  forallb (fun l => negb (startswith l chrom_mark)) body = true ->
  forallb (fun l => startswith l hash_mark
                    || all_called (genotypes l) (snd (build_group_sets gi names)))
          body = true ->
  startswith bad hash_mark = false ->
  dict_get (snd (build_group_sets gi names)) label = Some members ->
  call_total (genotypes bad) members = 0%Z ->
  get_frequencies (genotypes bad) (snd (build_group_sets gi names))
  = Err ZeroDivisionError
  /\ main use_fid gfile (meta ++ hdr :: body ++ bad :: rest)
     = (Some {| done := header_row (dict_keys (snd (build_group_sets gi names)))
                        :: map (data_row (snd (build_group_sets gi names)))
                               (filter is_data body);
                pending := map Str (firstn 5 (fields_of bad)) |},
        Err ZeroDivisionError).
Proof.
  intros Hg Hmeta Hhdr Hnames Hbody Hok Hbad Hget Hz.
  assert (Hwf := build_wf gi names).
  assert (Hnone := all_called_false (genotypes bad) _ label members Hget Hz).
  split.
  - rewrite get_frequencies_eq by exact Hwf. rewrite Hnone. reflexivity.
  - rewrite (main_run use_fid gfile gi ghs meta hdr body (bad :: rest) names)
      by assumption.
    cbn [process_lines]. unfold bindW at 1.
    rewrite process_line_data by assumption. rewrite Hnone. reflexivity.
Qed.

Lemma zero_call_total_raises_witness :
  get_frequencies (genotypes ex_missing_row)
                  (snd (build_group_sets ex_table ex_names))
  = Err ZeroDivisionError
  /\ main false ex_groups (ex_meta ++ ex_header :: [ex_row] ++ ex_missing_row :: [ex_row])
     = (Some {| done := header_row (dict_keys (snd (build_group_sets ex_table ex_names)))
                        :: map (data_row (snd (build_group_sets ex_table ex_names)))
                               (filter is_data [ex_row]);
                pending := map Str (firstn 5 (fields_of ex_missing_row)) |},
        Err ZeroDivisionError).
Proof.
  apply (zero_call_total_raises (SI := ListSet_nat) (SS := ListSet_string)
           false ex_groups ex_table ex_systems ex_meta ex_header [ex_row]
           ex_missing_row [ex_row] ex_names "x"%string [0; 2]);
    vm_compute; reflexivity.
Defined.

(** ** C2: a sample that is not in the grouping table *)

(** C2, as stated, fails: the sample S_Z resolves to Z, which the grouping
    table does not hold, and the run finishes with the header and the data
    row written. *)
Lemma unresolved_sample_counterexample :
  dict_get ex_table "Z"%string = None
  /\ main false ex_groups
          [vcf_columns ["S_A"; "S_Z"]%string;
           vcf_row "100" "rs1" ["0/1"; "1/1"]%string]
     = (Some {| done := [ [Str "Chr"; Str "Position"; Str "rsID"; Str "Ref";
                           Str "Alt"; Str "x_freq"; Str "x_count"];
                          [Str "1"; Str "100"; Str "rs1"; Str "A"; Str "G";
                           Float (1 # 2); Int 2] ];
                pending := [] |},
        Ok tt).
Proof. split; vm_compute; reflexivity. Qed.

(** C2, amended: a sample column whose resolved key is absent from the
    grouping table does not stop the run.  The table is a [defaultdict], so
    the lookup yields an empty mapping: the header row is written and the
    column position of such a sample is a member of no group.  Processing
    the sample header fails only when the resolver raises [IndexError]. *)
Theorem unresolved_sample_ignored {SI : PySet nat} (use_fid : bool)
    (gi : grouping_table) (line : string) (o : ofh) :
  match read_sample_names use_fid line with
  | Ok names =>
      header_line use_fid gi line o
      = (Ok (build_group_sets gi names),
         {| done := done o
                    ++ [pending o
                        ++ header_row
                             (dict_keys (snd (build_group_sets gi names)))];
            pending := [] |})
      /\ forall i key,
          nth_error names i = Some key -> dict_get gi key = None ->
          forall label,
            in_group (snd (build_group_sets gi names)) label i = false
  | Err e =>
      e = IndexError /\ use_fid = true
      /\ header_line use_fid gi line o = (Err IndexError, o)
  end.
Proof.
  assert (Hh := header_line_eq use_fid gi line o).
  destruct (read_sample_names use_fid line) as [names|e] eqn:Hn.
  - split; [exact Hh|]. intros i key Hi Hkey label.
    destruct (in_group (snd (build_group_sets gi names)) label i) eqn:E;
      [|reflexivity].
    exfalso. apply build_in_group, assignments_In in E. destruct E as [_ Hin].
    rewrite (nth_error_nth names i EmptyString Hi) in Hin.
    unfold labels_of in Hin. rewrite Hkey in Hin. exact Hin.
  - destruct use_fid.
    + unfold read_sample_names in Hn.
      assert (Hm := mapM_resolve_family (skipn 9 (split_char tab (rstrip line)))).
      destruct (existsb (lacks underscore) _).
      * rewrite Hm in Hn. injection Hn as <-. auto.
      * destruct Hm as [names Hm]. congruence.
    + rewrite read_sample_names_individual in Hn. discriminate.
Qed.

(** ** C3: what the two counters count *)

(** C3, as stated, fails: [isdigit] also holds of the superscript digits, so
    the field 0|1 followed by a superscript two adds three to the call total,
    not the two decimal digits it contains, and the frequency is 1/3 rather
    than 1/2.  Besides, a group with a positive call total gets no frequency
    on a row on which another group has none. *)
Lemma decimal_digit_counterexample :
  get_frequencies [("0|1" ++ String superscript_two EmptyString)%string]
                  [("x"%string, set_add 0 set_empty)]
  = Ok ([("x"%string, 1 # 3)], [("x"%string, 3%Z)])
  /\ decimal_total [("0|1" ++ String superscript_two EmptyString)%string]
                   (set_add 0 set_empty) = 2%Z
  /\ call_total ["0/1"; "./."]%string (set_add 0 set_empty) = 2%Z
  /\ get_frequencies ["0/1"; "./."]%string
                     [("x"%string, set_add 0 set_empty);
                      ("y"%string, set_add 1 set_empty)]
     = Err ZeroDivisionError.
Proof. repeat split; vm_compute; reflexivity. Qed.

(** C3, amended: for every data row and every group label, with S the
    genotype fields at the group's column positions, the count returned for
    the label is the number of characters of S for which [str.isdigit] holds
    (the decimal digits and also other digit characters such as superscript
    digits), and the frequency returned is the number of characters 1 in S
    divided by that count, provided every group of the index has a positive
    count on the row. *)
Theorem get_frequencies_counts {SI : PySet nat} (gl : list string)
    (gs : group_index) :
  dict_wf gs = true ->
  (forall label members,
      dict_get gs label = Some members -> (0 < call_total gl members)%Z) ->
  exists frqs counts,
    get_frequencies gl gs = Ok (frqs, counts)
    /\ dict_keys frqs = dict_keys gs /\ dict_keys counts = dict_keys gs
    /\ forall label members,
        dict_get gs label = Some members ->
        dict_get counts label = Some (call_total gl members)
        /\ exists q,
            dict_get frqs label = Some q
            /\ (q == inject_Z (allele_hits gl members)
                     / inject_Z (call_total gl members))%Q.
Proof.
  intros Hwf Hpos.
  exists (tabulate (frequency gl) gs), (tabulate (call_total gl) gs).
  rewrite get_frequencies_eq by exact Hwf.
  replace (all_called gl gs) with true.
  - split; [reflexivity|]. rewrite !tabulate_keys.
    split; [reflexivity|]. split; [reflexivity|].
    intros label members Hget. rewrite !dict_get_tabulate, Hget.
    split; [reflexivity|]. eexists. split; [reflexivity|].
    apply frequency_value.
  - symmetry. apply all_called_true. intros label members Hin.
    assert (Hp := Hpos label members (In_dict_get gs label members Hwf Hin)).
    lia.
Qed.

Lemma get_frequencies_counts_witness :
  exists frqs counts,
    get_frequencies ["0/1"; "1/1"; "0/0"]%string
                    [("x"%string, [0; 2]); ("y"%string, [1])]
    = Ok (frqs, counts)
    /\ dict_keys frqs = ["x"; "y"]%string /\ dict_keys counts = ["x"; "y"]%string
    /\ forall label members,
        dict_get [("x"%string, [0; 2]); ("y"%string, [1])] label = Some members ->
        dict_get counts label
        = Some (call_total ["0/1"; "1/1"; "0/0"]%string members)
        /\ exists q,
            dict_get frqs label = Some q
            /\ (q == inject_Z (allele_hits ["0/1"; "1/1"; "0/0"]%string members)
                     / inject_Z (call_total ["0/1"; "1/1"; "0/0"]%string members))%Q.
Proof.
  apply (get_frequencies_counts (SI := ListSet_nat)
           ["0/1"; "1/1"; "0/0"]%string
           [("x"%string, [0; 2]); ("y"%string, [1])]).
  - reflexivity.
  - intros label members. cbn [dict_get].
    destruct (keqb "x"%string label); [intros [= <-]; vm_compute; reflexivity|].
    destruct (keqb "y"%string label); [intros [= <-]; vm_compute; reflexivity|].
    discriminate.
Defined.

(** ** C4: rows of the grouping file and the header's field count *)

(** C4, as stated, fails: a row with fewer fields than the header is
    accepted, and the individual gets labels for the leading systems only. *)
Lemma short_row_counterexample :
  n_systems (text_line "ID SYS1 SYS2") = 2 /\ n_labels (text_line "A x") = 1
  /\ get_groupings (map text_line ["ID SYS1 SYS2"; "A x"]%string)
     = Ok ([("A", [("SYS1", "x")])]%string, [("SYS1", ["x"])]%string).
Proof. repeat split; vm_compute; reflexivity. Qed.

(** C4, amended: loading the grouping table fails exactly when some data row
    has more label fields than the header names grouping systems; the
    exception is then a [KeyError] that carries the number of systems, not
    the offending line.  A row with fewer fields than the header (a blank
    line included) is accepted. *)
Theorem get_groupings_field_count {SS : PySet string} (fh : list string) :
  if forallb (fun line => n_labels line <=? n_systems (hd EmptyString fh))
             (skipn 1 fh)
  then exists gd gh, get_groupings fh = Ok (gd, gh)
  else get_groupings fh = Err (KeyError_int (n_systems (hd EmptyString fh))).
Proof.
  unfold get_groupings. cbv zeta.
  change (match fh with [] => EmptyString | l :: _ => l end)
    with (hd EmptyString fh).
  assert (H := add_rows_result (hd EmptyString fh) (skipn 1 fh) ([], [])).
  destruct (forallb _ (skipn 1 fh)); [|exact H].
  destruct H as [[gd gh] H]. exists gd, gh. exact H.
Qed.

(** ** C5: the members of each group *)

(** C5: after the index is built from the resolved sample order, column
    position [i] is a member of the set of [label] exactly when the
    individual at position [i] is in the grouping table and has [label]
    under some grouping system; labels are keyed by their string alone, so
    equal labels of different systems share one set.  The table is any
    table whose individuals name no grouping system twice, as every loaded
    table does ([get_groupings_wf]). *)
Theorem group_index_membership {SI : PySet nat} (gi : grouping_table)
    (names : list string) (label : string) (i : nat) :
  forallb (fun kv => dict_wf (snd kv)) gi = true ->
  (in_group (snd (build_group_sets gi names)) label i = true
   <-> exists individual labels system,
       nth_error names i = Some individual
       /\ dict_get gi individual = Some labels
       /\ dict_get labels system = Some label).
Proof.
  intros Hwf. rewrite build_in_group, assignments_In. split.
  - intros [Hi Hin]. exists (nth i names EmptyString).
    unfold labels_of in Hin.
    destruct (dict_get gi (nth i names EmptyString)) as [labels|] eqn:Hg;
      [|contradiction].
    assert (Hl : dict_wf labels = true).
    { rewrite forallb_forall in Hwf.
      exact (Hwf _ (dict_get_In gi _ labels Hg)). }
    apply (dict_values_In labels label Hl) in Hin. destruct Hin as [system Hs].
    exists labels, system. split; [apply nth_error_nth', Hi|].
    split; [reflexivity | exact Hs].
  - intros [individual [labels [system [Hi [Hg Hs]]]]].
    assert (Hlt : i < List.length names).
    { apply nth_error_Some. congruence. }
    split; [exact Hlt|].
    rewrite (nth_error_nth names i EmptyString Hi).
    unfold labels_of. rewrite Hg.
    unfold dict_values. apply in_map_iff. exists (system, label).
    split; [reflexivity | apply dict_get_In, Hs].
Qed.

Lemma group_index_membership_witness :
  in_group (snd (build_group_sets ex_table ex_names)) "x"%string 2 = true
  <-> exists individual labels system,
      nth_error ex_names 2 = Some individual
      /\ dict_get ex_table individual = Some labels
      /\ dict_get labels system = Some "x"%string.
Proof.
  apply (group_index_membership (SI := ListSet_nat) ex_table ex_names
           "x"%string 2).
  reflexivity.
Defined.

(** ** C6: the shape of the output *)

Lemma header_cells_length (labels : list string) :
  List.length (flat_map header_cells labels) = 2 * List.length labels.
Proof.
  induction labels as [|l labels IH]; [reflexivity|].
  cbn [flat_map header_cells app List.length]. rewrite IH. lia.
Qed.

Lemma group_cells_length {SI : PySet nat} (gl : list string) (gs : group_index) :
  List.length (group_cells gl gs) = 2 * List.length (dict_keys gs).
Proof.
  unfold group_cells, dict_keys. rewrite length_map.
  induction gs as [|kv gs IH]; [reflexivity|].
  cbn [flat_map app List.length]. rewrite IH. lia.
Qed.

(** C6, as stated, fails.  A data row of a well-formed file in which a
    group has no digit produces no output row: the run ends there.  And a
    data line with fewer than five fields produces a row with fewer
    columns. *)
Lemma output_shape_counterexample :
  main false ex_groups [ex_header; vcf_row "300" "rs3" ["0/1"; "./."; "1/1"]%string]
  = (Some {| done := [ [Str "Chr"; Str "Position"; Str "rsID"; Str "Ref";
                        Str "Alt"; Str "x_freq"; Str "x_count";
                        Str "y_freq"; Str "y_count"] ];
             pending := [Str "1"; Str "300"; Str "rs3"; Str "A"; Str "G"] |},
     Err ZeroDivisionError)
  /\ main false ex_groups
          [vcf_columns []; tsv ["1"; "100"]%string]
     = (Some {| done := [ [Str "Chr"; Str "Position"; Str "rsID"; Str "Ref";
                           Str "Alt"];
                          [Str "1"; Str "100"] ];
                pending := [] |},
        Ok tt).
Proof. split; vm_compute; reflexivity. Qed.

(** C6, amended: for a variant file made of comment lines, then the sample
    header, then comment lines and data rows, in which every group has a
    digit on every data row, the run finishes and the output is one header
    line (Chr, Position, rsID, Ref, Alt, then label_freq and label_count for
    each label in first-seen order) followed by exactly one row per data row,
    in input order; a row holds the first five fields of its line (all of
    them when the line has fewer) and then frequency and count of each group
    in the order of the header, that is 5 + 2 * (number of distinct labels)
    columns for a line of at least five fields. *)
Theorem main_output_shape {SI : PySet nat} {SS : PySet string}
    (use_fid : bool) (gfile : list string) (gi : grouping_table)
    (ghs : grouping_systems) (meta : list string) (hdr : string)
    (body : list string) (names : list string) :
  get_groupings gfile = Ok (gi, ghs) ->
  forallb (fun l => startswith l hash_mark && negb (startswith l chrom_mark))
          meta = true ->
  startswith hdr chrom_mark = true ->
  read_sample_names use_fid hdr = Ok names ->
  forallb (fun l => negb (startswith l chrom_mark)) body = true ->
  forallb (fun l => startswith l hash_mark
                    || all_called (genotypes l) (snd (build_group_sets gi names)))
          body = true ->
  let gs := snd (build_group_sets gi names) in
  let labels := dict_keys gs in
  main use_fid gfile (meta ++ hdr :: body)
  = (Some {| done := header_row labels
                     :: map (data_row gs) (filter is_data body);
             pending := [] |},
     Ok tt)
  /\ labels = first_seen (map snd (assignments gi names))
  /\ NoDup labels
  /\ List.length (header_row labels) = 5 + 2 * List.length labels
  /\ List.length (map (data_row gs) (filter is_data body))
     = List.length (filter is_data body)
  /\ forall line,
      List.length (data_row gs line)
      = Nat.min 5 (List.length (fields_of line)) + 2 * List.length labels.
Proof.
  intros Hg Hmeta Hhdr Hnames Hbody Hok gs labels.
  split.
  - assert (Hrun := main_run use_fid gfile gi ghs meta hdr body [] names
                             Hg Hmeta Hhdr Hnames Hbody Hok).
    rewrite app_nil_r in Hrun. exact Hrun.
  - split; [apply build_keys|].
    split; [unfold labels, gs; rewrite build_keys; apply first_seen_NoDup|].
    split.
    + unfold header_row. rewrite length_app, header_cells_length. reflexivity.
    + split; [apply length_map|].
      intros line. unfold data_row.
      rewrite length_app, length_map, length_firstn, group_cells_length.
      reflexivity.
Qed.

Lemma main_output_shape_witness :
  let gs := snd (build_group_sets ex_table ex_names) in
  let labels := dict_keys gs in
  main false ex_groups (ex_meta ++ ex_header :: [ex_row; ex_row])
  = (Some {| done := header_row labels
                     :: map (data_row gs) (filter is_data [ex_row; ex_row]);
             pending := [] |},
     Ok tt)
  /\ labels = first_seen (map snd (assignments ex_table ex_names))
  /\ NoDup labels
  /\ List.length (header_row labels) = 5 + 2 * List.length labels
  /\ List.length (map (data_row gs) (filter is_data [ex_row; ex_row]))
     = List.length (filter is_data [ex_row; ex_row])
  /\ forall line,
      List.length (data_row gs line)
      = Nat.min 5 (List.length (fields_of line)) + 2 * List.length labels.
Proof.
  apply (main_output_shape (SI := ListSet_nat) (SS := ListSet_string)
           false ex_groups ex_table ex_systems ex_meta ex_header
           [ex_row; ex_row] ex_names);
    vm_compute; reflexivity.
Defined.

(** ** C7: frequencies lie between 0 and 1 *)

(** C7: whenever [get_frequencies] returns, every frequency it returns lies
    in the closed interval from 0 to 1: for the group's set of positions the
    number of characters 1 is not negative and does not exceed the number of
    digit characters, which is positive. *)
Theorem frequency_in_unit_interval {SI : PySet nat} (gl : list string)
    (gs : group_index) (frqs : list (string * Q)) (counts : list (string * Z))
    (label : string) (q : Q) :
  dict_wf gs = true ->
  get_frequencies gl gs = Ok (frqs, counts) ->
  dict_get frqs label = Some q ->
  (0 <= q /\ q <= 1)%Q
  /\ exists members,
      dict_get gs label = Some members
      /\ dict_get counts label = Some (call_total gl members)
      /\ (0 <= allele_hits gl members <= call_total gl members)%Z
      /\ (0 < call_total gl members)%Z.
Proof.
  intros Hwf Hgf Hq. rewrite get_frequencies_eq in Hgf by exact Hwf.
  destruct (all_called gl gs) eqn:Hall; [|discriminate].
  injection Hgf as <- <-. rewrite dict_get_tabulate in Hq.
  destruct (dict_get gs label) as [members|] eqn:Hget; [|discriminate].
  cbn [option_map] in Hq. injection Hq as <-.
  assert (Hb := allele_hits_bounds gl members).
  assert (Hnz : call_total gl members <> 0%Z).
  { apply (proj1 (all_called_true gl gs) Hall label members).
    apply dict_get_In, Hget. }
  assert (Hpos : (0 < call_total gl members)%Z) by lia.
  split.
  - rewrite frequency_value. apply unit_fraction; assumption.
  - exists members. rewrite dict_get_tabulate, Hget. auto.
Qed.

Lemma frequency_in_unit_interval_witness :
  (0 <= 1 # 4 /\ 1 # 4 <= 1)%Q
  /\ exists members,
      dict_get [("x"%string, [0; 2]); ("y"%string, [1])] "x"%string = Some members
      /\ dict_get [("x"%string, 4%Z); ("y"%string, 2%Z)] "x"%string
         = Some (call_total ["0/1"; "1/1"; "0/0"]%string members)
      /\ (0 <= allele_hits ["0/1"; "1/1"; "0/0"]%string members
          <= call_total ["0/1"; "1/1"; "0/0"]%string members)%Z
      /\ (0 < call_total ["0/1"; "1/1"; "0/0"]%string members)%Z.
Proof.
  apply (frequency_in_unit_interval (SI := ListSet_nat)
           ["0/1"; "1/1"; "0/0"]%string
           [("x"%string, [0; 2]); ("y"%string, [1])]
           [("x"%string, 1 # 4); ("y"%string, 1%Q)]
           [("x"%string, 4%Z); ("y"%string, 2%Z)] "x"%string (1 # 4));
    vm_compute; reflexivity.
Defined.

(** ** C8: which token the resolver selects *)

Lemma resolve_last_token (toks : list string) :
  toks <> [] ->
  Forall (fun t => lacks underscore t = true) toks ->
  resolve false (join underscore toks) = Ok (last toks EmptyString).
Proof.
  intros Hne Hall.
  rewrite resolve_individual, split_char_join by assumption. reflexivity.
Qed.

Lemma resolve_second_last_token (toks : list string) :
  toks <> [] ->
  Forall (fun t => lacks underscore t = true) toks ->
  2 <= List.length toks ->
  resolve true (join underscore toks)
  = Ok (nth (List.length toks - 2) toks EmptyString).
Proof.
  intros Hne Hall Hlen. unfold resolve. cbn [use_iid Z.opp].
  rewrite split_char_join by assumption.
  rewrite (py_getitem_second_last toks EmptyString).
  replace (2 <=? List.length toks) with true
    by (symmetry; apply Nat.leb_le; exact Hlen).
  reflexivity.
Qed.

Lemma mapM_resolve_last (cols : list (list string)) :
  Forall (fun toks => toks <> []
                      /\ Forall (fun t => lacks underscore t = true) toks)
         cols ->
  mapM (resolve false) (map (join underscore) cols)
  = Ok (map (fun toks => last toks EmptyString) cols).
Proof.
  induction 1 as [|toks cols [Hne Hall] _ IH]; [reflexivity|].
  cbn [map mapM]. rewrite resolve_last_token, IH by assumption. reflexivity.
Qed.

Lemma mapM_resolve_second_last (cols : list (list string)) :
  Forall (fun toks => toks <> []
                      /\ Forall (fun t => lacks underscore t = true) toks)
         cols ->
  Forall (fun toks => 2 <= List.length toks) cols ->
  mapM (resolve true) (map (join underscore) cols)
  = Ok (map (fun toks => nth (List.length toks - 2) toks EmptyString) cols).
Proof.
  induction 1 as [|toks cols [Hne Hall] _ IH]; intros Hlen; [reflexivity|].
  inversion Hlen; subst.
  cbn [map mapM]. rewrite resolve_second_last_token, IH by assumption.
  reflexivity.
Qed.

(** The key of a sample column is the key under which the builder looks
    the column up: position [i] is in the set of a label exactly when the
    table has that label for the key selected from column [i]. *)
Lemma selected_key_looked_up {SI : PySet nat} (gi : grouping_table)
    (select : list string -> string) (cols : list (list string))
    (label : string) (i : nat) :
  select [] = EmptyString ->
  (in_group (snd (build_group_sets gi (map select cols))) label i = true
   <-> i < List.length cols
       /\ In label (dict_values (labels_of gi (select (nth i cols []))))).
Proof.
  intros Hd. rewrite build_in_group, assignments_In, length_map.
  rewrite <- Hd at 1. rewrite map_nth. reflexivity.
Qed.

(** C8: for the sample header of the variant file, whose fields from the
    tenth on are the sample-column names, each name made of underscore-free
    tokens joined by underscores (every name is one, see
    [join_split_char]): under the default policy line 169 resolves every
    column to the last token of its name, under the family policy to the
    second-to-last token (when every name has two tokens at least); the
    header is then processed with these keys, and the key of a column is
    the one looked up in the grouping table for that column: position [i]
    is in the set of a label exactly when the table records that label for
    the selected token of column [i]. *)
Theorem resolve_selects_token {SI : PySet nat} (gi : grouping_table)
    (line : string) (o : ofh) (cols : list (list string)) :
  skipn 9 (fields_of line) = map (join underscore) cols ->
  Forall (fun toks => toks <> []
                      /\ Forall (fun t => lacks underscore t = true) toks)
         cols ->
  (read_sample_names false line
   = Ok (map (fun toks => last toks EmptyString) cols)
   /\ header_line false gi line o
      = (Ok (build_group_sets gi
               (map (fun toks => last toks EmptyString) cols)),
         {| done :=
              done o
              ++ [pending o
                  ++ header_row
                       (dict_keys
                          (snd (build_group_sets gi
                                  (map (fun toks => last toks EmptyString)
                                       cols))))];
            pending := [] |})
   /\ forall i label,
       in_group (snd (build_group_sets gi
                        (map (fun toks => last toks EmptyString) cols)))
                label i = true
       <-> i < List.length cols
           /\ In label (dict_values
                          (labels_of gi (last (nth i cols []) EmptyString))))
  /\ (Forall (fun toks => 2 <= List.length toks) cols ->
      read_sample_names true line
      = Ok (map (fun toks => nth (List.length toks - 2) toks EmptyString) cols)
      /\ header_line true gi line o
         = (Ok (build_group_sets gi
                  (map (fun toks => nth (List.length toks - 2) toks EmptyString)
                       cols)),
            {| done :=
                 done o
                 ++ [pending o
                     ++ header_row
                          (dict_keys
                             (snd (build_group_sets gi
                                     (map (fun toks =>
                                             nth (List.length toks - 2) toks
                                                 EmptyString) cols))))];
               pending := [] |})
      /\ forall i label,
          in_group (snd (build_group_sets gi
                           (map (fun toks =>
                                   nth (List.length toks - 2) toks EmptyString)
                                cols)))
                   label i = true
          <-> i < List.length cols
              /\ In label
                    (dict_values
                       (labels_of gi
                          (nth (List.length (nth i cols []) - 2)
                               (nth i cols []) EmptyString)))).
Proof.
  intros Hcols Hall.
  assert (Hind : read_sample_names false line
                 = Ok (map (fun toks => last toks EmptyString) cols)).
  { unfold read_sample_names. fold (fields_of line). rewrite Hcols.
    apply mapM_resolve_last, Hall. }
  split.
  - split; [exact Hind|]. split.
    + rewrite header_line_eq, Hind. reflexivity.
    + intros i label.
      apply (selected_key_looked_up gi (fun toks => last toks EmptyString)).
      reflexivity.
  - intros Hlen.
    assert (Hfam : read_sample_names true line
                   = Ok (map (fun toks =>
                                nth (List.length toks - 2) toks EmptyString)
                             cols)).
    { unfold read_sample_names. fold (fields_of line). rewrite Hcols.
      apply mapM_resolve_second_last; assumption. }
    split; [exact Hfam|]. split.
    + rewrite header_line_eq, Hfam. reflexivity.
    + intros i label.
      apply (selected_key_looked_up gi
               (fun toks => nth (List.length toks - 2) toks EmptyString)).
      reflexivity.
Qed.

Lemma resolve_selects_token_witness :
  (read_sample_names false (vcf_columns ["COHORT1_FAM07_IND03"]%string)
   = Ok ["IND03"%string]
   /\ header_line false
        [("IND03", [("SYS1", "x")]); ("FAM07", [("SYS1", "y")])]%string
        (vcf_columns ["COHORT1_FAM07_IND03"]%string) ofh_open
      = (Ok (build_group_sets
               [("IND03", [("SYS1", "x")]); ("FAM07", [("SYS1", "y")])]%string
               ["IND03"%string]),
         {| done :=
              [header_row
                 (dict_keys
                    (snd (build_group_sets
                            [("IND03", [("SYS1", "x")]);
                             ("FAM07", [("SYS1", "y")])]%string
                            ["IND03"%string])))];
            pending := [] |})
   /\ forall i label,
       in_group (snd (build_group_sets
                        [("IND03", [("SYS1", "x")]);
                         ("FAM07", [("SYS1", "y")])]%string
                        ["IND03"%string]))
                label i = true
       <-> i < 1
           /\ In label
                 (dict_values
                    (labels_of
                       [("IND03", [("SYS1", "x")]);
                        ("FAM07", [("SYS1", "y")])]%string
                       (last (nth i [["COHORT1"; "FAM07"; "IND03"]%string] [])
                             EmptyString))))
  /\ (Forall (fun toks => 2 <= List.length toks)
             [["COHORT1"; "FAM07"; "IND03"]%string] ->
      read_sample_names true (vcf_columns ["COHORT1_FAM07_IND03"]%string)
      = Ok ["FAM07"%string]
      /\ header_line true
           [("IND03", [("SYS1", "x")]); ("FAM07", [("SYS1", "y")])]%string
           (vcf_columns ["COHORT1_FAM07_IND03"]%string) ofh_open
         = (Ok (build_group_sets
                  [("IND03", [("SYS1", "x")]); ("FAM07", [("SYS1", "y")])]%string
                  ["FAM07"%string]),
            {| done :=
                 [header_row
                    (dict_keys
                       (snd (build_group_sets
                               [("IND03", [("SYS1", "x")]);
                                ("FAM07", [("SYS1", "y")])]%string
                               ["FAM07"%string])))];
               pending := [] |})
      /\ forall i label,
          in_group (snd (build_group_sets
                           [("IND03", [("SYS1", "x")]);
                            ("FAM07", [("SYS1", "y")])]%string
                           ["FAM07"%string]))
                   label i = true
          <-> i < 1
              /\ In label
                    (dict_values
                       (labels_of
                          [("IND03", [("SYS1", "x")]);
                           ("FAM07", [("SYS1", "y")])]%string
                          (nth (List.length
                                  (nth i [["COHORT1"; "FAM07"; "IND03"]%string]
                                       []) - 2)
                               (nth i [["COHORT1"; "FAM07"; "IND03"]%string] [])
                               EmptyString)))).
Proof.
  apply (resolve_selects_token (SI := ListSet_nat)
           [("IND03", [("SYS1", "x")]); ("FAM07", [("SYS1", "y")])]%string
           (vcf_columns ["COHORT1_FAM07_IND03"]%string) ofh_open
           [["COHORT1"; "FAM07"; "IND03"]%string]).
  - vm_compute. reflexivity.
  - repeat constructor. discriminate.
Defined.

(** ** C9: determinism *)

(** C9: the result of a run, the written output and the way the run ends, is
    a function of the policy flag and of the two input files alone: it does
    not depend on how the sets of column positions and of labels are
    represented or ordered internally, so two runs on the same inputs
    produce the same output. *)
Theorem main_deterministic (S1 S2 : PySet nat) (T1 T2 : PySet string)
    (use_fid : bool) (grouping_file input_file : list string) :
  @main S1 T1 use_fid grouping_file input_file
  = @main S2 T2 use_fid grouping_file input_file.
Proof.
  unfold main.
  assert (Hg := get_groupings_rel T1 T2 grouping_file).
  destruct (@get_groupings T1 grouping_file) as [[gi1 gh1]|e1],
           (@get_groupings T2 grouping_file) as [[gi2 gh2]|e2];
    cbn [result_rel fst] in Hg; try contradiction; subst.
  - rewrite (process_lines_rel S1 S2 use_fid input_file
               (gi2, None) (gi2, None) ofh_open).
    + reflexivity.
    + split; cbn [fst snd]; [reflexivity | exact I].
  - reflexivity.
Qed.

(** ** C10: the family policy needs an underscore *)

(** C10: under the family policy a sample name without an underscore makes
    the resolver raise [IndexError], and a name with one resolves; under the
    default policy every name resolves.  So the sample header is processed
    under the family policy exactly when every sample name holds an
    underscore, and always under the default policy. *)
Theorem family_needs_underscore {SI : PySet nat} (gi : grouping_table)
    (line : string) (o : ofh) :
  (forall name,
      (exists key, resolve false name = Ok key)
      /\ (lacks underscore name = true -> resolve true name = Err IndexError)
      /\ (lacks underscore name = false ->
          exists key, resolve true name = Ok key))
  /\ (exists r o', header_line false gi line o = (Ok r, o'))
  /\ (existsb (lacks underscore) (skipn 9 (fields_of line)) = true ->
      header_line true gi line o = (Err IndexError, o))
  /\ (existsb (lacks underscore) (skipn 9 (fields_of line)) = false ->
      exists r o', header_line true gi line o = (Ok r, o')).
Proof.
  split.
  - intros name. split; [eexists; apply resolve_individual|].
    rewrite resolve_family. split; intros ->; [reflexivity|].
    eexists. reflexivity.
  - split.
    + rewrite header_line_eq, read_sample_names_individual.
      eexists. eexists. reflexivity.
    + assert (Hm := mapM_resolve_family (skipn 9 (fields_of line))).
      split; intros He; rewrite He in Hm; rewrite header_line_eq;
        unfold read_sample_names; fold (fields_of line).
      * rewrite Hm. reflexivity.
      * destruct Hm as [names ->]. eexists. eexists. reflexivity.
Qed.

(* ================================================================== *)
(** * Further properties of the script *)

(** ** The sample resolver never returns an underscore *)

Lemma py_getitem_In {A} (l : list A) (i : Z) (a : A) :
  py_getitem l i = Ok a -> In a l.
Proof.
  unfold py_getitem.
  destruct ((0 <=? _)%Z && _); [|discriminate].
  destruct (nth_error l _) as [b|] eqn:E; [|discriminate].
  intros [= <-]. exact (nth_error_In l _ E).
Qed.

Lemma mapM_Forall {A B} (f : A -> result B) (P : B -> Prop) (l : list A)
    (bs : list B) :
  (forall a b, f a = Ok b -> P b) -> mapM f l = Ok bs -> Forall P bs.
Proof.
  intros Hf. revert bs. induction l as [|a l IH]; intros bs; cbn [mapM].
  - intros [= <-]. constructor.
  - destruct (f a) as [b|] eqn:E; cbn [bind]; [|discriminate].
    destruct (mapM f l) as [bs'|]; cbn [bind]; [|discriminate].
    intros [= <-]. constructor; [exact (Hf a b E) | apply IH; reflexivity].
Qed.

Lemma mapM_length {A B} (f : A -> result B) (l : list A) (bs : list B) :
  mapM f l = Ok bs -> List.length bs = List.length l.
Proof.
  revert bs. induction l as [|a l IH]; intros bs; cbn [mapM].
  - intros [= <-]. reflexivity.
  - destruct (f a) as [b|]; cbn [bind]; [|discriminate].
    destruct (mapM f l) as [bs'|]; cbn [bind]; [|discriminate].
    intros [= <-]. cbn [List.length]. rewrite (IH bs' eq_refl). reflexivity.
Qed.

(** X1: whichever policy is chosen, the keys that line 169 resolves from the
    sample header hold no underscore, and there is one key per sample
    column.  An individual whose identifier in the grouping file contains an
    underscore is therefore never looked up. *)
Theorem resolved_keys_lack_underscore (use_fid : bool) (line : string)
    (names : list string) :
  read_sample_names use_fid line = Ok names ->
  Forall (fun key => lacks underscore key = true) names
  /\ List.length names = List.length (skipn 9 (fields_of line)).
Proof.
  intros Hn. unfold read_sample_names in Hn. split.
  - refine (mapM_Forall (resolve use_fid) _ _ names _ Hn).
    intros name key Hr. unfold resolve in Hr. apply py_getitem_In in Hr.
    destruct (join_split_char underscore name) as [_ Hall].
    rewrite Forall_forall in Hall. exact (Hall key Hr).
  - exact (mapM_length _ _ _ Hn).
Qed.

Lemma resolved_keys_lack_underscore_witness :
  Forall (fun key => lacks underscore key = true) ["FAM07"; "FAM08"]%string
  /\ List.length ["FAM07"; "FAM08"]%string
     = List.length (skipn 9 (fields_of (vcf_columns
                       ["C1_FAM07_IND03"; "C1_FAM08_IND01"]%string))).
Proof.
  apply (resolved_keys_lack_underscore true
           (vcf_columns ["C1_FAM07_IND03"; "C1_FAM08_IND01"]%string)).
  vm_compute. reflexivity.
Defined.

(** ** Every group of the index has a member *)

(** X2: the labels of the index built from a sample header (lines 172-176)
    are exactly the labels that the grouping table records for at least one
    sample of the header, and exactly the labels whose set has a member: a
    label of the table none of whose individuals is a sample of the header
    gets no entry, hence no output column, and no set of the index is
    empty. *)
Theorem index_labels_inhabited {SI : PySet nat} (gi : grouping_table)
    (names : list string) (label : string) :
  (In label (dict_keys (snd (build_group_sets gi names)))
   <-> exists i individual labels,
       nth_error names i = Some individual
       /\ dict_get gi individual = Some labels
       /\ In label (dict_values labels))
  /\ (In label (dict_keys (snd (build_group_sets gi names)))
      <-> exists i,
          i < List.length names
          /\ in_group (snd (build_group_sets gi names)) label i = true).
Proof.
  assert (Hkeys : In label (dict_keys (snd (build_group_sets gi names)))
                  <-> exists i, In (i, label) (assignments gi names)).
  { rewrite build_keys, first_seen_In, in_map_iff. split.
    - intros [[i l] [Hl Hin]]. cbn [snd] in Hl. subst l. exists i. exact Hin.
    - intros [i Hin]. exists (i, label). split; [reflexivity | exact Hin]. }
  split; rewrite Hkeys; split.
  - intros [i Hin]. apply assignments_In in Hin. destruct Hin as [Hi Hin].
    unfold labels_of in Hin.
    destruct (dict_get gi (nth i names EmptyString)) as [labels|] eqn:Hg;
      [|contradiction].
    exists i, (nth i names EmptyString), labels.
    split; [apply nth_error_nth', Hi|]. split; [exact Hg | exact Hin].
  - intros [i [individual [labels [Hi [Hg Hin]]]]]. exists i.
    apply assignments_In. split; [apply nth_error_Some; congruence|].
    rewrite (nth_error_nth names i EmptyString Hi).
    unfold labels_of. rewrite Hg. exact Hin.
  - intros [i Hin]. exists i. split.
    + apply assignments_In in Hin. tauto.
    + apply build_in_group, Hin.
  - intros [i [_ Hin]]. exists i. apply build_in_group, Hin.
Qed.

(** ** A data row before the sample header *)

(** X3: when the first line of the variant file that is not a comment is a
    data row, [group_sets] is still unbound at line 162: the run ends with
    [UnboundLocalError], the output holding only the leading fields of that
    row. *)
Theorem data_row_before_header {SI : PySet nat} {SS : PySet string}
    (use_fid : bool) (gfile : list string) (gi : grouping_table)
    (ghs : grouping_systems) (meta : list string) (row : string)
    (rest : list string) :
  get_groupings gfile = Ok (gi, ghs) ->
  forallb (fun l => startswith l hash_mark && negb (startswith l chrom_mark))
          meta = true ->
  startswith row hash_mark = false ->
  main use_fid gfile (meta ++ row :: rest)
  = (Some {| done := []; pending := map Str (firstn 5 (fields_of row)) |},
     Err UnboundLocalError).
Proof.
  intros Hg Hmeta Hrow. unfold main. rewrite Hg.
  rewrite process_lines_comments by exact Hmeta.
  cbn [process_lines]. unfold bindW at 1. unfold process_line.
  rewrite Hrow. cbn [negb]. unfold bindW at 1.
  rewrite data_line_unbound. reflexivity.
Qed.

Lemma data_row_before_header_witness :
  main false ex_groups (ex_meta ++ ex_row :: [ex_header; ex_row])
  = (Some {| done := []; pending := map Str (firstn 5 (fields_of ex_row)) |},
     Err UnboundLocalError).
Proof.
  apply (data_row_before_header (SI := ListSet_nat) (SS := ListSet_string)
           false ex_groups ex_table ex_systems ex_meta ex_row
           [ex_header; ex_row]);
    vm_compute; reflexivity.
Defined.

(** ** A second sample header *)

Lemma build_fst_labels {SI : PySet nat} (names : list string) (l : list nat)
    (gi : grouping_table) (gs : group_index) (key : string) :
  labels_of (fst (fold_left (add_individual names) l (gi, gs))) key
  = labels_of gi key.
Proof.
  revert gi gs. induction l as [|i l IH]; intros gi gs; [reflexivity|].
  cbn [fold_left]. unfold add_individual at 2.
  destruct (dd_getitem [] gi (nth i names EmptyString)) as [labels gi'] eqn:E.
  rewrite IH.
  replace gi' with (snd (dd_getitem [] gi (nth i names EmptyString)))
    by (rewrite E; reflexivity).
  apply labels_of_after.
Qed.

(** The empty entries that looking up absent samples leaves in
    [grouping_info] change no index built afterwards. *)
Lemma build_after_build {SI : PySet nat} (gi : grouping_table)
    (names1 names2 : list string) :
  snd (build_group_sets (fst (build_group_sets gi names1)) names2)
  = snd (build_group_sets gi names2).
Proof.
  rewrite (build_group_sets_eq gi names2).
  unfold build_group_sets at 1, assignments. apply build_from.
  intros key. unfold build_group_sets. apply build_fst_labels.
Qed.

(** X4: a second sample header (lines 167-182) starts over: it writes a
    second header line and replaces the index by one built from the new
    header and the grouping table as it was loaded; the entries that lookups
    of absent samples inserted into the table meanwhile have no effect.  The
    rows after it are computed with the new index. *)
Theorem second_header_rebuilds_index {SI : PySet nat} {SS : PySet string}
    (use_fid : bool) (gfile : list string) (gi : grouping_table)
    (ghs : grouping_systems) (meta : list string) (hdr1 : string)
    (body1 : list string) (hdr2 : string) (body2 : list string)
    (names1 names2 : list string) :
  get_groupings gfile = Ok (gi, ghs) ->
  forallb (fun l => startswith l hash_mark && negb (startswith l chrom_mark))
          meta = true ->
  startswith hdr1 chrom_mark = true ->
  read_sample_names use_fid hdr1 = Ok names1 ->
  forallb (fun l => negb (startswith l chrom_mark)) body1 = true ->
  forallb (fun l => startswith l hash_mark
                    || all_called (genotypes l) (snd (build_group_sets gi names1)))
          body1 = true ->
  startswith hdr2 chrom_mark = true ->
  read_sample_names use_fid hdr2 = Ok names2 ->
  forallb (fun l => negb (startswith l chrom_mark)) body2 = true ->
  forallb (fun l => startswith l hash_mark
                    || all_called (genotypes l) (snd (build_group_sets gi names2)))
          body2 = true ->
  main use_fid gfile (meta ++ hdr1 :: body1 ++ hdr2 :: body2)
  = (Some {| done :=
               (header_row (dict_keys (snd (build_group_sets gi names1)))
                :: map (data_row (snd (build_group_sets gi names1)))
                       (filter is_data body1))
               ++ header_row (dict_keys (snd (build_group_sets gi names2)))
                  :: map (data_row (snd (build_group_sets gi names2)))
                         (filter is_data body2);
             pending := [] |},
     Ok tt).
Proof.
  intros Hg Hmeta Hh1 Hn1 Hb1 Hok1 Hh2 Hn2 Hb2 Hok2.
  rewrite (main_run use_fid gfile gi ghs meta hdr1 body1 (hdr2 :: body2) names1)
    by assumption.
  cbn [process_lines]. unfold bindW at 1.
  rewrite process_line_header by exact Hh2. rewrite Hn2.
  rewrite build_after_build. cbn [done pending app].
  assert (Hrows := process_lines_rows use_fid
                     (fst (build_group_sets (fst (build_group_sets gi names1))
                                            names2))
                     (snd (build_group_sets gi names2)) body2 []).
  rewrite app_nil_r in Hrows. rewrite Hrows by (try apply build_wf; assumption).
  cbn [process_lines]. unfold retW. cbn [app].
  rewrite <- app_assoc. reflexivity.
Qed.

Lemma second_header_rebuilds_index_witness :
  main false ex_groups
       (ex_meta ++ vcf_columns ["S_A"; "S_Q"]%string
                :: [vcf_row "100" "rs1" ["0/1"; "1/1"]%string]
                ++ ex_header :: [ex_row])
  = (Some {| done :=
               (header_row (dict_keys (snd (build_group_sets ex_table
                                              ["A"; "Q"]%string)))
                :: map (data_row (snd (build_group_sets ex_table
                                         ["A"; "Q"]%string)))
                       (filter is_data
                               [vcf_row "100" "rs1" ["0/1"; "1/1"]%string]))
               ++ header_row (dict_keys (snd (build_group_sets ex_table ex_names)))
                  :: map (data_row (snd (build_group_sets ex_table ex_names)))
                         (filter is_data [ex_row]);
             pending := [] |},
     Ok tt).
Proof.
  apply (second_header_rebuilds_index (SI := ListSet_nat) (SS := ListSet_string)
           false ex_groups ex_table ex_systems ex_meta
           (vcf_columns ["S_A"; "S_Q"]%string)
           [vcf_row "100" "rs1" ["0/1"; "1/1"]%string]
           ex_header [ex_row] ["A"; "Q"]%string ex_names);
    vm_compute; reflexivity.
Defined.

(** ** One output line per header or data line *)

Section StreamFacts.
Context {SI : PySet nat}.

Lemma process_line_count (use_fid : bool) (st : locals) (line : string)
    (o : ofh) :
  st_ok st -> pending o = [] ->
  match process_line use_fid st line o with
  | (Ok st', o') =>
      st_ok st' /\ pending o' = []
      /\ List.length (done o')
         = List.length (done o) + (if emits line then 1 else 0)
  | (Err _, o') => emits line = true /\ done o' = done o
  end.
Proof.
  destruct st as [gi gs]. unfold st_ok, emits, is_data. cbn [snd].
  intros Hst Hp.
  destruct (startswith line hash_mark) eqn:Hh; cbn [negb orb].
  - destruct (startswith line chrom_mark) eqn:Hc.
    + rewrite process_line_header by exact Hc.
      destruct (read_sample_names use_fid line) as [names|e].
      * cbn [snd done pending]. split; [apply build_wf|].
        split; [reflexivity|]. rewrite length_app. reflexivity.
      * split; reflexivity.
    + rewrite process_line_comment by assumption. cbn [snd].
      split; [exact Hst|]. split; [exact Hp | lia].
  - destruct gs as [gs|].
    + rewrite process_line_data by assumption.
      destruct (all_called (genotypes line) gs); cbn [snd done pending].
      * split; [exact Hst|]. split; [reflexivity|].
        rewrite length_app. reflexivity.
      * split; reflexivity.
    + unfold process_line. rewrite Hh. cbn [negb]. unfold bindW.
      rewrite data_line_unbound. split; reflexivity.
Qed.

Lemma process_lines_count (use_fid : bool) (lines : list string) (st : locals)
    (o : ofh) :
  st_ok st -> pending o = [] ->
  match process_lines use_fid lines st o with
  | (Ok _, o') =>
      pending o' = []
      /\ List.length (done o')
         = List.length (done o) + List.length (filter emits lines)
  | (Err _, o') =>
      exists pre bad rest,
        lines = pre ++ bad :: rest /\ emits bad = true
        /\ List.length (done o')
           = List.length (done o) + List.length (filter emits pre)
  end.
Proof.
  revert st o. induction lines as [|line lines IH]; intros st o Hst Hp.
  - cbn [process_lines filter List.length]. unfold retW.
    split; [exact Hp | lia].
  - cbn [process_lines]. unfold bindW at 1.
    assert (Hstep := process_line_count use_fid st line o Hst Hp).
    destruct (process_line use_fid st line o) as [[st'|e] o1].
    + destruct Hstep as [Hst' [Hp' Hlen]].
      specialize (IH st' o1 Hst' Hp').
      destruct (process_lines use_fid lines st' o1) as [[u|e] o2].
      * destruct IH as [Hp2 Hlen2]. split; [exact Hp2|].
        cbn [filter]. destruct (emits line); cbn [List.length]; lia.
      * destruct IH as [pre [bad [rest [Hl [Hb Hlen2]]]]].
        exists (line :: pre), bad, rest. split; [rewrite Hl; reflexivity|].
        split; [exact Hb|].
        cbn [filter]. destruct (emits line); cbn [List.length]; lia.
    + destruct Hstep as [Hem Hd]. exists [], line, lines.
      split; [reflexivity|]. split; [exact Hem|].
      rewrite Hd. cbn. lia.
Qed.

End StreamFacts.

(** X5: the loop of [main] (lines 156-182) is a streaming transform.  In a
    run that finishes, the output has exactly one finished line per sample
    header or data row of the input and nothing pending.  In a run that
    raises after the output was opened, the failing line is a sample header
    or a data row, and the finished output lines are as many as the sample
    headers and data rows before it. *)
Theorem one_line_out_per_line_in {SI : PySet nat} {SS : PySet string}
    (use_fid : bool) (gfile input : list string) (o : ofh) (r : result unit) :
  main use_fid gfile input = (Some o, r) ->
  match r with
  | Ok _ =>
      pending o = []
      /\ List.length (done o) = List.length (filter emits input)
  | Err _ =>
      exists pre bad rest,
        input = pre ++ bad :: rest /\ emits bad = true
        /\ List.length (done o) = List.length (filter emits pre)
  end.
Proof.
  unfold main. destruct (get_groupings gfile) as [[gi ghs]|e]; [|discriminate].
  assert (H := process_lines_count use_fid input (gi, None) ofh_open I eq_refl).
  destruct (process_lines use_fid input (gi, None) ofh_open) as [r' o'].
  intros [= <- <-]. exact H.
Qed.

Lemma one_line_out_per_line_in_witness :
  exists pre bad rest,
    ex_meta ++ [ex_header; ex_row; ex_missing_row; ex_row]
    = pre ++ bad :: rest
    /\ emits bad = true
    /\ List.length
         [ [Str "Chr"; Str "Position"; Str "rsID"; Str "Ref"; Str "Alt";
            Str "x_freq"; Str "x_count"; Str "y_freq"; Str "y_count"];
           [Str "1"; Str "100"; Str "rs1"; Str "A"; Str "G";
            Float (1 # 4); Int 4; Float 1; Int 2] ]
       = List.length (filter emits pre).
Proof.
  apply (one_line_out_per_line_in (SI := ListSet_nat) (SS := ListSet_string)
           false ex_groups
           (ex_meta ++ [ex_header; ex_row; ex_missing_row; ex_row])
           {| done := [ [Str "Chr"; Str "Position"; Str "rsID"; Str "Ref";
                         Str "Alt"; Str "x_freq"; Str "x_count";
                         Str "y_freq"; Str "y_count"];
                        [Str "1"; Str "100"; Str "rs1"; Str "A"; Str "G";
                         Float (1 # 4); Int 4; Float 1; Int 2] ];
              pending := [Str "1"; Str "200"; Str "rs2"; Str "A"; Str "G"] |}
           (Err ZeroDivisionError)).
  vm_compute. reflexivity.
Defined.

(** ** Rows of the grouping file *)

Section RowFacts.
Context {SS : PySet string}.

(** Lines 71-72 for a label column of the row: both dictionaries are
    updated when the header names the column, and a [KeyError] is raised
    otherwise. *)
Lemma add_label_eq (header line : string) (gd : grouping_table)
    (gh : grouping_systems) (k : nat) :
  k < n_labels line ->
  add_label (read_header_names header) (split_ws (rstrip line)) (gd, gh) k
  = if k <? n_systems header
    then Ok (set_label gd (row_id line) (system_name header k) (row_label line k),
             note_label gh (system_name header k) (row_label line k))
    else Err (KeyError_int k).
Proof.
  unfold n_labels. rewrite length_skipn. intros Hk.
  unfold add_label, set_label, note_label, row_id, row_label, system_name.
  change 0%Z with (Z.of_nat 0).
  rewrite (py_getitem_nat _ 0 EmptyString) by lia. cbn [bind].
  destruct (dd_getitem [] gd (nth 0 (split_ws (rstrip line)) EmptyString))
    as [labels gd1].
  unfold dict_getitem. rewrite read_header_names_get.
  destruct (k <? n_systems header); cbn [bind]; [|reflexivity].
  rewrite (py_getitem_nat _ (k + 1) EmptyString) by lia. cbn [bind fst snd].
  destruct (dd_getitem set_empty gh _) as [seen gh1]. reflexivity.
Qed.

Lemma add_label_columns_eq (header line : string) (n a : nat) (gd gd' : grouping_table)
    (gh gh' : grouping_systems) :
  a + n <= n_labels line ->
  foldM (add_label (read_header_names header) (split_ws (rstrip line)))
        (seq a n) (gd, gh) = Ok (gd', gh') ->
  gd' = fold_left (fun g k => set_label g (row_id line) (system_name header k)
                                        (row_label line k))
                  (seq a n) gd
  /\ gh' = fold_left (fun g k => note_label g (system_name header k)
                                            (row_label line k))
                     (seq a n) gh.
Proof.
  revert a gd gh. induction n as [|n IH]; intros a gd gh Hlen; cbn [seq foldM].
  - intros [= <- <-]. split; reflexivity.
  - rewrite add_label_eq by lia.
    destruct (a <? n_systems header); cbn [bind]; [|discriminate].
    intros Hrest. cbn [fold_left]. apply IH; [lia | exact Hrest].
Qed.

Lemma add_row_eq (header line : string) (gd gd' : grouping_table)
    (gh gh' : grouping_systems) :
  add_row (read_header_names header) (gd, gh) line = Ok (gd', gh') ->
  gd' = fold_left (fun g k => set_label g (row_id line) (system_name header k)
                                        (row_label line k))
                  (seq 0 (n_labels line)) gd
  /\ gh' = fold_left (fun g k => note_label g (system_name header k)
                                            (row_label line k))
                     (seq 0 (n_labels line)) gh.
Proof.
  unfold add_row. cbv zeta. fold (n_labels line).
  apply add_label_columns_eq. cbn [Nat.add]. lia.
Qed.

Lemma add_row_unlabelled (header line : string)
    (acc : grouping_table * grouping_systems) :
  n_labels line = 0 -> add_row (read_header_names header) acc line = Ok acc.
Proof.
  intros Hn. unfold add_row. cbv zeta. fold (n_labels line). rewrite Hn.
  reflexivity.
Qed.

End RowFacts.

(** X6: a data row of the grouping file without label fields (a blank line,
    or an identifier alone) is skipped by the loader (lines 68-72): the
    result is that of the file without such rows, so an individual listed
    only by identifier is not in the table. *)
Theorem get_groupings_skips_unlabelled {SS : PySet string} (header : string)
    (body : list string) :
  get_groupings (header :: body)
  = get_groupings (header :: filter (fun l => negb (n_labels l =? 0)) body).
Proof.
  unfold get_groupings. cbv zeta. cbn [skipn].
  generalize (@nil (string * list (string * string)),
              @nil (string * @pyset string SS)).
  induction body as [|l body IH]; intros acc; [reflexivity|].
  cbn [filter foldM]. destruct (n_labels l =? 0) eqn:E; cbn [negb].
  - apply Nat.eqb_eq in E. rewrite add_row_unlabelled by exact E.
    cbn [bind]. apply IH.
  - cbn [foldM]. destruct (add_row (read_header_names header) acc l);
      cbn [bind]; [apply IH | reflexivity].
Qed.

(** ** What a row does to the table *)

Lemma set_label_other (gd : grouping_table) (id system label other : string) :
  other <> id ->
  dict_get (set_label gd id system label) other = dict_get gd other.
Proof.
  intros Hne. unfold set_label, dd_getitem.
  assert (Hk : keqb id other = false) by (apply keqb_neq; congruence).
  destruct (dict_get gd id); cbn [fst snd]; rewrite dict_get_set, Hk.
  - reflexivity.
  - rewrite dict_get_app. cbn [dict_get]. rewrite Hk.
    destruct (dict_get gd other); reflexivity.
Qed.

Lemma set_label_same (gd : grouping_table) (id system label : string) :
  dict_get (set_label gd id system label) id
  = Some (dict_set (labels_of gd id) system label).
Proof.
  unfold set_label, dd_getitem, labels_of.
  destruct (dict_get gd id); cbn [fst snd]; rewrite dict_get_set, keqb_refl;
    reflexivity.
Qed.

Lemma set_labels_other (id other : string) (nm vl : nat -> string)
    (ks : list nat) (gd : grouping_table) :
  other <> id ->
  dict_get (fold_left (fun g k => set_label g id (nm k) (vl k)) ks gd) other
  = dict_get gd other.
Proof.
  intros Hne. revert gd. induction ks as [|k ks IH]; intros gd; [reflexivity|].
  cbn [fold_left]. rewrite IH. apply set_label_other, Hne.
Qed.

Lemma set_labels_same (id : string) (nm vl : nat -> string) (ks : list nat)
    (gd : grouping_table) :
  labels_of (fold_left (fun g k => set_label g id (nm k) (vl k)) ks gd) id
  = fold_left (fun L k => dict_set L (nm k) (vl k)) ks (labels_of gd id).
Proof.
  revert gd. induction ks as [|k ks IH]; intros gd; [reflexivity|].
  cbn [fold_left]. rewrite IH. f_equal.
  unfold labels_of at 1. rewrite set_label_same. reflexivity.
Qed.

Lemma set_labels_present (id : string) (nm vl : nat -> string) (ks : list nat)
    (gd : grouping_table) :
  ks <> [] ->
  dict_get (fold_left (fun g k => set_label g id (nm k) (vl k)) ks gd) id
  <> None.
Proof.
  assert (Hkeep : forall ks gd,
             dict_get gd id <> None ->
             dict_get (fold_left (fun g k => set_label g id (nm k) (vl k)) ks gd)
                      id <> None).
  { clear. induction ks as [|k ks IH]; intros gd Hgd; [exact Hgd|].
    cbn [fold_left]. apply IH. rewrite set_label_same. discriminate. }
  destruct ks as [|k ks]; [congruence|]. intros _. cbn [fold_left].
  apply Hkeep. rewrite set_label_same. discriminate.
Qed.

Lemma find_app_last {A} (p : A -> bool) (l : list A) (a : A) :
  find p (l ++ [a])
  = match find p l with
    | Some x => Some x
    | None => if p a then Some a else None
    end.
Proof.
  induction l as [|b l IH]; cbn [app find]; [reflexivity|].
  destruct (p b); [reflexivity | exact IH].
Qed.

(** Assigning labels in column order: the last column of a system wins, and
    a system without a column keeps what it had. *)
Lemma dict_sets_get (nm vl : nat -> string) (ks : list nat)
    (L : list (string * string)) (system : string) :
  dict_get (fold_left (fun L k => dict_set L (nm k) (vl k)) ks L) system
  = match find (fun k => String.eqb (nm k) system) (rev ks) with
    | Some k => Some (vl k)
    | None => dict_get L system
    end.
Proof.
  revert L. induction ks as [|k ks IH]; intros L; [reflexivity|].
  cbn [fold_left rev]. rewrite IH, find_app_last, dict_get_set.
  destruct (find (fun k0 => String.eqb (nm k0) system) (rev ks));
    [reflexivity|].
  change (keqb (nm k) system) with (String.eqb (nm k) system).
  destruct (String.eqb (nm k) system); reflexivity.
Qed.

(** X7: a data row of the grouping file that loads (lines 69-72) changes
    only the entry of its own individual.  There, every grouping system
    named by one of the row's label columns gets the row's label (that of
    the last such column when the header repeats a name), and every other
    system keeps the label earlier rows gave it: rows with a repeated
    identifier are merged system by system, the earlier row is not
    replaced as a whole.  A row with at least one label leaves its
    individual in the table. *)
Theorem add_row_merges {SS : PySet string} (header line : string)
    (gd gd' : grouping_table) (gh gh' : grouping_systems) :
  add_row (read_header_names header) (gd, gh) line = Ok (gd', gh') ->
  (forall other, other <> row_id line -> dict_get gd' other = dict_get gd other)
  /\ (forall system,
         dict_get (labels_of gd' (row_id line)) system
         = match find (fun k => String.eqb (system_name header k) system)
                      (rev (seq 0 (n_labels line))) with
           | Some k => Some (row_label line k)
           | None => dict_get (labels_of gd (row_id line)) system
           end)
  /\ (0 < n_labels line -> dict_get gd' (row_id line) <> None).
Proof.
  intros Hrow. apply add_row_eq in Hrow. destruct Hrow as [-> _].
  split; [|split].
  - intros other Hne. apply set_labels_other, Hne.
  - intros system. rewrite set_labels_same. apply dict_sets_get.
  - intros Hn. apply set_labels_present.
    destruct (n_labels line); [lia | discriminate].
Qed.

Lemma add_row_merges_witness :
  (forall other,
      other <> row_id (text_line "A y") ->
      dict_get [("A", [("SYS1", "y"); ("SYS2", "m")])]%string other
      = dict_get [("A", [("SYS1", "x"); ("SYS2", "m")])]%string other)
  /\ (forall system,
         dict_get (labels_of [("A", [("SYS1", "y"); ("SYS2", "m")])]%string
                             (row_id (text_line "A y"))) system
         = match find (fun k => String.eqb
                                  (system_name (text_line "ID SYS1 SYS2") k)
                                  system)
                      (rev (seq 0 (n_labels (text_line "A y")))) with
           | Some k => Some (row_label (text_line "A y") k)
           | None => dict_get (labels_of
                                 [("A", [("SYS1", "x"); ("SYS2", "m")])]%string
                                 (row_id (text_line "A y"))) system
           end)
  /\ (0 < n_labels (text_line "A y") ->
      dict_get [("A", [("SYS1", "y"); ("SYS2", "m")])]%string
               (row_id (text_line "A y")) <> None).
Proof.
  apply (add_row_merges (SS := ListSet_string) (text_line "ID SYS1 SYS2")
           (text_line "A y")
           [("A", [("SYS1", "x"); ("SYS2", "m")])]%string
           [("A", [("SYS1", "y"); ("SYS2", "m")])]%string
           [] [("SYS1"%string, ["y"%string])]).
  vm_compute. reflexivity.
Defined.

(** ** The labels recorded for each grouping system *)

Section SystemFacts.
Context {SS : PySet string}.

Lemma note_label_has (gh : grouping_systems) (system label s l : string) :
  has_label (note_label gh system label) s l = true
  <-> has_label gh s l = true \/ (system = s /\ l = label).
Proof.
  unfold has_label, note_label, dd_getitem.
  destruct (dict_get gh system) as [seen|] eqn:E; cbn [fst snd];
    rewrite dict_get_set; destruct (keqb system s) eqn:Es.
  - apply keqb_eq in Es. subst s. rewrite E, set_mem_add. tauto.
  - apply keqb_neq in Es. tauto.
  - apply keqb_eq in Es. subst s. rewrite E, set_mem_add, set_mem_empty.
    intuition discriminate.
  - rewrite dict_get_app. cbn [dict_get]. rewrite Es. apply keqb_neq in Es.
    destruct (dict_get gh s); tauto.
Qed.

Lemma note_labels_has (nm vl : nat -> string) (ks : list nat)
    (gh : grouping_systems) (s l : string) :
  has_label (fold_left (fun g k => note_label g (nm k) (vl k)) ks gh) s l = true
  <-> has_label gh s l = true \/ exists k, In k ks /\ nm k = s /\ vl k = l.
Proof.
  revert gh. induction ks as [|k ks IH]; intros gh; cbn [fold_left In].
  - split; [auto | intros [H | [k [[] _]]]; exact H].
  - rewrite IH, note_label_has. split.
    + intros [[H | [Hs Hl]] | [k' [Hin Hk]]]; auto.
      * right. exists k. auto.
      * right. exists k'. auto.
    + intros [H | [k' [[-> | Hin] [Hs Hl]]]]; auto.
      right. exists k'. auto.
Qed.

Lemma add_rows_has (header : string) (body : list string)
    (gd gd' : grouping_table) (gh gh' : grouping_systems) (s l : string) :
  foldM (add_row (read_header_names header)) body (gd, gh) = Ok (gd', gh') ->
  (has_label gh' s l = true
   <-> has_label gh s l = true
       \/ exists line k,
           In line body /\ k < n_labels line
           /\ system_name header k = s /\ row_label line k = l).
Proof.
  revert gd gh. induction body as [|line body IH]; intros gd gh; cbn [foldM In].
  - intros [= <- <-]. split; [auto | intros [H | [? [? [[] _]]]]; exact H].
  - destruct (add_row (read_header_names header) (gd, gh) line)
      as [[gd1 gh1]|e] eqn:Hrow; cbn [bind]; [|discriminate].
    intros Hrest. rewrite (IH gd1 gh1 Hrest).
    apply add_row_eq in Hrow. destruct Hrow as [_ ->].
    rewrite note_labels_has. split.
    + intros [[H | [k [Hin [Hs Hl]]]] | [line' [k [Hin Hk]]]]; auto.
      * right. exists line, k. apply in_seq in Hin.
        split; [auto|]. split; [lia | auto].
      * right. exists line', k. tauto.
    + intros [H | [line' [k [[<- | Hin] [Hk [Hs Hl]]]]]]; auto.
      * left. right. exists k. split; [apply in_seq; lia | auto].
      * right. exists line', k. auto.
Qed.

End SystemFacts.

(** X8: the second result of [get_groupings] (lines 56 and 72) maps each
    grouping system to the set of labels seen under it: a label is in the
    set of a system exactly when some data row has it in a label column that
    the header names after that system. *)
Theorem grouping_headers_observed {SS : PySet string} (fh : list string)
    (gd : grouping_table) (gh : grouping_systems) (system label : string) :
  get_groupings fh = Ok (gd, gh) ->
  (has_label gh system label = true
   <-> exists line k,
       In line (skipn 1 fh) /\ k < n_labels line
       /\ system_name (hd EmptyString fh) k = system
       /\ row_label line k = label).
Proof.
  unfold get_groupings. cbv zeta.
  change (match fh with [] => EmptyString | l :: _ => l end)
    with (hd EmptyString fh).
  intros Hload.
  rewrite (add_rows_has _ _ _ _ _ _ system label Hload).
  unfold has_label. cbn [dict_get]. intuition discriminate.
Qed.

Lemma grouping_headers_observed_witness :
  has_label ex_systems "SYS1" "y" = true
  <-> exists line k,
      In line (skipn 1 ex_groups) /\ k < n_labels line
      /\ system_name (hd EmptyString ex_groups) k = "SYS1"%string
      /\ row_label line k = "y"%string.
Proof.
  apply (grouping_headers_observed (SS := ListSet_string) ex_groups ex_table
           ex_systems "SYS1" "y").
  vm_compute. reflexivity.
Defined.

(** ** Invariants of the loaded table *)

Lemma split_on_tokens (p : ascii -> bool) (s : string) :
  Forall (fun t => string_all (fun a => negb (p a)) t = true) (split_on p s).
Proof.
  induction s as [|a s IH]; cbn [split_on].
  - repeat constructor.
  - destruct (p a) eqn:E.
    + constructor; [reflexivity | exact IH].
    + destruct (split_on p s) as [|t ts].
      * constructor; [|constructor]. cbn [string_all]. rewrite E. reflexivity.
      * inversion IH; subst. constructor; [|assumption].
        cbn [string_all]. rewrite E. cbn [negb andb]. assumption.
Qed.

Lemma split_ws_tokens (s : string) :
  Forall (fun t => is_token t = true) (split_ws s).
Proof.
  unfold split_ws. apply Forall_forall. intros t Hin.
  apply filter_In in Hin. destruct Hin as [Hin Hne].
  assert (Hall := split_on_tokens isspace s).
  rewrite Forall_forall in Hall. unfold is_token.
  rewrite Hne, (Hall t Hin). reflexivity.
Qed.

Lemma nth_In_fields (l : list string) (k : nat) :
  k < List.length l -> In (nth k l EmptyString) l.
Proof. intros Hk. apply nth_In, Hk. Qed.

Lemma system_name_In (header : string) (k : nat) :
  k < n_systems header ->
  In (system_name header k) (skipn 1 (split_ws (rstrip header))).
Proof.
  unfold n_systems, system_name.
  destruct (split_ws (rstrip header)) as [|f fs]; cbn [skipn List.length];
    [lia|].
  intros Hk. rewrite Nat.add_1_r. cbn [nth]. apply nth_In, Hk.
Qed.

Lemma set_label_cases (gd : grouping_table) (id system label : string) :
  set_label gd id system label
  = match dict_get gd id with
    | Some labels => dict_set gd id (dict_set labels system label)
    | None => gd ++ [(id, [(system, label)])]
    end.
Proof.
  unfold set_label, dd_getitem.
  destruct (dict_get gd id) eqn:E; cbn [fst snd dict_set]; [reflexivity|].
  apply dict_get_none in E.
  apply (dict_set_mid gd [] id [] [(system, label)] E).
Qed.

Lemma Forall_dict_set {V} (P : string * V -> Prop) (d : list (string * V))
    (k : string) (v : V) :
  Forall P d -> P (k, v) -> Forall P (dict_set d k v).
Proof.
  intros Hd Hv. induction d as [|[k1 v1] d IH]; cbn [dict_set].
  - constructor; [exact Hv | constructor].
  - inversion Hd; subst. destruct (keqb k1 k) eqn:E.
    + apply keqb_eq in E. subst k1. constructor; assumption.
    + constructor; [assumption | apply IH; assumption].
Qed.

Lemma set_label_ok (header : string) (gd : grouping_table)
    (id system label : string) :
  table_ok header gd -> is_token id = true ->
  In system (skipn 1 (split_ws (rstrip header))) -> is_token label = true ->
  table_ok header (set_label gd id system label).
Proof.
  intros [Hwf Hall] Hid Hsys Hlab. rewrite set_label_cases.
  destruct (dict_get gd id) as [labels|] eqn:E.
  - split; [apply dict_wf_set, Hwf|].
    apply Forall_dict_set; [exact Hall|].
    assert (Hentry : entry_ok header (id, labels)).
    { rewrite Forall_forall in Hall. apply Hall. apply dict_get_In, E. }
    destruct Hentry as [_ [_ [Hlwf Hl]]]. cbn [fst snd] in Hlwf, Hl.
    unfold entry_ok. cbn [fst snd]. split; [exact Hid|].
    split; [destruct labels as [|[k1 v1] labels]; cbn [dict_set];
            [|destruct (keqb k1 system)]; discriminate|].
    split; [apply dict_wf_set, Hlwf|].
    apply Forall_dict_set; [exact Hl|]. cbn [fst snd]. auto.
  - apply dict_get_none in E. split.
    + unfold dict_wf, dict_keys. rewrite map_app. cbn [map fst].
      apply keys_distinct_snoc; assumption.
    + apply Forall_app. split; [exact Hall|]. constructor; [|constructor].
      unfold entry_ok. cbn [fst snd]. split; [exact Hid|].
      split; [discriminate|]. split; [reflexivity|].
      constructor; [cbn [fst snd]; auto | constructor].
Qed.

Lemma set_labels_ok (header line : string) (ks : list nat)
    (gd : grouping_table) :
  table_ok header gd ->
  (forall k, In k ks -> k < n_labels line /\ k < n_systems header) ->
  table_ok header
    (fold_left (fun g k => set_label g (row_id line) (system_name header k)
                                     (row_label line k)) ks gd).
Proof.
  revert gd. induction ks as [|k ks IH]; intros gd Hok Hks; [exact Hok|].
  cbn [fold_left]. apply IH; [|intros k' Hin; apply Hks; right; exact Hin].
  destruct (Hks k (or_introl eq_refl)) as [Hkl Hkn].
  assert (Htok := split_ws_tokens (rstrip line)).
  rewrite Forall_forall in Htok.
  unfold n_labels in Hkl. rewrite length_skipn in Hkl.
  apply set_label_ok; [exact Hok | | apply system_name_In, Hkn |].
  - apply Htok. unfold row_id. apply nth_In. lia.
  - apply Htok. unfold row_label. apply nth_In. lia.
Qed.

Lemma add_row_table_ok {SS : PySet string} (header line : string)
    (gd gd' : grouping_table) (gh gh' : grouping_systems) :
  table_ok header gd ->
  add_row (read_header_names header) (gd, gh) line = Ok (gd', gh') ->
  table_ok header gd'.
Proof.
  intros Hok Hrow.
  assert (Hres := add_row_result header line (gd, gh)).
  destruct (n_labels line <=? n_systems header) eqn:Hle;
    [|rewrite Hres in Hrow; discriminate].
  apply Nat.leb_le in Hle.
  apply add_row_eq in Hrow. destruct Hrow as [-> _].
  apply set_labels_ok; [exact Hok|].
  intros k Hin. apply in_seq in Hin. lia.
Qed.

(** X9: the table that [get_groupings] returns (lines 41-74) is well formed:
    no individual occurs twice; every identifier is a non-empty string
    without whitespace; every individual has at least one label and no
    grouping system twice; every grouping system of an individual is named
    by the header; and every label is a non-empty string without
    whitespace. *)
Theorem loaded_table_ok {SS : PySet string} (fh : list string)
    (gd : grouping_table) (gh : grouping_systems) :
  get_groupings fh = Ok (gd, gh) -> table_ok (hd EmptyString fh) gd.
Proof.
  unfold get_groupings. cbv zeta.
  change (match fh with [] => EmptyString | l :: _ => l end)
    with (hd EmptyString fh).
  intros Hload.
  pose (P := fun acc : grouping_table * grouping_systems =>
               table_ok (hd EmptyString fh) (fst acc)).
  change (P (gd, gh)).
  refine (foldM_inv P _ _ _ ([], []) (gd, gh) _ Hload).
  - intros [gd0 gh0] line [gd1 gh1] Hacc Hrow. unfold P in Hacc |- *.
    cbn [fst] in Hacc |- *.
    exact (add_row_table_ok _ line gd0 gd1 gh0 gh1 Hacc Hrow).
  - unfold P. cbn [fst]. split; [reflexivity | constructor].
Qed.

Lemma loaded_table_ok_witness : table_ok (hd EmptyString ex_groups) ex_table.
Proof.
  apply (loaded_table_ok (SS := ListSet_string) ex_groups ex_table ex_systems).
  vm_compute. reflexivity.
Defined.

(** ** No text cell of the output holds a tab *)

Lemma token_lacks_tab (t : string) : is_token t = true -> lacks tab t = true.
Proof.
  unfold is_token. intros Ht. apply andb_true_iff in Ht. destruct Ht as [_ Ht].
  induction t as [|a t IH]; [reflexivity|].
  cbn [string_all lacks] in Ht |- *. apply andb_true_iff in Ht.
  destruct Ht as [Ha Ht]. rewrite (IH Ht), andb_true_r.
  destruct (Ascii.eqb tab a) eqn:E; [|reflexivity].
  apply Ascii.eqb_eq in E. subst a. discriminate.
Qed.

Lemma lacks_app (c : ascii) (s1 s2 : string) :
  lacks c (s1 ++ s2) = lacks c s1 && lacks c s2.
Proof.
  induction s1 as [|a s1 IH]; cbn [String.append lacks]; [reflexivity|].
  rewrite IH, andb_assoc. reflexivity.
Qed.

Lemma Forall_firstn_of {A} (P : A -> Prop) (n : nat) (l : list A) :
  Forall P l -> Forall P (firstn n l).
Proof.
  revert n. induction l as [|a l IH]; intros [|n] Hl; cbn [firstn];
    try constructor; inversion Hl; subst; auto.
Qed.

Lemma fields_cells_ok (n : nat) (line : string) :
  Forall (fun c => cell_ok c = true) (map Str (firstn n (fields_of line))).
Proof.
  apply Forall_map. apply Forall_firstn_of.
  unfold fields_of. exact (proj2 (join_split_char tab (rstrip line))).
Qed.

Lemma header_row_ok (labels : list string) :
  Forall (fun l => lacks tab l = true) labels ->
  Forall (fun c => cell_ok c = true) (header_row labels).
Proof.
  intros Hl. unfold header_row. apply Forall_app. split.
  - repeat constructor.
  - apply Forall_flat_map. refine (Forall_impl _ _ Hl).
    intros l Hlt. unfold header_cells.
    constructor; [|constructor; [|constructor]];
      cbn [cell_ok]; rewrite lacks_app, Hlt; reflexivity.
Qed.

Section TabFacts.
Context {SI : PySet nat}.

Lemma group_cells_ok (gl : list string) (gs : group_index) :
  Forall (fun c => cell_ok c = true) (group_cells gl gs).
Proof.
  unfold group_cells. apply Forall_flat_map. apply Forall_forall.
  intros kv _. repeat constructor.
Qed.

Lemma labels_of_tabfree (gi : grouping_table) (key : string) :
  labels_tabfree gi ->
  Forall (fun sl => lacks tab (snd sl) = true) (labels_of gi key).
Proof.
  intros Hgi. unfold labels_of.
  destruct (dict_get gi key) as [labels|] eqn:E; [|constructor].
  unfold labels_tabfree in Hgi. rewrite Forall_forall in Hgi.
  exact (Hgi _ (dict_get_In gi key labels E)).
Qed.

Lemma build_keys_tabfree (gi : grouping_table) (names : list string) :
  labels_tabfree gi ->
  Forall (fun l => lacks tab l = true)
         (dict_keys (snd (build_group_sets gi names))).
Proof.
  intros Hgi. apply Forall_forall. intros label Hin.
  rewrite build_keys, first_seen_In, in_map_iff in Hin.
  destruct Hin as [[i l] [Hl Hin]]. cbn [snd] in Hl. subst l.
  apply assignments_In in Hin. destruct Hin as [_ Hin].
  unfold dict_values in Hin. apply in_map_iff in Hin.
  destruct Hin as [[system l] [Hl Hin]]. cbn [snd] in Hl. subst l.
  assert (Hall := labels_of_tabfree gi (nth i names EmptyString) Hgi).
  rewrite Forall_forall in Hall. exact (Hall _ Hin).
Qed.

Lemma build_fst_tabfree (names : list string) (l : list nat)
    (gi : grouping_table) (gs : group_index) :
  labels_tabfree gi ->
  labels_tabfree (fst (fold_left (add_individual names) l (gi, gs))).
Proof.
  revert gi gs. induction l as [|i l IH]; intros gi gs Hgi; [exact Hgi|].
  cbn [fold_left]. unfold add_individual at 2. unfold dd_getitem.
  destruct (dict_get gi (nth i names EmptyString)); apply IH; [exact Hgi|].
  apply Forall_app. split; [exact Hgi | repeat constructor].
Qed.

Lemma process_line_tabfree (use_fid : bool) (st : locals) (line : string)
    (o : ofh) :
  st_tabfree st -> out_ok o ->
  out_ok (snd (process_line use_fid st line o))
  /\ forall st', fst (process_line use_fid st line o) = Ok st' ->
                 st_tabfree st'.
Proof.
  destruct st as [gi gs]. intros [Hgi Hst] [Hd Hp].
  unfold st_ok in Hst. cbn [fst snd] in Hgi, Hst.
  destruct (startswith line hash_mark) eqn:Hh.
  - destruct (startswith line chrom_mark) eqn:Hc.
    + rewrite process_line_header by exact Hc.
      destruct (read_sample_names use_fid line) as [names|e]; cbn [fst snd].
      * split.
        -- split; cbn [done pending]; [|constructor].
           apply Forall_app. split; [exact Hd|]. constructor; [|constructor].
           apply Forall_app. split; [exact Hp|].
           apply header_row_ok, build_keys_tabfree, Hgi.
        -- intros st' [= <-]. split; cbn [fst snd].
           ++ unfold build_group_sets. apply build_fst_tabfree, Hgi.
           ++ unfold st_ok. cbn [snd]. apply build_wf.
      * split; [split; assumption | discriminate].
    + rewrite process_line_comment by assumption. cbn [fst snd].
      split; [split; assumption|]. intros st' [= <-]. split; assumption.
  - destruct gs as [gs|].
    + rewrite process_line_data by assumption.
      destruct (all_called (genotypes line) gs); cbn [fst snd].
      * split.
        -- split; cbn [done pending]; [|constructor].
           apply Forall_app. split; [exact Hd|]. constructor; [|constructor].
           apply Forall_app. split; [exact Hp|]. unfold data_row.
           apply Forall_app. split; [apply fields_cells_ok | apply group_cells_ok].
        -- intros st' [= <-]. split; assumption.
      * split; [|discriminate]. split; cbn [done pending]; [exact Hd|].
        apply Forall_app. split; [exact Hp | apply fields_cells_ok].
    + unfold process_line. rewrite Hh. cbn [negb]. unfold bindW.
      rewrite data_line_unbound. cbn [fst snd]. split; [|discriminate].
      split; cbn [done pending]; [exact Hd|].
      apply Forall_app. split; [exact Hp | apply fields_cells_ok].
Qed.

Lemma process_lines_tabfree (use_fid : bool) (lines : list string)
    (st : locals) (o : ofh) :
  st_tabfree st -> out_ok o ->
  out_ok (snd (process_lines use_fid lines st o)).
Proof.
  revert st o. induction lines as [|line lines IH]; intros st o Hst Ho;
    [exact Ho|].
  cbn [process_lines]. unfold bindW at 1.
  destruct (process_line_tabfree use_fid st line o Hst Ho) as [Ho' Hst'].
  destruct (process_line use_fid st line o) as [[st'|e] o1]; cbn [fst snd] in *.
  - apply IH; [apply Hst'; reflexivity | exact Ho'].
  - exact Ho'.
Qed.

End TabFacts.

Lemma table_ok_tabfree (header : string) (gd : grouping_table) :
  table_ok header gd -> labels_tabfree gd.
Proof.
  intros [_ Hall]. unfold labels_tabfree. refine (Forall_impl _ _ Hall).
  intros [id labels] [_ [_ [_ Hl]]]. cbn [snd] in Hl |- *.
  refine (Forall_impl _ _ Hl). intros sl [_ Ht]. apply token_lacks_tab, Ht.
Qed.

Lemma get_groupings_tabfree {SS : PySet string} (fh : list string)
    (gd : grouping_table) (gh : grouping_systems) :
  get_groupings fh = Ok (gd, gh) -> labels_tabfree gd.
Proof.
  unfold get_groupings. cbv zeta. intros Hload.
  apply (table_ok_tabfree (hd EmptyString fh)).
  change (match fh with [] => EmptyString | l :: _ => l end)
    with (hd EmptyString fh) in Hload.
  pose (P := fun acc : grouping_table * grouping_systems =>
               table_ok (hd EmptyString fh) (fst acc)).
  change (P (gd, gh)).
  refine (foldM_inv P _ _ _ ([], []) (gd, gh) _ Hload).
  - intros [gd0 gh0] line [gd1 gh1] Hacc Hrow.
    exact (add_row_table_ok _ line gd0 gd1 gh0 gh1 Hacc Hrow).
  - split; [reflexivity | constructor].
Qed.

(** X10: whatever the inputs and however the run ends, no text cell that
    [main] writes holds a tab: the leading fields of a row come from
    splitting the line at tabs (line 159) and the labels in the header come
    from splitting the grouping file at whitespace (lines 63 and 69).  So
    the tabs of an output line are exactly the separators the script writes
    (lines 161, 164, 179, 181), and the columns of the output are never
    ambiguous. *)
Theorem output_cells_lack_tab {SI : PySet nat} {SS : PySet string}
    (use_fid : bool) (gfile input : list string) (o : ofh) (r : result unit) :
  main use_fid gfile input = (Some o, r) ->
  Forall (Forall (fun c => cell_ok c = true)) (done o)
  /\ Forall (fun c => cell_ok c = true) (pending o).
Proof.
  unfold main. destruct (get_groupings gfile) as [[gi ghs]|e] eqn:Hg;
    [|discriminate].
  assert (Hst : st_tabfree (gi, @None (list (string * @pyset nat SI)))).
  { split; [|exact I]. cbn [fst].
    exact (get_groupings_tabfree gfile gi ghs Hg). }
  assert (H := process_lines_tabfree use_fid input _ ofh_open Hst
                 (conj (Forall_nil _) (Forall_nil _))).
  destruct (process_lines use_fid input (gi, None) ofh_open) as [r' o'].
  intros [= <- <-]. exact H.
Qed.

Lemma output_cells_lack_tab_witness :
  Forall (Forall (fun c => cell_ok c = true))
         [ [Str "Chr"; Str "Position"; Str "rsID"; Str "Ref"; Str "Alt";
            Str "x_freq"; Str "x_count"; Str "y_freq"; Str "y_count"];
           [Str "1"; Str "100"; Str "rs1"; Str "A"; Str "G";
            Float (1 # 4); Int 4; Float 1; Int 2] ]
  /\ Forall (fun c => cell_ok c = true)
            [Str "1"; Str "200"; Str "rs2"; Str "A"; Str "G"].
Proof.
  apply (output_cells_lack_tab (SI := ListSet_nat) (SS := ListSet_string)
           false ex_groups
           (ex_meta ++ [ex_header; ex_row; ex_missing_row; ex_row])
           {| done := [ [Str "Chr"; Str "Position"; Str "rsID"; Str "Ref";
                         Str "Alt"; Str "x_freq"; Str "x_count";
                         Str "y_freq"; Str "y_count"];
                        [Str "1"; Str "100"; Str "rs1"; Str "A"; Str "G";
                         Float (1 # 4); Int 4; Float 1; Int 2] ];
              pending := [Str "1"; Str "200"; Str "rs2"; Str "A"; Str "G"] |}
           (Err ZeroDivisionError)).
  vm_compute. reflexivity.
Defined.

(** ** Genotype fields beyond the sample columns *)

Lemma forallb_ext_in {A} (f g : A -> bool) (l : list A) :
  (forall a, In a l -> f a = g a) -> forallb f l = forallb g l.
Proof.
  induction l as [|a l IH]; intros Hfg; [reflexivity|]. cbn [forallb].
  rewrite (Hfg a (or_introl eq_refl)), IH; [reflexivity|].
  intros b Hb. apply Hfg. right. exact Hb.
Qed.

Lemma filter_none {A} (f : A -> bool) (l : list A) :
  (forall a, In a l -> f a = false) -> filter f l = [].
Proof.
  induction l as [|a l IH]; intros Hf; [reflexivity|]. cbn [filter].
  rewrite (Hf a (or_introl eq_refl)). apply IH.
  intros b Hb. apply Hf. right. exact Hb.
Qed.

Section ExtraFieldFacts.
Context {SI : PySet nat}.

Lemma group_fields_app (gl extra : list string) (members : int_set) :
  (forall i, set_mem i members = true -> i < List.length gl) ->
  group_fields (gl ++ extra) members = group_fields gl members.
Proof.
  intros Hm. unfold group_fields. rewrite length_app, seq_app, filter_app.
  cbn [Nat.add].
  rewrite (filter_none _ (seq (List.length gl) (List.length extra))).
  - rewrite app_nil_r. apply map_ext_in. intros i Hi.
    apply filter_In in Hi. destruct Hi as [_ Hi].
    apply app_nth1, Hm, Hi.
  - intros i Hi. apply in_seq in Hi.
    destruct (set_mem i members) eqn:Ei; [|reflexivity].
    apply Hm in Ei. lia.
Qed.

Lemma build_positions_bounded (gi : grouping_table) (names : list string)
    (label : string) (members : int_set) (i : nat) :
  In (label, members) (snd (build_group_sets gi names)) ->
  set_mem i members = true -> i < List.length names.
Proof.
  intros Hin Hi.
  assert (Hget := In_dict_get _ label members (build_wf gi names) Hin).
  assert (Hg : in_group (snd (build_group_sets gi names)) label i = true).
  { unfold in_group. rewrite Hget. exact Hi. }
  apply build_in_group, assignments_In in Hg. tauto.
Qed.

Lemma get_frequencies_app (gl extra : list string) (gs : group_index) :
  dict_wf gs = true ->
  (forall label members i,
      In (label, members) gs -> set_mem i members = true ->
      i < List.length gl) ->
  get_frequencies (gl ++ extra) gs = get_frequencies gl gs.
Proof.
  intros Hwf Hb. rewrite !get_frequencies_eq by exact Hwf.
  assert (Hf : forall label members,
             In (label, members) gs ->
             group_fields (gl ++ extra) members = group_fields gl members).
  { intros label members Hin. apply group_fields_app.
    intros i Hi. exact (Hb label members i Hin Hi). }
  assert (Hall : all_called (gl ++ extra) gs = all_called gl gs).
  { unfold all_called. apply forallb_ext_in. intros [label members] Hin.
    cbn [snd]. unfold call_total. rewrite (Hf label members Hin).
    reflexivity. }
  rewrite Hall.
  rewrite (tabulate_ext (frequency (gl ++ extra)) (frequency gl) gs),
          (tabulate_ext (call_total (gl ++ extra)) (call_total gl) gs);
    [reflexivity | |].
  - intros label members Hin. unfold call_total.
    rewrite (Hf label members Hin). reflexivity.
  - intros label members Hin. unfold frequency, allele_hits, call_total.
    rewrite (Hf label members Hin). reflexivity.
Qed.

End ExtraFieldFacts.

(** X11: the length of a data row is never checked against the sample
    header (lines 100-104 and 162).  Genotype fields beyond the sample
    columns of the header are ignored: they change neither the frequencies
    nor the counts, nor whether [get_frequencies] raises. *)
Theorem extra_fields_ignored {SI : PySet nat} (gi : grouping_table)
    (names gl extra : list string) :
  List.length names <= List.length gl ->
  get_frequencies (gl ++ extra) (snd (build_group_sets gi names))
  = get_frequencies gl (snd (build_group_sets gi names)).
Proof.
  intros Hlen. apply get_frequencies_app; [apply build_wf|].
  intros label members i Hin Hi.
  assert (Hb := build_positions_bounded gi names label members i Hin Hi). lia.
Qed.

Lemma extra_fields_ignored_witness :
  get_frequencies (["0/1"; "1/1"; "0/0"]%string ++ ["1/1"; "7"]%string)
                  (snd (build_group_sets ex_table ex_names))
  = get_frequencies ["0/1"; "1/1"; "0/0"]%string
                    (snd (build_group_sets ex_table ex_names)).
Proof.
  apply (extra_fields_ignored (SI := ListSet_nat) ex_table ex_names
           ["0/1"; "1/1"; "0/0"]%string ["1/1"; "7"]%string).
  simpl. lia.
Defined.

(** ** The leading columns are copied verbatim *)





(** ** A grouping file that does not load *)

(** X13: when some data row of the grouping file has more label fields than
    the header names grouping systems, [main] ends with the [KeyError] of
    the loader before the output file is opened (lines 145 and 155):
    nothing is written, whatever the variant file holds. *)
Theorem long_row_stops_before_output {SI : PySet nat} {SS : PySet string}
    (use_fid : bool) (gfile input : list string) :
  forallb (fun line => n_labels line <=? n_systems (hd EmptyString gfile))
          (skipn 1 gfile) = false ->
  main use_fid gfile input
  = (None, Err (KeyError_int (n_systems (hd EmptyString gfile)))).
Proof.
  intros Hlong. unfold main, get_groupings. cbv zeta.
  change (match gfile with [] => EmptyString | l :: _ => l end)
    with (hd EmptyString gfile).
  assert (H := add_rows_result (hd EmptyString gfile) (skipn 1 gfile) ([], [])).
  rewrite Hlong in H. rewrite H. reflexivity.
Qed.

Lemma long_row_stops_before_output_witness :
  main false (map text_line ["ID SYS1"; "A x"; "B y z"]%string)
       [ex_header; ex_row]
  = (None,
     Err (KeyError_int
            (n_systems (hd EmptyString
                           (map text_line ["ID SYS1"; "A x"; "B y z"]%string))))).
Proof.
  apply (long_row_stops_before_output (SI := ListSet_nat)
           (SS := ListSet_string) false
           (map text_line ["ID SYS1"; "A x"; "B y z"]%string)
           [ex_header; ex_row]).
  vm_compute. reflexivity.
Defined.

(** ** No sample of the header is in the table *)

Lemma assignments_absent (gi : grouping_table) (names : list string) :
  Forall (fun key => dict_get gi key = None) names ->
  assignments gi names = [].
Proof.
  intros Habs. unfold assignments.
  assert (H : forall l,
             (forall i, In i l -> i < List.length names) ->
             flat_map (fun i => map (fun label => (i, label))
                                    (dict_values
                                       (labels_of gi (nth i names EmptyString))))
                      l = []).
  { induction l as [|i l IH]; intros Hl; [reflexivity|].
    cbn [flat_map]. rewrite IH by (intros j Hj; apply Hl; right; exact Hj).
    rewrite Forall_forall in Habs. unfold labels_of.
    rewrite (Habs (nth i names EmptyString)); [reflexivity|].
    apply nth_In, Hl. left. reflexivity. }
  apply H. intros i Hi. apply in_seq in Hi. lia.
Qed.

(** X14: when none of the keys resolved from the sample header is in the
    grouping table (for instance because the other resolution policy was
    meant), nothing is reported: the index is empty, the output header has
    the five fixed columns only, every data row is written with its leading
    fields alone, and the run finishes; no division takes place. *)
Theorem no_sample_in_table {SI : PySet nat} {SS : PySet string}
    (use_fid : bool) (gfile : list string) (gi : grouping_table)
    (ghs : grouping_systems) (meta : list string) (hdr : string)
    (body : list string) (names : list string) :
  get_groupings gfile = Ok (gi, ghs) ->
  forallb (fun l => startswith l hash_mark && negb (startswith l chrom_mark))
          meta = true ->
  startswith hdr chrom_mark = true ->
  read_sample_names use_fid hdr = Ok names ->
  Forall (fun key => dict_get gi key = None) names ->
  forallb (fun l => negb (startswith l chrom_mark)) body = true ->
  snd (build_group_sets gi names) = []
  /\ main use_fid gfile (meta ++ hdr :: body)
     = (Some {| done := fixed_columns
                        :: map (fun l => map Str (firstn 5 (fields_of l)))
                               (filter is_data body);
                pending := [] |},
        Ok tt).
Proof.
  intros Hg Hmeta Hhdr Hnames Habs Hbody.
  assert (Hgs : snd (build_group_sets gi names) = []).
  { rewrite build_group_sets_eq, (assignments_absent gi names Habs).
    reflexivity. }
  split; [exact Hgs|].
  assert (Hrun := main_run use_fid gfile gi ghs meta hdr body [] names
                           Hg Hmeta Hhdr Hnames Hbody).
  rewrite app_nil_r in Hrun. rewrite Hrun.
  - rewrite Hgs. cbn [process_lines]. unfold retW, header_row.
    cbn [dict_keys map flat_map]. rewrite app_nil_r.
    assert (Hrows : map (data_row []) (filter is_data body)
                    = map (fun l => map Str (firstn 5 (fields_of l)))
                          (filter is_data body)).
    { apply map_ext. intros l. unfold data_row, group_cells.
      cbn [flat_map]. apply app_nil_r. }
    rewrite Hrows. reflexivity.
  - rewrite Hgs. apply forallb_forall. intros l _.
    unfold all_called. cbn [forallb]. apply orb_true_r.
Qed.

Lemma no_sample_in_table_witness :
  snd (build_group_sets ex_table ["FAM1"; "FAM2"]%string) = []
  /\ main true ex_groups
          (ex_meta ++ vcf_columns ["FAM1_A"; "FAM2_B"]%string
                   :: [vcf_row "100" "rs1" ["0/1"; "./."]%string])
     = (Some {| done := fixed_columns
                        :: map (fun l => map Str (firstn 5 (fields_of l)))
                               (filter is_data
                                  [vcf_row "100" "rs1" ["0/1"; "./."]%string]);
                pending := [] |},
        Ok tt).
Proof.
  apply (no_sample_in_table (SI := ListSet_nat) (SS := ListSet_string)
           true ex_groups ex_table ex_systems ex_meta
           (vcf_columns ["FAM1_A"; "FAM2_B"]%string)
           [vcf_row "100" "rs1" ["0/1"; "./."]%string]
           ["FAM1"; "FAM2"]%string);
    try (vm_compute; reflexivity).
  repeat constructor.
Defined.
